(** * GeoTools: bounding rectangles of geometry strings and GeoJSON files

    A shallow embedding of the two scripts of the repository,

    - [ExcelGeometryBoundsProcessor/excel_geometry_bounds_processor.py]
      (class [GeometryProcessor], the tabular mode), and
    - [CreateRectangleByGeojson/create_rectangle_from_geojson.py]
      (class [GeoJsonBatchProcessor], the GeoJSON mode),

    together with the part of the Python run time they rely on
    ([json.loads], the regular expressions of [re], [min], [max], [float],
    [str.strip], ...), followed by the properties of the specification
    and by further properties of the code.

    Conventions of the model.

    - A Python [str] is a [string]: ASCII characters are themselves, any
      other character is the opaque byte sequence of its UTF-8 encoding.
      The Unicode-aware [\s], [\d], [upper] and [lower] of Python agree with
      the model on ASCII text; non-ASCII blanks, digits and the few letters
      whose case mapping is an ASCII letter are not covered.
    - Python numbers are exact rationals extended with the three non-finite
      floats that [json.loads] produces ([NaN], [Infinity], [-Infinity]);
      [int] and [float] are not told apart, and the rounding and the
      overflow of floats are not modelled.
    - A function that can raise returns a [result]; the exception carries
      its class only, not its message.
    - The recursion limit of the interpreter is not modelled. *)

From Stdlib Require Import String Ascii List ZArith QArith Qminmax Lqa Lia Bool Arith.
Import ListNotations.

Close Scope Q_scope.
Open Scope string_scope.
Open Scope list_scope.

(* ================================================================== *)
(** * Python values and built-in operations *)
(* ================================================================== *)

Module Py.

(** Exception classes that the scripts can meet; [OtherException] stands
    for the classes of the libraries that the model does not name. *)
Inductive exn : Type :=
| ValueError
| TypeError
| IndexError
| KeyError
| AttributeError
| OSError
| OtherException.

Inductive result (A : Type) : Type :=
| Ok (a : A)
| Raise (e : exn).

Arguments Ok {A} a.
Arguments Raise {A} e.

Definition bind {A B : Type} (m : result A) (k : A -> result B) : result B :=
  match m with
  | Ok a => k a
  | Raise e => Raise e
  end.

(** [try: m  except Exception: raise ValueError(...)] *)
Definition reraise_ValueError {A : Type} (m : result A) : result A :=
  match m with
  | Ok a => Ok a
  | Raise _ => Raise ValueError
  end.

(** Monadic map over a list, left to right, stopping at the first
    exception: the shape of a list comprehension or of a [for] loop whose
    body can raise. *)
Fixpoint mapM {A B : Type} (f : A -> result B) (l : list A) : result (list B) :=
  match l with
  | [] => Ok []
  | x :: r =>
      match f x with
      | Raise e => Raise e
      | Ok y =>
          match mapM f r with
          | Raise e => Raise e
          | Ok ys => Ok (y :: ys)
          end
      end
  end.

(** ** Numbers *)

Inductive number : Type :=
| Fin (q : Q)
| PosInf
| NegInf
| NaN.

Definition Qltb (x y : Q) : bool := negb (Qle_bool y x).

(** [a < b] on Python numbers; every comparison with [nan] is false. *)
Definition num_lt (a b : number) : bool :=
  match a, b with
  | NaN, _ | _, NaN => false
  | Fin x, Fin y => Qltb x y
  | NegInf, NegInf => false
  | NegInf, _ => true
  | _, NegInf => false
  | PosInf, _ => false
  | Fin _, PosInf => true
  end.

Definition num_add (a b : number) : number :=
  match a, b with
  | NaN, _ | _, NaN => NaN
  | Fin x, Fin y => Fin (Qred (x + y))
  | PosInf, NegInf | NegInf, PosInf => NaN
  | PosInf, _ | _, PosInf => PosInf
  | NegInf, _ | _, NegInf => NegInf
  end.

Definition num_neg (a : number) : number :=
  match a with
  | Fin x => Fin (Qred (- x))
  | PosInf => NegInf
  | NegInf => PosInf
  | NaN => NaN
  end.

Definition num_sub (a b : number) : number :=
  match a, b with
  | Fin x, Fin y => Fin (Qred (x - y))
  | _, _ => num_add a (num_neg b)
  end.

(** [a / 2] *)
Definition num_half (a : number) : number :=
  match a with
  | Fin x => Fin (Qred (x / (2 # 1)))
  | _ => a
  end.

(** ** Values: what [json.loads] builds, and what the scripts build *)

#[warnings="-register-all"]
Inductive value : Type :=
| VNone
| VBool (b : bool)
| VNum (n : number)
| VStr (s : string)
| VList (l : list value)
| VDict (d : list (string * value)).

(** The integer literal [n] and the decimal literal [n / d]. *)
Definition VInt (n : Z) : value := VNum (Fin (n # 1)).
Definition VDec (n : Z) (d : positive) : value := VNum (Fin (Qred (n # d))).

(** [isinstance(v, (int, float))]; [bool] is a subclass of [int]. *)
Definition is_number (v : value) : bool :=
  match v with
  | VNum _ | VBool _ => true
  | _ => false
  end.

Definition to_number (v : value) : option number :=
  match v with
  | VNum n => Some n
  | VBool true => Some (Fin (1 # 1))
  | VBool false => Some (Fin (0 # 1))
  | _ => None
  end.

(** [a < b].  Numbers are ordered; the model answers [TypeError] for every
    other pair.  Python also orders two strings and two lists, but
    [calculate_bounds], the only user, then divides the sum of two such
    values by 2, which raises the same [TypeError]. *)
Definition py_lt (a b : value) : result bool :=
  match to_number a, to_number b with
  | Some x, Some y => Ok (num_lt x y)
  | _, _ => Raise TypeError
  end.

Definition py_add (a b : value) : result value :=
  match to_number a, to_number b with
  | Some x, Some y => Ok (VNum (num_add x y))
  | _, _ => Raise TypeError
  end.

Definition py_sub (a b : value) : result value :=
  match to_number a, to_number b with
  | Some x, Some y => Ok (VNum (num_sub x y))
  | _, _ => Raise TypeError
  end.

(** [a / 2] *)
Definition py_half (a : value) : result value :=
  match to_number a with
  | Some x => Ok (VNum (num_half x))
  | None => Raise TypeError
  end.

(** [min(l)]: the first least element; [ValueError] on the empty list. *)
Fixpoint min_from (best : value) (l : list value) : result value :=
  match l with
  | [] => Ok best
  | x :: r =>
      match py_lt x best with
      | Raise e => Raise e
      | Ok true => min_from x r
      | Ok false => min_from best r
      end
  end.

Definition py_min (l : list value) : result value :=
  match l with
  | [] => Raise ValueError
  | x :: r => min_from x r
  end.

(** [max(l)]: the first greatest element ([x > best] is [best < x] on
    numbers). *)
Fixpoint max_from (best : value) (l : list value) : result value :=
  match l with
  | [] => Ok best
  | x :: r =>
      match py_lt best x with
      | Raise e => Raise e
      | Ok true => max_from x r
      | Ok false => max_from best r
      end
  end.

Definition py_max (l : list value) : result value :=
  match l with
  | [] => Raise ValueError
  | x :: r => max_from x r
  end.

(** ** Dictionaries *)

Fixpoint dict_lookup (d : list (string * value)) (k : string) : option value :=
  match d with
  | [] => None
  | (k', v) :: r => if String.eqb k k' then Some v else dict_lookup r k
  end.

(** [d[k] = v]: a key keeps the position of its first insertion. *)
Fixpoint dict_set (d : list (string * value)) (k : string) (v : value)
  : list (string * value) :=
  match d with
  | [] => [(k, v)]
  | (k', v') :: r =>
      if String.eqb k k' then (k, v) :: r else (k', v') :: dict_set r k v
  end.

(** [k in v] for a value known to be a dictionary. *)
Definition dict_has (d : list (string * value)) (k : string) : bool :=
  match dict_lookup d k with
  | Some _ => true
  | None => false
  end.

(** [v.get(k, default)]: only a dictionary has the method. *)
Definition py_get (v : value) (k : string) (default : value) : result value :=
  match v with
  | VDict d =>
      match dict_lookup d k with
      | Some x => Ok x
      | None => Ok default
      end
  | _ => Raise AttributeError
  end.

(** ** Sequences *)

Fixpoint chars (s : string) : list value :=
  match s with
  | EmptyString => []
  | String c r => VStr (String c EmptyString) :: chars r
  end.

(** The items of [for x in v]. *)
Definition py_iter (v : value) : result (list value) :=
  match v with
  | VList l => Ok l
  | VStr s => Ok (chars s)
  | VDict d => Ok (map (fun kv => VStr (fst kv)) d)
  | _ => Raise TypeError
  end.

(** [v[i]] for a non-negative integer literal [i].  A dictionary built by
    [json.loads] has string keys only, so an integer key is absent. *)
Definition py_getitem (v : value) (i : nat) : result value :=
  match v with
  | VList l =>
      match nth_error l i with
      | Some x => Ok x
      | None => Raise IndexError
      end
  | VStr s =>
      match nth_error (chars s) i with
      | Some x => Ok x
      | None => Raise IndexError
      end
  | VDict _ => Raise KeyError
  | _ => Raise TypeError
  end.

(** Truth value: [not v] is its negation. *)
Definition py_truthy (v : value) : bool :=
  match v with
  | VNone => false
  | VBool b => b
  | VNum (Fin q) => negb (Qeq_bool q 0)
  | VNum _ => true
  | VStr s => negb (String.eqb s "")
  | VList l => match l with [] => false | _ => true end
  | VDict d => match d with [] => false | _ => true end
  end.

(** ** Characters and strings *)

Definition code (c : ascii) : N := N_of_ascii c.

Definition in_range (lo hi : N) (c : ascii) : bool :=
  (N.leb lo (code c) && N.leb (code c) hi)%bool.

(** [str.isspace], also the class [\s]: tab, line feed, vertical tab, form
    feed, carriage return, the four separators 0x1c-0x1f and the blank. *)
Definition is_space (c : ascii) : bool :=
  (in_range 9 13 c || in_range 28 32 c)%bool.

(** The class [\d]. *)
Definition is_digit (c : ascii) : bool := in_range 48 57 c.

Definition is_upper (c : ascii) : bool := in_range 65 90 c.
Definition is_lower (c : ascii) : bool := in_range 97 122 c.

Definition upper_char (c : ascii) : ascii :=
  if is_lower c then ascii_of_N (code c - 32) else c.

Definition lower_char (c : ascii) : ascii :=
  if is_upper c then ascii_of_N (code c + 32) else c.

Fixpoint map_string (f : ascii -> ascii) (s : string) : string :=
  match s with
  | EmptyString => EmptyString
  | String c r => String (f c) (map_string f r)
  end.

(** [s.upper()] and [s.lower()] *)
Definition upper (s : string) : string := map_string upper_char s.
Definition lower (s : string) : string := map_string lower_char s.

(** [v.lower()]: only a string has the method. *)
Definition py_lower (v : value) : result string :=
  match v with
  | VStr s => Ok (lower s)
  | _ => Raise AttributeError
  end.

Fixpoint lstrip (s : string) : string :=
  match s with
  | EmptyString => EmptyString
  | String c r => if is_space c then lstrip r else s
  end.

Fixpoint rstrip (s : string) : string :=
  match s with
  | EmptyString => EmptyString
  | String c r =>
      match rstrip r with
      | EmptyString => if is_space c then EmptyString else String c EmptyString
      | r' => String c r'
      end
  end.

(** [s.strip()] *)
Definition strip (s : string) : string := rstrip (lstrip s).

(** The longest prefix of [s] made of characters of the class [p], and the
    rest. *)
Fixpoint span (p : ascii -> bool) (s : string) : string * string :=
  match s with
  | EmptyString => (EmptyString, EmptyString)
  | String c r =>
      if p c then let (a, b) := span p r in (String c a, b)
      else (EmptyString, s)
  end.

Definition digit_val (c : ascii) : Z := Z.of_N (code c) - 48.

Fixpoint digits_from (acc : Z) (s : string) : Z :=
  match s with
  | EmptyString => acc
  | String c r => digits_from (10 * acc + digit_val c) r
  end.

(** The number written [ip.fp] times ten to the [e], negated when [neg]. *)
Definition decimal (neg : bool) (ip fp : string) (e : Z) : Q :=
  let m := digits_from 0 (ip ++ fp) in
  let m := if neg then (- m)%Z else m in
  let sh := (e - Z.of_nat (String.length fp))%Z in
  if (0 <=? sh)%Z then Qred ((m * 10 ^ sh) # 1)
  else Qred (m # Z.to_pos (10 ^ (- sh))).

(** [float(s)] on the spellings the scripts pass to it, the matches of
    [-?\d+\.?\d*]: an optional sign, digits, an optional point, digits.
    Any other string is answered [ValueError]; Python accepts more
    (exponents, [inf], [nan], surrounding blanks), none of which a match of
    that pattern can be. *)
(** [s] without its first character when that is [c], and whether it was. *)
Definition strip_char (c : ascii) (s : string) : bool * string :=
  match s with
  | String c' r => if Ascii.eqb c' c then (true, r) else (false, s)
  | EmptyString => (false, s)
  end.

Definition py_float (s : string) : result value :=
  let (neg, r0) := strip_char "-" s in
  let (ip, r1) := span is_digit r0 in
  match ip with
  | EmptyString => Raise ValueError
  | _ =>
      let r2 := snd (strip_char "." r1) in
      let (fp, r3) := span is_digit r2 in
      match r3 with
      | EmptyString => Ok (VNum (Fin (decimal neg ip fp 0)))
      | _ => Raise ValueError
      end
  end.

End Py.

Export Py.

Declare Scope py_scope.
Delimit Scope py_scope with py.
Notation "x <- m ;; k" := (bind m (fun x => k))
  (at level 61, m at next level, right associativity) : py_scope.
Open Scope py_scope.

(* ================================================================== *)
(** * [json.loads] *)
(* ================================================================== *)

(** The decoder of the standard library (the C scanner, strict mode): the
    grammar of RFC 8259 with the constants [NaN], [Infinity] and
    [-Infinity].  [None] stands for [json.JSONDecodeError].  The text is
    cut into tokens by a character automaton, and the tokens are assembled
    by a stack automaton; both are structural recursions, so the decoder is
    total.  A number or a literal name is read as the longest run of
    letters, digits, signs and points and then checked against the grammar:
    in a text that Python accepts no such character follows a complete
    value, so the outcome is the same. *)

Module Json.

Inductive token : Type :=
| TLBrace | TRBrace | TLBrack | TRBrack | TComma | TColon
| TVal (v : value).

(** A character of a string literal, or the code unit of a [\uXXXX]. *)
Inductive sitem : Type :=
| SChar (c : ascii)
| SCode (n : N).

Inductive lex_mode : Type :=
| LIdle
| LAtom (acc : string)                        (* reversed *)
| LStr (acc : list sitem)                     (* reversed *)
| LEsc (acc : list sitem)
| LHex (acc : list sitem) (n : N) (k : nat).  (* [k] hex digits read *)

Definition is_json_ws (c : ascii) : bool :=
  (Ascii.eqb c " " || Ascii.eqb c "009" || Ascii.eqb c "010"
   || Ascii.eqb c "013")%bool.

Definition is_atom_char (c : ascii) : bool :=
  (is_digit c || is_upper c || is_lower c
   || Ascii.eqb c "-" || Ascii.eqb c "+" || Ascii.eqb c ".")%bool.

Definition hex_val (c : ascii) : option N :=
  if is_digit c then Some (code c - 48)%N
  else if in_range 97 102 c then Some (code c - 87)%N
  else if in_range 65 70 c then Some (code c - 55)%N
  else None.

Definition byte (n : N) : ascii := ascii_of_N n.

(** UTF-8 bytes of a code point (a lone surrogate is written the same way). *)
Definition utf8 (n : N) : string :=
  (if n <? 128 then String (byte n) ""
   else if n <? 2048 then
     String (byte (192 + n / 64)) (String (byte (128 + n mod 64)) "")
   else if n <? 65536 then
     String (byte (224 + n / 4096))
       (String (byte (128 + (n / 64) mod 64))
          (String (byte (128 + n mod 64)) ""))
   else
     String (byte (240 + n / 262144))
       (String (byte (128 + (n / 4096) mod 64))
          (String (byte (128 + (n / 64) mod 64))
             (String (byte (128 + n mod 64)) ""))))%N.

Definition is_high (n : N) : bool := ((55296 <=? n) && (n <=? 56319))%N.
Definition is_low (n : N) : bool := ((56320 <=? n) && (n <=? 57343))%N.

(** The text of a string literal: an escaped high surrogate directly
    followed by an escaped low surrogate is one character. *)
Fixpoint decode_items (l : list sitem) : string :=
  match l with
  | [] => ""
  | SChar c :: r => String c (decode_items r)
  | SCode hi :: r =>
      match r with
      | SCode lo :: r' =>
          if (is_high hi && is_low lo)%bool
          then utf8 (65536 + (hi - 55296) * 1024 + (lo - 56320))%N
                 ++ decode_items r'
          else utf8 hi ++ decode_items r
      | _ => utf8 hi ++ decode_items r
      end
  end.

Fixpoint rev_string (acc s : string) : string :=
  match s with
  | EmptyString => acc
  | String c r => rev_string (String c acc) r
  end.

(** The number grammar of the decoder, matched against a whole atom: an
    optional minus, an integer part without a superfluous leading zero, an
    optional fraction (a point and digits), an optional exponent ([e] or
    [E], a sign, digits). *)
Definition json_number (a : string) : option number :=
  let (neg, r0) := strip_char "-" a in
  let (ip, r1) := span is_digit r0 in
  let ip_ok :=
    match ip with
    | EmptyString => false
    | String "0" (String _ _) => false
    | _ => true
    end in
  let frac :=
    match r1 with
    | String "." r =>
        let (fp, r') := span is_digit r in
        match fp with
        | EmptyString => None
        | _ => Some (fp, r')
        end
    | _ => Some (EmptyString, r1)
    end in
  match frac with
  | None => None
  | Some (fp, r2) =>
      let expo :=
        match r2 with
        | EmptyString => Some 0%Z
        | String c r =>
            if (Ascii.eqb c "e" || Ascii.eqb c "E")%bool then
              let (eneg, r') :=
                match r with
                | String "-" t => (true, t)
                | String "+" t => (false, t)
                | _ => (false, r)
                end in
              let (ep, r'') := span is_digit r' in
              match ep, r'' with
              | String _ _, EmptyString =>
                  let e := digits_from 0 ep in
                  Some (if eneg then (- e)%Z else e)
              | _, _ => None
              end
            else None
        end in
      match expo with
      | Some e => if ip_ok then Some (Fin (decimal neg ip fp e)) else None
      | None => None
      end
  end.

(** The value of a maximal run of atom characters. *)
Definition atom_value (a : string) : option value :=
  if String.eqb a "null" then Some VNone
  else if String.eqb a "true" then Some (VBool true)
  else if String.eqb a "false" then Some (VBool false)
  else if String.eqb a "NaN" then Some (VNum NaN)
  else if String.eqb a "Infinity" then Some (VNum PosInf)
  else if String.eqb a "-Infinity" then Some (VNum NegInf)
  else match json_number a with
       | Some n => Some (VNum n)
       | None => None
       end.

Definition quote : ascii := "034".
Definition backslash : ascii := "092".

(** One character read outside a string literal and outside an atom. *)
Definition idle_step (c : ascii) (out : list token)
  : option (lex_mode * list token) :=
  if is_json_ws c then Some (LIdle, out)
  else if Ascii.eqb c "{" then Some (LIdle, TLBrace :: out)
  else if Ascii.eqb c "}" then Some (LIdle, TRBrace :: out)
  else if Ascii.eqb c "[" then Some (LIdle, TLBrack :: out)
  else if Ascii.eqb c "]" then Some (LIdle, TRBrack :: out)
  else if Ascii.eqb c "," then Some (LIdle, TComma :: out)
  else if Ascii.eqb c ":" then Some (LIdle, TColon :: out)
  else if Ascii.eqb c quote then Some (LStr [], out)
  else if is_atom_char c then Some (LAtom (String c ""), out)
  else None.

Definition escape_char (c : ascii) : option ascii :=
  if Ascii.eqb c quote then Some quote
  else if Ascii.eqb c backslash then Some backslash
  else if Ascii.eqb c "/" then Some "/"%char
  else if Ascii.eqb c "b" then Some "008"%char
  else if Ascii.eqb c "f" then Some "012"%char
  else if Ascii.eqb c "n" then Some "010"%char
  else if Ascii.eqb c "r" then Some "013"%char
  else if Ascii.eqb c "t" then Some "009"%char
  else None.

Definition lex_step (m : lex_mode) (c : ascii) (out : list token)
  : option (lex_mode * list token) :=
  match m with
  | LIdle => idle_step c out
  | LAtom acc =>
      if is_atom_char c then Some (LAtom (String c acc), out)
      else match atom_value (rev_string "" acc) with
           | Some v => idle_step c (TVal v :: out)
           | None => None
           end
  | LStr acc =>
      if Ascii.eqb c quote
      then Some (LIdle, TVal (VStr (decode_items (rev acc))) :: out)
      else if Ascii.eqb c backslash then Some (LEsc acc, out)
      else if (code c <=? 31)%N then None
      else Some (LStr (SChar c :: acc), out)
  | LEsc acc =>
      if Ascii.eqb c "u" then Some (LHex acc 0 0, out)
      else match escape_char c with
           | Some x => Some (LStr (SChar x :: acc), out)
           | None => None
           end
  | LHex acc n k =>
      match hex_val c with
      | None => None
      | Some d =>
          let n' := (16 * n + d)%N in
          if Nat.eqb k 3 then Some (LStr (SCode n' :: acc), out)
          else Some (LHex acc n' (S k), out)
      end
  end.

Definition lex_end (m : lex_mode) (out : list token) : option (list token) :=
  match m with
  | LIdle => Some (rev out)
  | LAtom acc =>
      match atom_value (rev_string "" acc) with
      | Some v => Some (rev (TVal v :: out))
      | None => None
      end
  | _ => None
  end.

Fixpoint lex (m : lex_mode) (out : list token) (s : string)
  : option (list token) :=
  match s with
  | EmptyString => lex_end m out
  | String c r =>
      match lex_step m c out with
      | Some (m', out') => lex m' out' r
      | None => None
      end
  end.

(** An open container: an array with its items so far (reversed), an
    object with its pairs so far, or the key whose value is being read. *)
Inductive frame : Type :=
| FArr (acc : list value)
| FObj (d : list (string * value))
| FKey (k : string).

Inductive expect : Type :=
| EValue            (* a value *)
| EArrOpen          (* after [[]: a value or []] *)
| EObjOpen          (* after [{]: a key or [}] *)
| EKey              (* after [,] in an object: a key *)
| EColon (k : string)
| ENext             (* after a value in a container: [,] or the closer *)
| EEnd (v : value). (* the text is complete *)

(** A value [v] has just been completed below the frames [stk]. *)
Definition close_value (v : value) (stk : list frame)
  : option (expect * list frame) :=
  match stk with
  | [] => Some (EEnd v, [])
  | FArr acc :: r => Some (ENext, FArr (v :: acc) :: r)
  | FKey k :: FObj d :: r => Some (ENext, FObj (dict_set d k v) :: r)
  | _ => None
  end.

Definition open_value (t : token) (stk : list frame)
  : option (expect * list frame) :=
  match t with
  | TVal v => close_value v stk
  | TLBrack => Some (EArrOpen, FArr [] :: stk)
  | TLBrace => Some (EObjOpen, FObj [] :: stk)
  | _ => None
  end.

Definition read_key (t : token) (stk : list frame)
  : option (expect * list frame) :=
  match t with
  | TVal (VStr k) => Some (EColon k, stk)
  | _ => None
  end.

Definition parse_step (e : expect) (stk : list frame) (t : token)
  : option (expect * list frame) :=
  match e with
  | EValue => open_value t stk
  | EArrOpen =>
      match t, stk with
      | TRBrack, FArr acc :: r => close_value (VList (rev acc)) r
      | _, _ => open_value t stk
      end
  | EObjOpen =>
      match t, stk with
      | TRBrace, FObj d :: r => close_value (VDict d) r
      | _, _ => read_key t stk
      end
  | EKey => read_key t stk
  | EColon k =>
      match t with
      | TColon => Some (EValue, FKey k :: stk)
      | _ => None
      end
  | ENext =>
      match t, stk with
      | TComma, FArr _ :: _ => Some (EValue, stk)
      | TComma, FObj _ :: _ => Some (EKey, stk)
      | TRBrack, FArr acc :: r => close_value (VList (rev acc)) r
      | TRBrace, FObj d :: r => close_value (VDict d) r
      | _, _ => None
      end
  | EEnd _ => None
  end.

Fixpoint parse (e : expect) (stk : list frame) (ts : list token)
  : option value :=
  match ts with
  | [] => match e with EEnd v => Some v | _ => None end
  | t :: r =>
      match parse_step e stk t with
      | Some (e', stk') => parse e' stk' r
      | None => None
      end
  end.

Definition loads (s : string) : option value :=
  match lex LIdle [] s with
  | Some ts => parse EValue [] ts
  | None => None
  end.

End Json.

(* ================================================================== *)
(** * Regular expressions *)
(* ================================================================== *)

(** The fragment of [re] that the patterns of the scripts use: literal
    characters, the classes [\s], [\d] and [.], an optional item, and the
    greedy repetition of a class.  [rests r s] lists what is left of [s]
    after each way of matching [r] at its start, in the order in which the
    backtracking matcher of Python tries them; the matcher takes the first
    one with which the rest of the pattern succeeds. *)

Module Re.

Inductive regex : Type :=
| Eps
| Lit (c : ascii)
| Cls (p : ascii -> bool)
| Opt (r : regex)
| Star (p : ascii -> bool)
| Seq (r1 r2 : regex).

(** [c+] for a class [c] *)
Definition Plus (p : ascii -> bool) : regex := Seq (Cls p) (Star p).

(** The characters of [s] in sequence *)
Fixpoint lit (s : string) : regex :=
  match s with
  | EmptyString => Eps
  | String c r => Seq (Lit c) (lit r)
  end.

Fixpoint seq (l : list regex) : regex :=
  match l with
  | [] => Eps
  | r :: l' => Seq r (seq l')
  end.

(** [.]: any character but the line feed *)
Definition dot (c : ascii) : bool := negb (Ascii.eqb c "010").

Fixpoint star_rests (p : ascii -> bool) (s : string) : list string :=
  match s with
  | EmptyString => [EmptyString]
  | String c r => if p c then star_rests p r ++ [s] else [s]
  end.

Fixpoint rests (r : regex) (s : string) : list string :=
  match r with
  | Eps => [s]
  | Lit c =>
      match s with
      | String c' s' => if Ascii.eqb c c' then [s'] else []
      | EmptyString => []
      end
  | Cls p =>
      match s with
      | String c' s' => if p c' then [s'] else []
      | EmptyString => []
      end
  | Opt r1 => rests r1 s ++ [s]
  | Star p => star_rests p s
  | Seq r1 r2 => flat_map (rests r2) (rests r1 s)
  end.

(** [$]: the end of the string, or just before a final line feed *)
Definition at_end (rest : string) : bool :=
  (String.eqb rest "" || String.eqb rest (String "010" ""))%bool.

(** [bool(re.match('^' r '$', s))] *)
Definition matches (r : regex) (s : string) : bool :=
  existsb at_end (rests r s).

(** The text that a match starting [s] and leaving [rest] has consumed *)
Definition consumed (s rest : string) : string :=
  substring 0 (String.length s - String.length rest) s.

(** The scan of [re.findall]: [m s] is the match at the start of [s], if
    any, as the item to report and the number of characters consumed; after
    a match the scan resumes behind it, otherwise one character further.
    [skip] counts the characters of the last match still to step over. *)
Fixpoint scan {A : Type} (m : string -> option (A * nat)) (skip : nat)
  (s : string) {struct s} : list A :=
  match skip with
  | S k =>
      match s with
      | EmptyString => []
      | String _ s' => scan m k s'
      end
  | O =>
      match m s with
      | Some (a, n) =>
          a :: match s with
               | EmptyString => []
               | String _ s' => scan m (Nat.pred n) s'
               end
      | None =>
          match s with
          | EmptyString => []
          | String _ s' => scan m 0 s'
          end
      end
  end.

(** [re.findall(r, s)] for a pattern without group *)
Definition findall (r : regex) (s : string) : list string :=
  scan (fun t =>
          match rests r t with
          | rest :: _ =>
              Some (consumed t rest, String.length t - String.length rest)
          | [] => None
          end) 0 s.

(** [re.findall('(' r1 ')' r2 '(' r3 ')', s)]: the pairs of groups *)
Definition findall_pairs (r1 r2 r3 : regex) (s : string)
  : list (string * string) :=
  scan (fun t =>
          hd_error
            (flat_map (fun t1 =>
               flat_map (fun t2 =>
                 map (fun t3 =>
                        ((consumed t t1, consumed t2 t3),
                         String.length t - String.length t3))
                     (rests r3 t2))
                 (rests r2 t1))
               (rests r1 t))) 0 s.

(** [re.sub(r'\s+', ' ', s)]: every run of blanks becomes one blank.
    [inside] tells that the previous character was a blank. *)
Fixpoint collapse_blanks (inside : bool) (s : string) : string :=
  match s with
  | EmptyString => EmptyString
  | String c r =>
      if is_space c
      then if inside then collapse_blanks true r
           else String " " (collapse_blanks true r)
      else String c (collapse_blanks false r)
  end.

End Re.

(* ================================================================== *)
(** * Paths and directories *)
(* ================================================================== *)

(** A path is modelled by its file name: the scripts work in one input
    directory, and take [os.path.basename] of every path they report. *)

Module Path.

Fixpoint rfind_dot (s : string) (i : nat) (found : option nat) : option nat :=
  match s with
  | EmptyString => found
  | String c r =>
      rfind_dot r (S i) (if Ascii.eqb c "." then Some i else found)
  end.

(** [(Path(name).stem, Path(name).suffix)]: the name is cut at its last
    point unless that point is its first or its last character. *)
Definition stem_suffix (name : string) : string * string :=
  let n := String.length name in
  match rfind_dot name 0 None with
  | Some i =>
      if (Nat.ltb 0 i && Nat.ltb i (n - 1))%bool
      then (substring 0 i name, substring i (n - i) name)
      else (name, "")
  | None => (name, "")
  end.

Definition stem (name : string) : string := fst (stem_suffix name).
Definition suffix (name : string) : string := snd (stem_suffix name).

Fixpoint all_dots (s : string) : bool :=
  match s with
  | EmptyString => true
  | String c r => (Ascii.eqb c "." && all_dots r)%bool
  end.

(** [os.path.splitext(name)]: the name is cut at its last point unless only
    points precede it. *)
Definition splitext (name : string) : string * string :=
  let n := String.length name in
  match rfind_dot name 0 None with
  | Some i =>
      if all_dots (substring 0 i name) then (name, "")
      else (substring 0 i name, substring i (n - i) name)
  | None => (name, "")
  end.

Definition ends_with (ext name : string) : bool :=
  let n := String.length name in
  let k := String.length ext in
  (Nat.leb k n && String.eqb (substring (n - k) k name) ext)%bool.

Definition hidden (name : string) : bool :=
  match name with
  | String "." _ => true
  | _ => false
  end.

(** [glob.glob(os.path.join(input_dir, "*" + ext))] over the names of the
    directory: a name that ends with [ext] and does not start with a point. *)
Definition glob (names : list string) (ext : string) : list string :=
  filter (fun name => (negb (hidden name) && ends_with ext name)%bool) names.

End Path.

(* ================================================================== *)
(** * The walk over GeoJSON coordinates *)
(* ================================================================== *)

(** The nested function [extract_coordinates] and the dispatch on the type
    of the object stand with the same text in
    [GeometryProcessor._extract_coordinates_from_geojson],
    [GeoJsonBatchProcessor._has_valid_coordinates] and
    [GeoJsonBatchProcessor.calculate_bounds]. *)

Module Walk.

(** [extract_coordinates(obj)]: the lists appended to [coordinates], in the
    order of the depth-first walk.  A list whose first item is a number is
    appended as it is; any other list is searched item by item; anything
    that is not a list is passed over. *)
Fixpoint extract_coordinates (obj : value) : list value :=
  match obj with
  | VList l =>
      match l with
      | x :: _ =>
          if is_number x then [obj]
          else flat_map extract_coordinates l
      | [] => []
      end
  | _ => []
  end.

(** The coordinates of one feature:
    [extract_coordinates(feature.get('geometry', {}).get('coordinates', []))] *)
Definition feature_coordinates (feature : value) : result (list value) :=
  geometry <- py_get feature "geometry" (VDict []) ;;
  c <- py_get geometry "coordinates" (VList []) ;;
  Ok (extract_coordinates c).

(** The list [coordinates] after the dispatch on
    [geojson_data.get('type', '').lower()]. *)
Definition collect (geojson_data : value) : result (list value) :=
  t <- py_get geojson_data "type" (VStr "") ;;
  geojson_type <- py_lower t ;;
  if String.eqb geojson_type "featurecollection" then
    fs <- py_get geojson_data "features" (VList []) ;;
    features <- py_iter fs ;;
    cs <- mapM feature_coordinates features ;;
    Ok (concat cs)
  else if String.eqb geojson_type "feature" then
    feature_coordinates geojson_data
  else
    c <- py_get geojson_data "coordinates" (VList []) ;;
    Ok (extract_coordinates c).

End Walk.

(* ================================================================== *)
(** * [excel_geometry_bounds_processor.py]: class [GeometryProcessor] *)
(* ================================================================== *)

Module GeometryProcessor.

Import Re.

Definition supported_excel_formats : list string := [".csv"; ".xlsx"; ".xls"].

(** The seven format names that [detect_geometry_format] returns. *)
Definition format_types : list string :=
  ["empty"; "geojson"; "wkt"; "json"; "coordinate_pair"; "coordinate_array";
   "unknown"].

(** [-?\d+\.?\d*] *)
Definition number_re : regex :=
  seq [Opt (Lit "-"); Plus is_digit; Opt (Lit "."); Star is_digit].

Definition _is_geojson (geom_str : string) : bool :=
  match Json.loads geom_str with
  | Some (VDict d) => dict_has d "type"
  | _ => false
  end.

(** [^KEYWORD\s*\(.*\)$] for the six keywords *)
Definition wkt_pattern (keyword : string) : regex :=
  seq [lit keyword; Star is_space; Lit "("; Star dot; Lit ")"].

Definition wkt_patterns : list regex :=
  map wkt_pattern
    ["POINT"; "LINESTRING"; "POLYGON"; "MULTIPOINT"; "MULTILINESTRING";
     "MULTIPOLYGON"].

Definition _is_wkt (geom_str : string) : bool :=
  let cleaned_str := collapse_blanks false (strip geom_str) in
  existsb (fun pattern => matches pattern (upper cleaned_str)) wkt_patterns.

Definition _is_json (geom_str : string) : bool :=
  match Json.loads geom_str with
  | Some _ => true
  | None => false
  end.

(** [^\s*\(\s*-?\d+\.?\d*\s*,\s*-?\d+\.?\d*\s*\)\s*$] and the same between
    square brackets *)
Definition pair_pattern (opening closing : ascii) : regex :=
  seq [Star is_space; Lit opening; Star is_space; number_re; Star is_space;
       Lit ","; Star is_space; number_re; Star is_space; Lit closing;
       Star is_space].

Definition _is_coordinate_pair (geom_str : string) : bool :=
  matches (pair_pattern "(" ")") geom_str.

Definition _is_coordinate_array (geom_str : string) : bool :=
  matches (pair_pattern "[" "]") geom_str.

Definition _extract_coordinates_from_geojson (geojson_data : value)
  : result value :=
  coordinates <- Walk.collect geojson_data ;;
  Ok (VDict [("coordinates", VList coordinates)]).

Definition _parse_geojson (geom_str : string) : result value :=
  reraise_ValueError
    match Json.loads geom_str with
    | Some data => _extract_coordinates_from_geojson data
    | None => Raise ValueError
    end.

(** The loop of [_parse_wkt] over the pairs found: a pair whose conversion
    raises [ValueError] is skipped. *)
Fixpoint wkt_coordinates (coord_pairs : list (string * string))
  : result (list value) :=
  match coord_pairs with
  | [] => Ok []
  | (lon, lat) :: r =>
      match (x <- py_float lon ;; y <- py_float lat ;; Ok (VList [x; y])) with
      | Ok p =>
          match wkt_coordinates r with
          | Ok ps => Ok (p :: ps)
          | Raise e => Raise e
          end
      | Raise ValueError => wkt_coordinates r
      | Raise e => Raise e
      end
  end.

Definition _parse_wkt (geom_str : string) : result value :=
  reraise_ValueError
    (let coord_pairs :=
       findall_pairs number_re (Plus is_space) number_re geom_str in
     match coord_pairs with
     | [] => Raise ValueError
     | _ =>
         coordinates <- wkt_coordinates coord_pairs ;;
         match coordinates with
         | [] => Raise ValueError
         | _ => Ok (VDict [("coordinates", VList coordinates)])
         end
     end).

Definition _parse_json (geom_str : string) : result value :=
  reraise_ValueError
    match Json.loads geom_str with
    | Some (VList l) => Ok (VDict [("coordinates", VList l)])
    | Some (VDict d) => _extract_coordinates_from_geojson (VDict d)
    | Some _ => Raise ValueError
    | None => Raise ValueError
    end.

(** The body shared by [_parse_coordinate_pair] and
    [_parse_coordinate_array], which differ by their messages only. *)
Definition parse_two_numbers (geom_str : string) : result value :=
  reraise_ValueError
    match findall number_re geom_str with
    | n0 :: n1 :: _ =>
        lon <- py_float n0 ;;
        lat <- py_float n1 ;;
        Ok (VDict [("coordinates", VList [VList [lon; lat]])])
    | _ => Raise ValueError
    end.

Definition _parse_coordinate_pair : string -> result value := parse_two_numbers.
Definition _parse_coordinate_array : string -> result value := parse_two_numbers.

(** The argument is the content of a geometry cell: a text, or [None] for a
    cell that pandas reads as [None] or NaN. *)
Definition detect_geometry_format (geom_str : option string)
  : result (string * value) :=
  match geom_str with
  | None => Ok ("empty", VDict [])
  | Some s0 =>
      if String.eqb s0 "" then Ok ("empty", VDict [])
      else
        let geom_str := strip s0 in
        if _is_geojson geom_str then
          d <- _parse_geojson geom_str ;; Ok ("geojson", d)
        else if _is_wkt geom_str then
          d <- _parse_wkt geom_str ;; Ok ("wkt", d)
        else if _is_json geom_str then
          d <- _parse_json geom_str ;; Ok ("json", d)
        else if _is_coordinate_pair geom_str then
          d <- _parse_coordinate_pair geom_str ;; Ok ("coordinate_pair", d)
        else if _is_coordinate_array geom_str then
          d <- _parse_coordinate_array geom_str ;; Ok ("coordinate_array", d)
        else Ok ("unknown", VDict [])
  end.

Record bounds_info : Type := {
  top_left_longitude : value;
  top_left_latitude : value;
  bottom_left_longitude : value;
  bottom_left_latitude : value;
  top_right_longitude : value;
  top_right_latitude : value;
  bottom_right_longitude : value;
  bottom_right_latitude : value;
  center : list value;
  width : value;
  height : value
}.

Definition calculate_bounds (coordinates : value) : result bounds_info :=
  if negb (py_truthy coordinates) then Raise ValueError
  else
    items <- py_iter coordinates ;;
    lons <- mapM (fun coord => py_getitem coord 0) items ;;
    lats <- mapM (fun coord => py_getitem coord 1) items ;;
    min_lon <- py_min lons ;;
    max_lon <- py_max lons ;;
    min_lat <- py_min lats ;;
    max_lat <- py_max lats ;;
    sum_lon <- py_add min_lon max_lon ;;
    center_lon <- py_half sum_lon ;;
    sum_lat <- py_add min_lat max_lat ;;
    center_lat <- py_half sum_lat ;;
    w <- py_sub max_lon min_lon ;;
    h <- py_sub max_lat min_lat ;;
    Ok {| top_left_longitude := min_lon;
          top_left_latitude := max_lat;
          bottom_left_longitude := min_lon;
          bottom_left_latitude := min_lat;
          top_right_longitude := max_lon;
          top_right_latitude := max_lat;
          bottom_right_longitude := max_lon;
          bottom_right_latitude := min_lat;
          center := [center_lon; center_lat];
          width := w;
          height := h |}.

(** ** The table *)

(** What the methods print is not modelled in this module. *)

(** A row holds the cells read from the file, by column name (a text, or
    [None] for a null cell), and the eight appended cells, [VNone] while
    unset.  The appended columns are kept apart from the columns read: a
    file that already has a column of one of the eight names is not
    covered, nor is a geometry cell read as a number. *)
Record row : Type := {
  cells : list (string * option string);
  appended : list (string * value)
}.

Record dataframe : Type := {
  columns : list string;
  rows : list row
}.

Definition new_columns : list string :=
  ["top_left_longitude"; "top_left_latitude";
   "bottom_left_longitude"; "bottom_left_latitude";
   "top_right_longitude"; "top_right_latitude";
   "bottom_right_longitude"; "bottom_right_latitude"].

(** [for col in new_columns: df[col] = None] *)
Definition add_new_columns (df : dataframe) : dataframe :=
  {| columns := columns df ++ new_columns;
     rows := map (fun r => {| cells := cells r;
                              appended := map (fun c => (c, VNone)) new_columns |})
                 (rows df) |}.

(** [row[name]] *)
Fixpoint row_getitem (cs : list (string * option string)) (name : string)
  : result (option string) :=
  match cs with
  | [] => Raise KeyError
  | (k, v) :: r => if String.eqb name k then Ok v else row_getitem r name
  end.

(** The eight assignments [df.at[index, ...] = bounds_info[...]] *)
Definition set_bounds (r : row) (b : bounds_info) : row :=
  {| cells := cells r;
     appended :=
       [("top_left_longitude", top_left_longitude b);
        ("top_left_latitude", top_left_latitude b);
        ("bottom_left_longitude", bottom_left_longitude b);
        ("bottom_left_latitude", bottom_left_latitude b);
        ("top_right_longitude", top_right_longitude b);
        ("top_right_latitude", top_right_latitude b);
        ("bottom_right_longitude", bottom_right_longitude b);
        ("bottom_right_latitude", bottom_right_latitude b)] |}.

(** What one turn of the loop over the rows does. *)
Inductive row_result : Type :=
| Skipped                     (* [continue] on an empty geometry *)
| Failed                      (* [error_count += 1] *)
| Updated (b : bounds_info).  (* cells written, [processed_count += 1] *)

Definition process_row (geometry_field_name : string) (r : row) : row_result :=
  match
    (geom_str <- row_getitem (cells r) geometry_field_name ;;
     detected <- detect_geometry_format geom_str ;;
     let (format_type, parsed_data) := detected in
     if String.eqb format_type "empty" then Ok Skipped
     else if String.eqb format_type "unknown" then Ok Failed
     else
       coordinates <- py_get parsed_data "coordinates" (VList []) ;;
       if negb (py_truthy coordinates) then Ok Failed
       else
         bounds <- calculate_bounds coordinates ;;
         Ok (Updated bounds))
  with
  | Ok res => res
  | Raise _ => Failed
  end.

Record row_counts : Type := {
  processed_rows : nat;
  error_rows : nat
}.

(** The loop over the rows: the rows after it and the two counters. *)
Fixpoint process_rows (geometry_field_name : string) (rs : list row)
  (n : row_counts) : list row * row_counts :=
  match rs with
  | [] => ([], n)
  | r :: rest =>
      let (r', n') :=
        match process_row geometry_field_name r with
        | Skipped => (r, n)
        | Failed =>
            (r, {| processed_rows := processed_rows n;
                   error_rows := S (error_rows n) |})
        | Updated b =>
            (set_bounds r b,
             {| processed_rows := S (processed_rows n);
                error_rows := error_rows n |})
        end in
      let (rest', n'') := process_rows geometry_field_name rest n' in
      (r' :: rest', n'')
  end.

(** ** Files *)

(** A file of the input directory: its name, its size in bytes, and the
    table that [pd.read_csv] or [pd.read_excel] builds from it, [None] when
    the reader raises. *)
Record file : Type := {
  file_name : string;
  file_size : nat;
  file_table : option dataframe
}.

Fixpoint find_file (fs : list file) (name : string) : option file :=
  match fs with
  | [] => None
  | f :: r => if String.eqb (file_name f) name then Some f else find_file r name
  end.

(** The second component of what [validate_excel_file] returns, and the
    text of an exception caught by [process_directory]. *)
Inductive message : Type :=
| NoMessage
| FileMissing (file_path : string)
| UnsupportedFormat (file_ext : string)
| FileEmpty (file_path : string)
| FieldMissing (geometry_field_name : string)
| ValidationFailed
| ProcessingFailed.

(** The state of the processor, and the files written so far. *)
Record state : Type := {
  geometry_field_name : string;
  processed_count : nat;
  error_files : list (string * message);
  success_files : list string;
  written : list (string * dataframe)
}.

(** [GeometryProcessor(geometry_field_name)] *)
Definition init (name : string) : state :=
  {| geometry_field_name := name;
     processed_count := 0;
     error_files := [];
     success_files := [];
     written := [] |}.

(** The file is written by the caller, into [written]: the function returns
    the name of the output and its table.  Writing is assumed to succeed. *)
Definition process_excel_file (fs : list file) (field : string)
  (input_file : string) : result (string * dataframe) :=
  match find_file fs input_file with
  | None => Raise OSError
  | Some f =>
      match file_table f with
      | None => Raise OtherException
      | Some df =>
          if negb (existsb (String.eqb field) (columns df))
          then Raise ValueError
          else
            let df1 := add_new_columns df in
            let (rs, _) :=
              process_rows field (rows df1)
                {| processed_rows := 0; error_rows := 0 |} in
            let output_filename :=
              (Path.stem input_file ++ "_with_bounds"
                 ++ Path.suffix input_file)%string in
            Ok (output_filename, {| columns := columns df1; rows := rs |})
      end
  end.

Definition validate_excel_file (fs : list file) (field : string)
  (file_path : string) : bool * message :=
  match find_file fs file_path with
  | None => (false, FileMissing file_path)
  | Some f =>
      let file_ext := lower (Path.suffix file_path) in
      if negb (existsb (String.eqb file_ext) supported_excel_formats)
      then (false, UnsupportedFormat file_ext)
      else if Nat.eqb (file_size f) 0 then (false, FileEmpty file_path)
      else
        match file_table f with
        | None => (false, ValidationFailed)
        | Some df =>
            if negb (existsb (String.eqb field) (columns df))
            then (false, FieldMissing field)
            else (true, NoMessage)
        end
  end.

(** How [process_directory] ends: it returns, or [sys.exit(code)]. *)
Inductive outcome : Type :=
| Returned
| Exited (code : Z).

(** The validation loop: the valid files, and the state with the invalid
    ones appended to [error_files]. *)
Fixpoint validate_all (fs : list file) (files : list string)
  (valid_files : list string) (st : state) : list string * state :=
  match files with
  | [] => (valid_files, st)
  | file_path :: r =>
      let (is_valid, error_msg) :=
        validate_excel_file fs (geometry_field_name st) file_path in
      if is_valid
      then validate_all fs r (valid_files ++ [file_path]) st
      else validate_all fs r valid_files
             {| geometry_field_name := geometry_field_name st;
                processed_count := processed_count st;
                error_files := error_files st ++ [(file_path, error_msg)];
                success_files := success_files st;
                written := written st |}
  end.

(** The processing loop over the valid files. *)
Fixpoint process_all (fs : list file) (valid_files : list string) (st : state)
  : state :=
  match valid_files with
  | [] => st
  | file_path :: r =>
      let st' :=
        match process_excel_file fs (geometry_field_name st) file_path with
        | Ok (output_filename, df) =>
            {| geometry_field_name := geometry_field_name st;
               processed_count := S (processed_count st);
               error_files := error_files st;
               success_files := success_files st ++ [file_path];
               written := written st ++ [(output_filename, df)] |}
        | Raise _ =>
            {| geometry_field_name := geometry_field_name st;
               processed_count := processed_count st;
               error_files := error_files st ++ [(file_path, ProcessingFailed)];
               success_files := success_files st;
               written := written st |}
        end in
      process_all fs r st'
  end.

Definition process_directory (fs : list file) (st : state)
  (geometry_field_name : string) : outcome * state :=
  let st0 :=
    {| GeometryProcessor.geometry_field_name := geometry_field_name;
       processed_count := processed_count st;
       error_files := error_files st;
       success_files := success_files st;
       written := written st |} in
  let excel_files :=
    flat_map (Path.glob (map file_name fs)) supported_excel_formats in
  match excel_files with
  | [] => (Returned, st0)
  | _ =>
      let (valid_files, st1) := validate_all fs excel_files [] st0 in
      match error_files st1 with
      | _ :: _ => (Exited 1, st1)
      | [] => (Returned, process_all fs valid_files st1)
      end
  end.

End GeometryProcessor.

(* ================================================================== *)
(** * [create_rectangle_from_geojson.py]: class [GeoJsonBatchProcessor] *)
(* ================================================================== *)

Module GeoJsonBatchProcessor.

Definition supported_formats : list string := [".geojson"; ".json"].

Definition valid_types : list string :=
  ["point"; "linestring"; "polygon"; "multipoint"; "multilinestring";
   "multipolygon"; "geometrycollection"; "feature"; "featurecollection"].

(** The bytes of a file: a UTF-8 text, or bytes that do not decode. *)
Inductive content : Type :=
| Text (s : string)
| Undecodable (size : nat).

Record file : Type := {
  file_name : string;
  file_content : content
}.

Definition file_size (f : file) : nat :=
  match file_content f with
  | Text s => String.length s
  | Undecodable n => n
  end.

Fixpoint find_file (fs : list file) (name : string) : option file :=
  match fs with
  | [] => None
  | f :: r => if String.eqb (file_name f) name then Some f else find_file r name
  end.

(** The messages of [validate_geojson_file], by their kind, and the text
    of an exception caught by [process_directory]. *)
Inductive message : Type :=
| NoMessage
| FileMissing (file_path : string)
| UnsupportedFormat (file_ext : string)
| FileEmpty (file_path : string)
| NotAnObject (file_path : string)
| TypeMissing (file_path : string)
| InvalidType (geojson_type file_path : string)
| NoCoordinates (file_path : string)
| JsonError (file_path : string)
| EncodingError (file_path : string)
| ReadError (e : exn) (file_path : string)
| ProcessingError (e : exn).

Definition _has_valid_coordinates (geojson_data : value) : result bool :=
  coordinates <- Walk.collect geojson_data ;;
  Ok (Nat.ltb 0 (List.length coordinates)).

(** The third component is the decoded object, [VNone] for Python's
    [None]. *)
Definition validate_geojson_file (fs : list file) (file_path : string)
  : bool * message * value :=
  match find_file fs file_path with
  | None => (false, FileMissing file_path, VNone)
  | Some f =>
      let file_ext := lower (Path.suffix file_path) in
      if negb (existsb (String.eqb file_ext) supported_formats)
      then (false, UnsupportedFormat file_ext, VNone)
      else if Nat.eqb (file_size f) 0 then (false, FileEmpty file_path, VNone)
      else
        match file_content f with
        | Undecodable _ => (false, EncodingError file_path, VNone)
        | Text s =>
            match Json.loads s with
            | None => (false, JsonError file_path, VNone)
            | Some (VDict d) =>
                let geojson_data := VDict d in
                if negb (dict_has d "type")
                then (false, TypeMissing file_path, VNone)
                else
                  match (t <- py_get geojson_data "type" (VStr "") ;;
                         py_lower t) with
                  | Raise e => (false, ReadError e file_path, VNone)
                  | Ok geojson_type =>
                      if negb (existsb (String.eqb geojson_type) valid_types)
                      then (false, InvalidType geojson_type file_path, VNone)
                      else
                        match _has_valid_coordinates geojson_data with
                        | Raise e => (false, ReadError e file_path, VNone)
                        | Ok false => (false, NoCoordinates file_path, VNone)
                        | Ok true => (true, NoMessage, geojson_data)
                        end
                  end
            | Some _ => (false, NotAnObject file_path, VNone)
            end
        end
  end.

(** The dictionary under the key [bounds]. *)
Record bounds_dict : Type := {
  min_lon : value;
  max_lon : value;
  min_lat : value;
  max_lat : value
}.

(** The dictionary under the key [corners]; its four keys end in [(SW)],
    [(NW)], [(NE)] and [(SE)]. *)
Record corners_dict : Type := {
  SW : list value;
  NW : list value;
  NE : list value;
  SE : list value
}.

Record bounds_info : Type := {
  bounds : bounds_dict;
  corners : corners_dict;
  bbox : list value;
  center : list value;
  width : value;
  height : value
}.

Definition calculate_bounds (geojson_data : value) : result bounds_info :=
  coordinates <- Walk.collect geojson_data ;;
  match coordinates with
  | [] => Raise ValueError
  | _ =>
      lons <- mapM (fun coord => py_getitem coord 0) coordinates ;;
      lats <- mapM (fun coord => py_getitem coord 1) coordinates ;;
      min_lon <- py_min lons ;;
      max_lon <- py_max lons ;;
      min_lat <- py_min lats ;;
      max_lat <- py_max lats ;;
      sum_lon <- py_add min_lon max_lon ;;
      center_lon <- py_half sum_lon ;;
      sum_lat <- py_add min_lat max_lat ;;
      center_lat <- py_half sum_lat ;;
      w <- py_sub max_lon min_lon ;;
      h <- py_sub max_lat min_lat ;;
      Ok {| bounds := {| min_lon := min_lon; max_lon := max_lon;
                            min_lat := min_lat; max_lat := max_lat |};
            corners := {| SW := [min_lon; min_lat];
                             NW := [min_lon; max_lat];
                             NE := [max_lon; max_lat];
                             SE := [max_lon; min_lat] |};
            bbox := [min_lon; min_lat; max_lon; max_lat];
            center := [center_lon; center_lat];
            width := w;
            height := h |}
  end.

Definition name_suffix : string := "四角边框矩形面".

Definition create_rectangle_geojson (bounds_info : bounds_info)
  (source_filename : string) : value :=
  let corners := corners bounds_info in
  let rectangle_coordinates :=
    [VList (SW corners); VList (NW corners); VList (NE corners);
     VList (SE corners); VList (SW corners)] in
  let b := bounds bounds_info in
  let feature :=
    VDict
      [("type", VStr "Feature");
       ("geometry",
        VDict [("type", VStr "Polygon");
               ("coordinates", VList [VList rectangle_coordinates])]);
       ("properties",
        VDict
          [("name", VStr (source_filename ++ name_suffix));
           ("description",
            VStr ("通过" ++ source_filename ++ "边界数据生成的矩形面"));
           ("source_file", VStr source_filename);
           ("bounds",
            VDict [("min_lon", min_lon b); ("max_lon", max_lon b);
                   ("min_lat", min_lat b); ("max_lat", max_lat b)]);
           ("center", VList (center bounds_info));
           ("width", width bounds_info);
           ("height", height bounds_info);
           ("bbox", VList (bbox bounds_info))])] in
  VDict [("type", VStr "FeatureCollection");
         ("features", VList [feature])].

(** What the console shows, line group by line group. *)
Inductive event : Type :=
| Scanning
| NoFileFound
| Found (n : nat)
| Validating
| Checking (filename : string)
| FormatCorrect
| FormatError (error_msg : message)
| Stopping
| Reported (filename : string) (error_msg : message)
| AllValid
| Processing (filename : string)
| Bounds (b : bounds_info)
| Generated (output_filename : string)
| ProcessingFailed (e : exn) (filename : string)
| Summary (processed_count : nat) (success_files : list string)
    (error_files : list (string * message)).

(** The state of the processor, the files written into the output
    directory, and the console. *)
Record state : Type := {
  processed_count : nat;
  error_files : list (string * message);
  success_files : list string;
  written : list (string * value);
  console : list event
}.

(** [GeoJsonBatchProcessor()] *)
Definition init : state :=
  {| processed_count := 0;
     error_files := [];
     success_files := [];
     written := [];
     console := [] |}.

Definition print (e : list event) (st : state) : state :=
  {| processed_count := processed_count st;
     error_files := error_files st;
     success_files := success_files st;
     written := written st;
     console := console st ++ e |}.

(** The validation loop. *)
Fixpoint validate_all (fs : list file) (files : list string)
  (valid_files : list (string * value)) (st : state)
  : list (string * value) * state :=
  match files with
  | [] => (valid_files, st)
  | file_path :: r =>
      let st := print [Checking file_path] st in
      match validate_geojson_file fs file_path with
      | (true, _, geojson_data) =>
          validate_all fs r (valid_files ++ [(file_path, geojson_data)])
            (print [FormatCorrect] st)
      | (false, error_msg, _) =>
          validate_all fs r valid_files
            (print [FormatError error_msg]
               {| processed_count := processed_count st;
                  error_files := error_files st ++ [(file_path, error_msg)];
                  success_files := success_files st;
                  written := written st;
                  console := console st |})
      end
  end.

(** The processing loop over the valid files.  Writing the output file is
    assumed to succeed. *)
Fixpoint process_all (valid_files : list (string * value)) (st : state)
  : state :=
  match valid_files with
  | [] => st
  | (filename, geojson_data) :: r =>
      let name_without_ext := fst (Path.splitext filename) in
      let output_filename :=
        (name_without_ext ++ name_suffix ++ ".geojson")%string in
      let st := print [Processing filename] st in
      let st' :=
        match calculate_bounds geojson_data with
        | Ok bounds_info =>
            let rectangle_geojson :=
              create_rectangle_geojson bounds_info name_without_ext in
            {| processed_count := S (processed_count st);
               error_files := error_files st;
               success_files := success_files st ++ [filename];
               written := written st ++ [(output_filename, rectangle_geojson)];
               console :=
                 console st ++ [Bounds bounds_info; Generated output_filename] |}
        | Raise e =>
            {| processed_count := processed_count st;
               error_files := error_files st ++ [(filename, ProcessingError e)];
               success_files := success_files st;
               written := written st;
               console := console st ++ [ProcessingFailed e filename] |}
        end in
      process_all r st'
  end.

Definition print_summary (st : state) : state :=
  print [Summary (processed_count st) (success_files st) (error_files st)] st.

(** How [process_directory] ends: it returns, or [sys.exit(code)]. *)
Inductive outcome : Type :=
| Returned
| Exited (code : Z).

Definition process_directory (fs : list file) (st : state) : outcome * state :=
  let st := print [Scanning] st in
  let geojson_files :=
    flat_map (Path.glob (map file_name fs)) supported_formats in
  match geojson_files with
  | [] => (Returned, print [NoFileFound] st)
  | _ =>
      let st := print [Found (List.length geojson_files); Validating] st in
      let (valid_files, st) := validate_all fs geojson_files [] st in
      match error_files st with
      | _ :: _ =>
          (Exited 1,
           print (Stopping :: map (fun fe => Reported (fst fe) (snd fe))
                                  (error_files st)) st)
      | [] => (Returned, print_summary (process_all valid_files (print [AllValid] st)))
      end
  end.

End GeoJsonBatchProcessor.

(* ================================================================== *)
(** * The two command lines *)
(* ================================================================== *)

(** What the two [main] functions read from the command line and ask of
    the file system.  The exit status of the process is 0 when [main]
    returns and the argument of [sys.exit] otherwise; an interruption from
    the keyboard is not modelled, and neither is what [main] prints. *)

Module Cli.

Definition is_quote (c : ascii) : bool := Ascii.eqb c Json.quote.

(** [s.strip(q)] where [q] is the double quote *)
Fixpoint lstrip_quotes (s : string) : string :=
  match s with
  | EmptyString => EmptyString
  | String c r => if is_quote c then lstrip_quotes r else s
  end.

Fixpoint rstrip_quotes (s : string) : string :=
  match s with
  | EmptyString => EmptyString
  | String c r =>
      match rstrip_quotes r with
      | EmptyString => if is_quote c then EmptyString else String c EmptyString
      | r' => String c r'
      end
  end.

Definition strip_quotes (s : string) : string := rstrip_quotes (lstrip_quotes s).

(** [sys.argv[i].strip().strip(q)] where [q] is the double quote *)
Definition argument (a : string) : string := strip_quotes (strip a).

(** The file system, as far as [main] looks at it: [os.path.exists],
    [os.path.isdir], whether [os.makedirs] succeeds, and the files of a
    directory. *)
Record filesystem (file : Type) : Type := {
  path_exists : string -> bool;
  isdir : string -> bool;
  makedirs : string -> bool;
  files : string -> list file
}.

Arguments path_exists {file} _ _.
Arguments isdir {file} _ _.
Arguments makedirs {file} _ _.
Arguments files {file} _ _.

End Cli.

(** [create_rectangle_from_geojson.py] *)
Module CreateRectangleFromGeojson.

Import Cli GeoJsonBatchProcessor.

(** The exit status, and the processor as [main] leaves it, if it got as
    far as creating one. *)
Definition main (argv : list string) (os : filesystem file) : Z * option state :=
  match argv with
  | [_; a1; a2] =>
      let input_dir := argument a1 in
      let output_dir := argument a2 in
      if negb (path_exists os input_dir) then (1%Z, None)
      else if negb (isdir os input_dir) then (1%Z, None)
      else if (negb (path_exists os output_dir) && negb (makedirs os output_dir))%bool
      then (1%Z, None)
      else
        match process_directory (files os input_dir) init with
        | (Exited code, st) => (code, Some st)
        | (Returned, st) => (0%Z, Some st)
        end
  | _ => (1%Z, None)
  end.

End CreateRectangleFromGeojson.

(** [excel_geometry_bounds_processor.py] *)
Module ExcelGeometryBoundsProcessor.

Import Cli GeometryProcessor.

Definition main (argv : list string) (os : filesystem file) : Z * option state :=
  let argc := List.length argv in
  if (Nat.ltb argc 2 || Nat.ltb 4 argc)%bool then (1%Z, None)
  else
    let input_dir := argument (nth 1 argv "") in
    let output_dir :=
      if Nat.leb 3 argc then Some (argument (nth 2 argv "")) else None in
    let geometry_field_name :=
      if Nat.eqb argc 4 then argument (nth 3 argv "") else "geom" in
    if negb (path_exists os input_dir) then (1%Z, None)
    else if negb (isdir os input_dir) then (1%Z, None)
    else
      let created :=
        match output_dir with
        | Some d =>
            if String.eqb d "" then true
            else (path_exists os d || makedirs os d)%bool
        | None => true
        end in
      if negb created then (1%Z, None)
      else
        match process_directory (files os input_dir) (init geometry_field_name)
                geometry_field_name with
        | (Exited code, st) => (code, Some st)
        | (Returned, st) => (0%Z, Some st)
        end.

End ExcelGeometryBoundsProcessor.

(* ================================================================== *)
(** * Properties of the specification *)
(* ================================================================== *)

(** ** Vocabulary of the properties *)

(** The definitions with which the properties are stated, the concrete
    inputs of the scenarios, and the induction principle of [value]. *)

(** The finite number [x] as a value. *)
Definition fin (x : Q) : value := VNum (Fin x).

(** A 2-D point of the specification: a pair of real numbers, as the list
    [[lon, lat]] that the scripts handle. *)
Definition point (p : Q * Q) : value := VList [fin (fst p); fin (snd p)].

(** [min_from] and [max_from] on rationals: the scan of [min] and [max]
    from a first candidate. *)
Fixpoint qmin_from (best : Q) (l : list Q) : Q :=
  match l with
  | [] => best
  | x :: r => if Qltb x best then qmin_from x r else qmin_from best r
  end.

Fixpoint qmax_from (best : Q) (l : list Q) : Q :=
  match l with
  | [] => best
  | x :: r => if Qltb best x then qmax_from x r else qmax_from best r
  end.

(** The four extreme coordinates of a non-empty list of points, computed
    the way [min] and [max] scan the list. *)
Definition min_lon_of (p : Q * Q) (r : list (Q * Q)) : Q := qmin_from (fst p) (map fst r).
Definition max_lon_of (p : Q * Q) (r : list (Q * Q)) : Q := qmax_from (fst p) (map fst r).
Definition min_lat_of (p : Q * Q) (r : list (Q * Q)) : Q := qmin_from (snd p) (map snd r).
Definition max_lat_of (p : Q * Q) (r : list (Q * Q)) : Q := qmax_from (snd p) (map snd r).

(** The record that the tabular [calculate_bounds] builds from the four
    extreme coordinates. *)
Definition excel_bounds (mnx mxx mny mxy : Q) : GeometryProcessor.bounds_info :=
  {| GeometryProcessor.top_left_longitude := fin mnx;
     GeometryProcessor.top_left_latitude := fin mxy;
     GeometryProcessor.bottom_left_longitude := fin mnx;
     GeometryProcessor.bottom_left_latitude := fin mny;
     GeometryProcessor.top_right_longitude := fin mxx;
     GeometryProcessor.top_right_latitude := fin mxy;
     GeometryProcessor.bottom_right_longitude := fin mxx;
     GeometryProcessor.bottom_right_latitude := fin mny;
     GeometryProcessor.center :=
       [fin (Qred (Qred (mnx + mxx) / (2 # 1))); fin (Qred (Qred (mny + mxy) / (2 # 1)))];
     GeometryProcessor.width := fin (Qred (mxx - mnx));
     GeometryProcessor.height := fin (Qred (mxy - mny)) |}.

(** The record that the GeoJSON [calculate_bounds] builds from them. *)
Definition geojson_bounds (mnx mxx mny mxy : Q) : GeoJsonBatchProcessor.bounds_info :=
  {| GeoJsonBatchProcessor.bounds :=
       {| GeoJsonBatchProcessor.min_lon := fin mnx;
          GeoJsonBatchProcessor.max_lon := fin mxx;
          GeoJsonBatchProcessor.min_lat := fin mny;
          GeoJsonBatchProcessor.max_lat := fin mxy |};
     GeoJsonBatchProcessor.corners :=
       {| GeoJsonBatchProcessor.SW := [fin mnx; fin mny];
          GeoJsonBatchProcessor.NW := [fin mnx; fin mxy];
          GeoJsonBatchProcessor.NE := [fin mxx; fin mxy];
          GeoJsonBatchProcessor.SE := [fin mxx; fin mny] |};
     GeoJsonBatchProcessor.bbox := [fin mnx; fin mny; fin mxx; fin mxy];
     GeoJsonBatchProcessor.center :=
       [fin (Qred (Qred (mnx + mxx) / (2 # 1))); fin (Qred (Qred (mny + mxy) / (2 # 1)))];
     GeoJsonBatchProcessor.width := fin (Qred (mxx - mnx));
     GeoJsonBatchProcessor.height := fin (Qred (mxy - mny)) |}.

(** A concrete list of points and an object that holds it. *)
Definition sample_points : list (Q * Q) :=
  [(10 # 1, 10 # 1); (10 # 1, 20 # 1); (30 # 1, 20 # 1); (30 # 1, 10 # 1)]%Q.

(** The MultiPoint object of these points. *)
Definition sample_object : value :=
  VDict [("type", VStr "MultiPoint"); ("coordinates", VList (map point sample_points))].

(** The four corners of a tabular bounds record, south-west, north-west,
    north-east, south-east, as a list of points. *)
Definition excel_corners (b : GeometryProcessor.bounds_info) : value :=
  VList
    [VList [GeometryProcessor.bottom_left_longitude b;
            GeometryProcessor.bottom_left_latitude b];
     VList [GeometryProcessor.top_left_longitude b;
            GeometryProcessor.top_left_latitude b];
     VList [GeometryProcessor.top_right_longitude b;
            GeometryProcessor.top_right_latitude b];
     VList [GeometryProcessor.bottom_right_longitude b;
            GeometryProcessor.bottom_right_latitude b]].

(** The four corners of a GeoJSON bounds record, as a MultiPoint object. *)
Definition geojson_corners (b : GeoJsonBatchProcessor.bounds_info) : value :=
  let c := GeoJsonBatchProcessor.corners b in
  VDict
    [("type", VStr "MultiPoint");
     ("coordinates",
      VList [VList (GeoJsonBatchProcessor.SW c); VList (GeoJsonBatchProcessor.NW c);
             VList (GeoJsonBatchProcessor.NE c); VList (GeoJsonBatchProcessor.SE c)])].

(** [s] between double quotes. *)
Definition quoted (s : string) : string :=
  String Json.quote (s ++ String Json.quote "").

(** The text
    [{"type":"Polygon","coordinates":[[[10,10],[10,20],[30,20],[30,10],[10,10]]]}] *)
Definition scenario_A : string :=
  "{" ++ quoted "type" ++ ":" ++ quoted "Polygon" ++ "," ++ quoted "coordinates"
  ++ ":[[[10,10],[10,20],[30,20],[30,10],[10,10]]]}".

(** The ring [[10,10],[10,20],[30,20],[30,10],[10,10]] *)
Definition scenario_A_ring : value :=
  VList [VList [VInt 10; VInt 10]; VList [VInt 10; VInt 20];
         VList [VInt 30; VInt 20]; VList [VInt 30; VInt 10];
         VList [VInt 10; VInt 10]].

(** The geometry cell of scenario C and a row that holds it. *)
Definition scenario_C : string := "[102.5,31.2]".

Definition scenario_C_row : GeometryProcessor.row :=
  {| GeometryProcessor.cells := [("geom", Some scenario_C)];
     GeometryProcessor.appended :=
       map (fun c => (c, VNone)) GeometryProcessor.new_columns |}.

(** Every character of [w] is in the class [p]. *)
Fixpoint all_chars (p : ascii -> bool) (w : string) : bool :=
  match w with
  | EmptyString => true
  | String c r => (p c && all_chars p r)%bool
  end.

(** [s] is empty or starts with a character outside the class [p]. *)
Definition stops (p : ascii -> bool) (s : string) : Prop :=
  match s with
  | EmptyString => True
  | String c _ => p c = false
  end.

(** The words that a pattern matches. *)
Fixpoint lang (r : Re.regex) (w : string) : Prop :=
  match r with
  | Re.Eps => w = ""
  | Re.Lit c => w = String c ""
  | Re.Cls p => exists c, w = String c "" /\ p c = true
  | Re.Opt r1 => w = "" \/ lang r1 w
  | Re.Star p => all_chars p w = true
  | Re.Seq r1 r2 => exists w1 w2, w = (w1 ++ w2)%string /\ lang r1 w1 /\ lang r2 w2
  end.

(** A character that can stand in a numeral, and one that can start it. *)
Definition numeral_char (c : ascii) : bool :=
  (is_digit c || Ascii.eqb c "-" || Ascii.eqb c ".")%bool.

Definition numeral_start (c : ascii) : bool :=
  (is_digit c || Ascii.eqb c "-")%bool.

(** An optional minus, at least one digit, and then nothing, or a point and
    digits. *)
Definition is_decimal (w : string) : Prop :=
  exists sign ip tail,
    w = (sign ++ ip ++ tail)%string /\
    (sign = "" \/ sign = "-") /\
    ip <> "" /\ all_chars is_digit ip = true /\
    (tail = "" \/ exists fp, tail = String "." fp /\ all_chars is_digit fp = true).

(** The matcher that [findall] runs at each position for [number_re]. *)
Definition number_at (t : string) : option (string * nat) :=
  match Re.rests GeometryProcessor.number_re t with
  | rest :: _ =>
      Some (Re.consumed t rest, String.length t - String.length rest)
  | [] => None
  end.

Definition blank_row : GeometryProcessor.row :=
  {| GeometryProcessor.cells := [("geom", Some "   ")];
     GeometryProcessor.appended :=
       map (fun c => (c, VNone)) GeometryProcessor.new_columns |}.

(** The point that the loop of [_parse_wkt] builds from a pair of groups. *)
Definition pair_point (pr : string * string) (pt : value) : Prop :=
  exists x y,
    py_float (fst pr) = Ok (fin x) /\ py_float (snd pr) = Ok (fin y) /\
    pt = point (x, y).

(** The pairs that [_parse_wkt] scans for. *)
Definition wkt_pairs (s : string) : list (string * string) :=
  Re.findall_pairs GeometryProcessor.number_re (Re.Plus is_space)
    GeometryProcessor.number_re s.

(** A parenthesis becomes a comma; any other character stays. *)
Definition without_parentheses (c : ascii) : ascii :=
  if (Ascii.eqb c "(" || Ascii.eqb c ")")%bool then ","%char else c.

Definition scenario_B : string := "MULTIPOLYGON(((1 1, 2 1, 2 2, 1 2, 1 1)))".

Definition scenario_B_points : list (Q * Q) :=
  [(1 # 1, 1 # 1); (2 # 1, 1 # 1); (2 # 1, 2 # 1); (1 # 1, 2 # 1); (1 # 1, 1 # 1)]%Q.

Section ValueInduction.

Variable P : value -> Prop.
Hypothesis HNone : P VNone.
Hypothesis HBool : forall b, P (VBool b).
Hypothesis HNum : forall n, P (VNum n).
Hypothesis HStr : forall s, P (VStr s).
Hypothesis HList : forall l, Forall P l -> P (VList l).
Hypothesis HDict : forall d, Forall (fun kv => P (snd kv)) d -> P (VDict d).

Fixpoint value_induction (v : value) : P v :=
  match v with
  | VNone => HNone
  | VBool b => HBool b
  | VNum n => HNum n
  | VStr s => HStr s
  | VList l =>
      HList l
        ((fix items (l : list value) : Forall P l :=
            match l with
            | [] => Forall_nil P
            | x :: r => Forall_cons x (value_induction x) (items r)
            end) l)
  | VDict d =>
      HDict d
        ((fix pairs (d : list (string * value))
            : Forall (fun kv => P (snd kv)) d :=
            match d with
            | [] => Forall_nil _
            | kv :: r => Forall_cons kv (value_induction (snd kv)) (pairs r)
            end) d)
  end.

End ValueInduction.

(** A point with exactly two numeric components. *)
Definition two_numbers (p : value) : Prop :=
  exists a b, p = VList [a; b] /\ is_number a = true /\ is_number b = true.

(** A non-empty list whose first component is numeric: what the walk over
    GeoJSON coordinates takes for a point. *)
Definition first_numeric (p : value) : Prop :=
  exists a rest, p = VList (a :: rest) /\ is_number a = true.

(** A list whose first two components are numeric. *)
Definition two_leading_numbers (p : value) : Prop :=
  exists a b rest,
    p = VList (a :: b :: rest) /\ is_number a = true /\ is_number b = true.

(** The dictionary that the parsers return around a list of points. *)
Definition coordinates_dict (pts : list value) : value :=
  VDict [("coordinates", VList pts)].

(** The text [{"type":"Point","coordinates":[]}] *)
Definition empty_point_text : string :=
  "{" ++ quoted "type" ++ ":" ++ quoted "Point" ++ "," ++ quoted "coordinates"
  ++ ":[]}".

(** The text [{"type":"Point","coordinates":[1,2,3]}] *)
Definition point_3d_text : string :=
  "{" ++ quoted "type" ++ ":" ++ quoted "Point" ++ "," ++ quoted "coordinates"
  ++ ":[1,2,3]}".

(** The files that [process_directory] finds in the directory. *)
Definition geojson_files (fs : list GeoJsonBatchProcessor.file) : list string :=
  flat_map (Path.glob (map GeoJsonBatchProcessor.file_name fs))
    GeoJsonBatchProcessor.supported_formats.

(** The files that fail validation, with their messages. *)
Definition invalid_files (fs : list GeoJsonBatchProcessor.file)
  (files : list string) : list (string * GeoJsonBatchProcessor.message) :=
  flat_map (fun file_path =>
              match GeoJsonBatchProcessor.validate_geojson_file fs file_path with
              | (false, error_msg, _) => [(file_path, error_msg)]
              | (true, _, _) => []
              end) files.

(** What the validation loop prints for one file. *)
Definition report (fs : list GeoJsonBatchProcessor.file) (file_path : string)
  : list GeoJsonBatchProcessor.event :=
  match GeoJsonBatchProcessor.validate_geojson_file fs file_path with
  | (true, _, _) =>
      [GeoJsonBatchProcessor.Checking file_path; GeoJsonBatchProcessor.FormatCorrect]
  | (false, error_msg, _) =>
      [GeoJsonBatchProcessor.Checking file_path;
       GeoJsonBatchProcessor.FormatError error_msg]
  end.

(** What the console shows before the validation loop. *)
Definition batch_header (files : list string) : list GeoJsonBatchProcessor.event :=
  [GeoJsonBatchProcessor.Scanning; GeoJsonBatchProcessor.Found (List.length files);
   GeoJsonBatchProcessor.Validating].

(** Scenario E: three files, of which the second holds a JSON array. *)
Definition scenario_E : list GeoJsonBatchProcessor.file :=
  [ {| GeoJsonBatchProcessor.file_name := "a.geojson";
       GeoJsonBatchProcessor.file_content := GeoJsonBatchProcessor.Text scenario_A |};
    {| GeoJsonBatchProcessor.file_name := "b.geojson";
       GeoJsonBatchProcessor.file_content := GeoJsonBatchProcessor.Text "[1,2]" |};
    {| GeoJsonBatchProcessor.file_name := "c.geojson";
       GeoJsonBatchProcessor.file_content := GeoJsonBatchProcessor.Text scenario_A |} ].

(** The files that [process_directory] finds in the directory. *)
Definition excel_files (fs : list GeometryProcessor.file) : list string :=
  flat_map (Path.glob (map GeometryProcessor.file_name fs))
    GeometryProcessor.supported_excel_formats.

(** The files that fail validation, with their messages. *)
Definition invalid_excel_files (fs : list GeometryProcessor.file) (field : string)
  (files : list string) : list (string * GeometryProcessor.message) :=
  flat_map (fun file_path =>
              match GeometryProcessor.validate_excel_file fs field file_path with
              | (false, error_msg) => [(file_path, error_msg)]
              | (true, _) => []
              end) files.

(** The name of the file written for [input_file]. *)
Definition output_name (input_file : string) : string :=
  Path.stem input_file ++ "_with_bounds" ++ Path.suffix input_file.

(** A batch of two files: the first lacks the geometry column, the second
    is well formed. *)
Definition batch_with_missing_column : list GeometryProcessor.file :=
  [ {| GeometryProcessor.file_name := "a.csv";
       GeometryProcessor.file_size := 10;
       GeometryProcessor.file_table :=
         Some {| GeometryProcessor.columns := ["id"];
                 GeometryProcessor.rows :=
                   [ {| GeometryProcessor.cells := [("id", Some "1")];
                        GeometryProcessor.appended := [] |} ] |} |};
    {| GeometryProcessor.file_name := "b.csv";
       GeometryProcessor.file_size := 20;
       GeometryProcessor.file_table :=
         Some {| GeometryProcessor.columns := ["geom"];
                 GeometryProcessor.rows :=
                   [ {| GeometryProcessor.cells := [("geom", Some "(12.5, 45.25)")];
                        GeometryProcessor.appended := [] |} ] |} |} ].

(** *** Vocabulary of the further properties *)


(** The sample points in another order, one of them twice. *)
Definition sample_points_shuffled : list (Q * Q) :=
  [(30 # 1, 10 # 1); (10 # 1, 20 # 1); (30 # 1, 20 # 1); (10 # 1, 10 # 1);
   (10 # 1, 20 # 1)]%Q.

(** The LineString object of these points. *)
Definition sample_object_shuffled : value :=
  VDict [("type", VStr "LineString");
         ("coordinates", VList (map point sample_points_shuffled))].

(** The value under [key], or [default]: [d.get(key, default)] on a
    dictionary. *)
Definition dict_get (d : list (string * value)) (key : string) (default : value)
  : value :=
  match dict_lookup d key with
  | Some v => v
  | None => default
  end.

(** The type of the object, in lower case; the empty string when the key
    is absent; nothing when the value is not a string. *)
Definition lower_type (d : list (string * value)) : option string :=
  match dict_get d "type" (VStr "") with
  | VStr t => Some (lower t)
  | _ => None
  end.

(** A Feature around the sample MultiPoint. *)
Definition sample_feature : value :=
  VDict [("type", VStr "Feature"); ("properties", VNone);
         ("geometry", sample_object)].

(** A collection of two such features. *)
Definition sample_collection : list (string * value) :=
  [("type", VStr "FeatureCollection");
   ("features", VList [sample_feature; sample_feature])].

(** A collection whose second feature has a null geometry. *)
Definition collection_with_null_geometry : list (string * value) :=
  [("type", VStr "FeatureCollection");
   ("features",
    VList [sample_feature;
           VDict [("type", VStr "Feature"); ("geometry", VNone)]])].


(** The files that pass validation, with their data. *)
Definition valid_files (fs : list GeoJsonBatchProcessor.file) (files : list string)
  : list (string * value) :=
  flat_map (fun file_path =>
              match GeoJsonBatchProcessor.validate_geojson_file fs file_path with
              | (true, _, geojson_data) => [(file_path, geojson_data)]
              | (false, _, _) => []
              end) files.

(** The name of the file that the GeoJSON script writes for [filename]. *)
Definition rectangle_name (filename : string) : string :=
  fst (Path.splitext filename) ++ GeoJsonBatchProcessor.name_suffix ++ ".geojson".

(** What the processing loop does with one valid file: the file written,
    or the entry of [error_files]. *)
Definition processed (file : string * value)
  : (string * value) + (string * GeoJsonBatchProcessor.message) :=
  match GeoJsonBatchProcessor.calculate_bounds (snd file) with
  | Ok bounds_info =>
      inl (rectangle_name (fst file),
           GeoJsonBatchProcessor.create_rectangle_geojson bounds_info
             (fst (Path.splitext (fst file))))
  | Raise e => inr (fst file, GeoJsonBatchProcessor.ProcessingError e)
  end.

(** The file is processed without an exception. *)
Definition succeeded (file : string * value) : bool :=
  match processed file with inl _ => true | inr _ => false end.

(** The files written for a list of valid files, in order. *)
Definition outputs (files : list (string * value)) : list (string * value) :=
  flat_map (fun file => match processed file with inl o => [o] | inr _ => [] end)
    files.

(** The entries of [error_files] for a list of valid files, in order. *)
Definition failures (files : list (string * value))
  : list (string * GeoJsonBatchProcessor.message) :=
  flat_map (fun file => match processed file with inl _ => [] | inr e => [e] end)
    files.

(** A batch of two files that pass validation; the point of the first has
    one component only. *)
Definition batch_with_short_point : list GeoJsonBatchProcessor.file :=
  [ {| GeoJsonBatchProcessor.file_name := "a.geojson";
       GeoJsonBatchProcessor.file_content :=
         GeoJsonBatchProcessor.Text
           ("{" ++ quoted "type" ++ ":" ++ quoted "Point" ++ ","
                ++ quoted "coordinates" ++ ":[1]}") |};
    {| GeoJsonBatchProcessor.file_name := "b.geojson";
       GeoJsonBatchProcessor.file_content := GeoJsonBatchProcessor.Text scenario_A |} ].

(** The five extensions that the two scripts scan for. *)
Definition scanned_extensions : list string :=
  GeoJsonBatchProcessor.supported_formats ++ GeometryProcessor.supported_excel_formats.

(** A directory that holds [a.json] and [a.geojson]. *)
Definition directory_with_twins : list GeoJsonBatchProcessor.file :=
  [ {| GeoJsonBatchProcessor.file_name := "a.json";
       GeoJsonBatchProcessor.file_content := GeoJsonBatchProcessor.Text scenario_A |};
    {| GeoJsonBatchProcessor.file_name := "a.geojson";
       GeoJsonBatchProcessor.file_content := GeoJsonBatchProcessor.Text scenario_A |} ].

(** The first letters of the six WKT keywords, in either case. *)
Definition keyword_initial (c : ascii) : bool :=
  (Ascii.eqb (upper_char c) "P" || Ascii.eqb (upper_char c) "L"
   || Ascii.eqb (upper_char c) "M")%bool.

(** A row whose geometry cell holds the pair [(12.5, 45.25)] between
    blanks. *)
Definition pair_row : GeometryProcessor.row :=
  {| GeometryProcessor.cells := [("geom", Some "  (12.5, 45.25) ")];
     GeometryProcessor.appended :=
       map (fun c => (c, VNone)) GeometryProcessor.new_columns |}.

(** A row whose geometry cell holds an array of two points. *)
Definition array_row : GeometryProcessor.row :=
  {| GeometryProcessor.cells := [("geom", Some "[[1,2],[3,4]]")];
     GeometryProcessor.appended :=
       map (fun c => (c, VNone)) GeometryProcessor.new_columns |}.

(** A row whose geometry cell holds the polygon of scenario A. *)
Definition polygon_row : GeometryProcessor.row :=
  {| GeometryProcessor.cells := [("geom", Some scenario_A)];
     GeometryProcessor.appended :=
       map (fun c => (c, VNone)) GeometryProcessor.new_columns |}.

(** The eight appended cells of a row are unset, as [add_new_columns]
    leaves them. *)
Definition unset (r : GeometryProcessor.row) : Prop :=
  GeometryProcessor.appended r
  = map (fun c => (c, VNone)) GeometryProcessor.new_columns.

(** The eight appended cells of a row hold numbers, under the eight new
    column names. *)
Definition filled (r : GeometryProcessor.row) : Prop :=
  map fst (GeometryProcessor.appended r) = GeometryProcessor.new_columns /\
  Forall (fun kv => is_number (snd kv) = true) (GeometryProcessor.appended r).

(** The geometry cell of a row is null or the empty text. *)
Definition empty_cell (geometry_field_name : string) (r : GeometryProcessor.row)
  : Prop :=
  GeometryProcessor.row_getitem (GeometryProcessor.cells r) geometry_field_name
    = Ok None \/
  GeometryProcessor.row_getitem (GeometryProcessor.cells r) geometry_field_name
    = Ok (Some "").

(** The row that the loop over the rows leaves in the place of [r]. *)
Definition processed_row (geometry_field_name : string) (r : GeometryProcessor.row)
  : GeometryProcessor.row :=
  match GeometryProcessor.process_row geometry_field_name r with
  | GeometryProcessor.Updated b => GeometryProcessor.set_bounds r b
  | _ => r
  end.

(** The three outcomes of a turn of the loop, as tests on the row. *)
Definition is_updated (geometry_field_name : string) (r : GeometryProcessor.row)
  : bool :=
  match GeometryProcessor.process_row geometry_field_name r with
  | GeometryProcessor.Updated _ => true
  | _ => false
  end.

Definition is_failed (geometry_field_name : string) (r : GeometryProcessor.row)
  : bool :=
  match GeometryProcessor.process_row geometry_field_name r with
  | GeometryProcessor.Failed => true
  | _ => false
  end.

Definition is_skipped (geometry_field_name : string) (r : GeometryProcessor.row)
  : bool :=
  match GeometryProcessor.process_row geometry_field_name r with
  | GeometryProcessor.Skipped => true
  | _ => false
  end.

(** The second table of the batch with a missing column. *)
Definition table_b : GeometryProcessor.dataframe :=
  {| GeometryProcessor.columns := ["geom"];
     GeometryProcessor.rows :=
       [ {| GeometryProcessor.cells := [("geom", Some "(12.5, 45.25)")];
            GeometryProcessor.appended := [] |} ] |}.

(** A file system with the one directory [data], which holds the files of
    the batch with a short point. *)
Definition sample_filesystem : Cli.filesystem GeoJsonBatchProcessor.file :=
  {| Cli.path_exists := fun p => String.eqb p "data";
     Cli.isdir := fun p => String.eqb p "data";
     Cli.makedirs := fun _ => true;
     Cli.files := fun p => if String.eqb p "data" then batch_with_short_point else [] |}.

(** A file system with the one directory [tables], which holds a table that
    lacks the column [geom] and a table that has it. *)
Definition tables_filesystem : Cli.filesystem GeometryProcessor.file :=
  {| Cli.path_exists := fun p => String.eqb p "tables";
     Cli.isdir := fun p => String.eqb p "tables";
     Cli.makedirs := fun _ => false;
     Cli.files := fun p => if String.eqb p "tables" then batch_with_missing_column else [] |}.

(* ------------------------------------------------------------------ *)

(** Case analysis on the 256 characters. *)
Ltac by_cases c :=
  destruct c as [[] [] [] [] [] [] [] []]; try discriminate; try reflexivity.


(** ** Extrema of lists of finite numbers *)

Section Extrema.

Lemma Qltb_lt x y : Qltb x y = true <-> (x < y)%Q.
Proof.
  unfold Qltb. rewrite negb_true_iff. split; intro H.
  - apply Qnot_le_lt. intro Hle. apply Qle_bool_iff in Hle. congruence.
  - destruct (Qle_bool y x) eqn:E; [|reflexivity].
    apply Qle_bool_iff in E. exfalso. exact (Qlt_not_le _ _ H E).
Qed.

Lemma Qltb_ge x y : Qltb x y = false <-> (y <= x)%Q.
Proof.
  unfold Qltb. rewrite negb_false_iff. apply Qle_bool_iff.
Qed.

Lemma Qltb_irrefl x : Qltb x x = false.
Proof. apply Qltb_ge. apply Qle_refl. Qed.

Lemma min_from_fin best l :
  min_from (fin best) (map fin l) = Ok (fin (qmin_from best l)).
Proof.
  revert best. induction l as [|x r IH]; intro best; simpl; [reflexivity|].
  destruct (Qltb x best); apply IH.
Qed.

Lemma max_from_fin best l :
  max_from (fin best) (map fin l) = Ok (fin (qmax_from best l)).
Proof.
  revert best. induction l as [|x r IH]; intro best; simpl; [reflexivity|].
  destruct (Qltb best x); apply IH.
Qed.

Lemma qmin_from_le_best best l : (qmin_from best l <= best)%Q.
Proof.
  revert best. induction l as [|x r IH]; intro best; simpl.
  - apply Qle_refl.
  - destruct (Qltb x best) eqn:E.
    + apply Qltb_lt in E. eapply Qle_trans; [apply IH|]. apply Qlt_le_weak, E.
    + apply IH.
Qed.

Lemma qmin_from_le_all best l y : In y l -> (qmin_from best l <= y)%Q.
Proof.
  revert best. induction l as [|x r IH]; intros best Hy; simpl in *; [tauto|].
  destruct Hy as [->|Hy].
  - destruct (Qltb y best) eqn:E.
    + apply qmin_from_le_best.
    + apply Qltb_ge in E. eapply Qle_trans; [apply qmin_from_le_best|exact E].
  - destruct (Qltb x best); apply IH, Hy.
Qed.

Lemma qmax_from_ge_best best l : (best <= qmax_from best l)%Q.
Proof.
  revert best. induction l as [|x r IH]; intro best; simpl.
  - apply Qle_refl.
  - destruct (Qltb best x) eqn:E.
    + apply Qltb_lt in E. eapply Qle_trans; [|apply IH]. apply Qlt_le_weak, E.
    + apply IH.
Qed.

Lemma qmax_from_ge_all best l y : In y l -> (y <= qmax_from best l)%Q.
Proof.
  revert best. induction l as [|x r IH]; intros best Hy; simpl in *; [tauto|].
  destruct Hy as [->|Hy].
  - destruct (Qltb best y) eqn:E.
    + apply qmax_from_ge_best.
    + apply Qltb_ge in E. eapply Qle_trans; [exact E|apply qmax_from_ge_best].
  - destruct (Qltb best x); apply IH, Hy.
Qed.

(** The least element found is an element of the list, as an object: when
    it is numerically equal to the first one it is the first one. *)
Lemma qmin_from_first best l :
  (best <= qmin_from best l)%Q -> qmin_from best l = best.
Proof.
  revert best. induction l as [|x r IH]; intros best H; simpl in *.
  - reflexivity.
  - destruct (Qltb x best) eqn:E.
    + apply Qltb_lt in E. exfalso.
      apply (Qlt_not_le _ _ E). eapply Qle_trans; [exact H|].
      apply qmin_from_le_best.
    + apply IH, H.
Qed.

Lemma qmax_from_first best l :
  (qmax_from best l <= best)%Q -> qmax_from best l = best.
Proof.
  revert best. induction l as [|x r IH]; intros best H; simpl in *.
  - reflexivity.
  - destruct (Qltb best x) eqn:E.
    + apply Qltb_lt in E. exfalso.
      apply (Qlt_not_le _ _ E). eapply Qle_trans; [|exact H].
      apply qmax_from_ge_best.
    + apply IH, H.
Qed.

Lemma qmin_le_qmax best l : (qmin_from best l <= qmax_from best l)%Q.
Proof.
  eapply Qle_trans; [apply qmin_from_le_best|apply qmax_from_ge_best].
Qed.

(** When the least and the greatest element are numerically equal they are
    the same object, the first element. *)
Lemma qmin_qmax_same best l :
  (qmax_from best l <= qmin_from best l)%Q ->
  qmax_from best l = qmin_from best l.
Proof.
  intro H.
  rewrite (qmin_from_first best l), (qmax_from_first best l); [reflexivity| |].
  - eapply Qle_trans; [exact H|apply qmin_from_le_best].
  - eapply Qle_trans; [apply qmax_from_ge_best|exact H].
Qed.

Lemma mapM_lon (P : list (Q * Q)) :
  mapM (fun coord => py_getitem coord 0) (map point P) = Ok (map fin (map fst P)).
Proof.
  induction P as [|p r IH]; simpl; [reflexivity|].
  rewrite IH. reflexivity.
Qed.

Lemma mapM_lat (P : list (Q * Q)) :
  mapM (fun coord => py_getitem coord 1) (map point P) = Ok (map fin (map snd P)).
Proof.
  induction P as [|p r IH]; simpl; [reflexivity|].
  rewrite IH. reflexivity.
Qed.

End Extrema.

(** ** The bounds of a list of points *)

Section Bounds.

Import GeometryProcessor.

Lemma excel_calculate_bounds_points p r :
  GeometryProcessor.calculate_bounds (VList (map point (p :: r)))
  = Ok (excel_bounds (min_lon_of p r) (max_lon_of p r)
                     (min_lat_of p r) (max_lat_of p r)).
Proof.
  unfold GeometryProcessor.calculate_bounds.
  change (py_truthy (VList (map point (p :: r)))) with true.
  cbn [negb py_iter bind].
  rewrite (mapM_lon (p :: r)), (mapM_lat (p :: r)).
  cbn [bind map py_min py_max].
  fold (fin (fst p)). fold (fin (snd p)).
  rewrite !min_from_fin, !max_from_fin.
  reflexivity.
Qed.

Lemma geojson_calculate_bounds_points geojson_data p r :
  Walk.collect geojson_data = Ok (map point (p :: r)) ->
  GeoJsonBatchProcessor.calculate_bounds geojson_data
  = Ok (geojson_bounds (min_lon_of p r) (max_lon_of p r)
                       (min_lat_of p r) (max_lat_of p r)).
Proof.
  intro H. unfold GeoJsonBatchProcessor.calculate_bounds.
  rewrite H. cbn [bind].
  change (map point (p :: r)) with (point p :: map point r) at 1.
  cbv iota.
  rewrite (mapM_lon (p :: r)), (mapM_lat (p :: r)).
  cbn [bind map py_min py_max].
  fold (fin (fst p)). fold (fin (snd p)).
  rewrite !min_from_fin, !max_from_fin.
  reflexivity.
Qed.

Lemma extrema_contain p r q :
  In q (p :: r) ->
  (min_lon_of p r <= fst q <= max_lon_of p r)%Q /\
  (min_lat_of p r <= snd q <= max_lat_of p r)%Q.
Proof.
  unfold min_lon_of, max_lon_of, min_lat_of, max_lat_of.
  intros [->|Hq].
  - repeat split; first [apply qmin_from_le_best | apply qmax_from_ge_best].
  - repeat split;
      first [apply qmin_from_le_all | apply qmax_from_ge_all];
      apply in_map, Hq.
Qed.

End Bounds.

(** C1.  For every non-empty list [P] of 2-D points, the bounds that
    [calculate_bounds] computes contain every point of [P]: in tabular mode
    on the list itself, in GeoJSON mode on any object from which the walk
    extracts [P].  Both calls succeed, their extreme coordinates are the
    same four numbers [min_lon], [max_lon], [min_lat], [max_lat], and
    [min_lon <= lon <= max_lon] and [min_lat <= lat <= max_lat] hold for
    every point [(lon, lat)] of [P]. *)
Theorem C1_bounds_contain_every_point (P : list (Q * Q)) (geojson_data : value) :
  P <> [] ->
  Walk.collect geojson_data = Ok (map point P) ->
  exists min_lon max_lon min_lat max_lat : Q,
    GeometryProcessor.calculate_bounds (VList (map point P))
      = Ok (excel_bounds min_lon max_lon min_lat max_lat) /\
    GeoJsonBatchProcessor.calculate_bounds geojson_data
      = Ok (geojson_bounds min_lon max_lon min_lat max_lat) /\
    forall p, In p P ->
      (min_lon <= fst p <= max_lon)%Q /\ (min_lat <= snd p <= max_lat)%Q.
Proof.
  intros Hne Hwalk. destruct P as [|p r]; [congruence|].
  exists (min_lon_of p r), (max_lon_of p r), (min_lat_of p r), (max_lat_of p r).
  split; [apply excel_calculate_bounds_points|].
  split; [apply geojson_calculate_bounds_points, Hwalk|].
  intros q Hq. apply extrema_contain, Hq.
Qed.

Lemma C1_witness :
  exists min_lon max_lon min_lat max_lat : Q,
    GeometryProcessor.calculate_bounds (VList (map point sample_points))
      = Ok (excel_bounds min_lon max_lon min_lat max_lat) /\
    GeoJsonBatchProcessor.calculate_bounds sample_object
      = Ok (geojson_bounds min_lon max_lon min_lat max_lat) /\
    forall p, In p sample_points ->
      (min_lon <= fst p <= max_lon)%Q /\ (min_lat <= snd p <= max_lat)%Q.
Proof.
  apply (C1_bounds_contain_every_point sample_points sample_object).
  - discriminate.
  - reflexivity.
Defined.

(** ** Idempotence on the corners *)

Section Corners.

Variables a b c d : Q.
Hypothesis Hab : (a <= b)%Q.
Hypothesis Hab_same : (b <= a)%Q -> b = a.
Hypothesis Hcd : (c <= d)%Q.
Hypothesis Hcd_same : (d <= c)%Q -> d = c.

Lemma corners_min_lon : min_lon_of (a, c) [(a, d); (b, d); (b, c)] = a.
Proof.
  unfold min_lon_of. simpl.
  rewrite Qltb_irrefl.
  assert (E : Qltb b a = false) by (apply Qltb_ge, Hab).
  rewrite E. reflexivity.
Qed.

Lemma corners_max_lon : max_lon_of (a, c) [(a, d); (b, d); (b, c)] = b.
Proof.
  unfold max_lon_of. simpl.
  rewrite Qltb_irrefl.
  destruct (Qltb a b) eqn:E.
  - rewrite !Qltb_irrefl. reflexivity.
  - apply Qltb_ge in E. rewrite (Hab_same E). reflexivity.
Qed.

Lemma corners_min_lat : min_lat_of (a, c) [(a, d); (b, d); (b, c)] = c.
Proof.
  unfold min_lat_of. simpl.
  assert (E : Qltb d c = false) by (apply Qltb_ge, Hcd).
  rewrite E, Qltb_irrefl. reflexivity.
Qed.

Lemma corners_max_lat : max_lat_of (a, c) [(a, d); (b, d); (b, c)] = d.
Proof.
  unfold max_lat_of. simpl.
  destruct (Qltb c d) eqn:E.
  - rewrite Qltb_irrefl.
    assert (E' : Qltb d c = false) by (apply Qltb_ge, Hcd).
    rewrite E'. reflexivity.
  - apply Qltb_ge in E. rewrite (Hcd_same E).
    rewrite !Qltb_irrefl. reflexivity.
Qed.

Lemma excel_corners_fixpoint :
  GeometryProcessor.calculate_bounds (excel_corners (excel_bounds a b c d))
  = Ok (excel_bounds a b c d).
Proof.
  change (excel_corners (excel_bounds a b c d))
    with (VList (map point [(a, c); (a, d); (b, d); (b, c)])).
  rewrite excel_calculate_bounds_points.
  rewrite corners_min_lon, corners_max_lon, corners_min_lat, corners_max_lat.
  reflexivity.
Qed.

Lemma geojson_corners_fixpoint :
  GeoJsonBatchProcessor.calculate_bounds (geojson_corners (geojson_bounds a b c d))
  = Ok (geojson_bounds a b c d).
Proof.
  rewrite (geojson_calculate_bounds_points _ (a, c) [(a, d); (b, d); (b, c)])
    by reflexivity.
  rewrite corners_min_lon, corners_max_lon, corners_min_lat, corners_max_lat.
  reflexivity.
Qed.

End Corners.

(** C9.  For every non-empty list [P] of 2-D points, running
    [calculate_bounds] on the four corners of the bounds of [P] gives the
    bounds of [P] again: the same [min_lon], [max_lon], [min_lat] and
    [max_lat], and with them the same record.  In tabular mode the corners
    are passed as a list of four points, in GeoJSON mode as a MultiPoint
    object. *)
Theorem C9_bounds_idempotent_on_corners (P : list (Q * Q)) (geojson_data : value) :
  P <> [] ->
  Walk.collect geojson_data = Ok (map point P) ->
  (exists b,
     GeometryProcessor.calculate_bounds (VList (map point P)) = Ok b /\
     GeometryProcessor.calculate_bounds (excel_corners b) = Ok b) /\
  (exists b,
     GeoJsonBatchProcessor.calculate_bounds geojson_data = Ok b /\
     GeoJsonBatchProcessor.calculate_bounds (geojson_corners b) = Ok b).
Proof.
  intros Hne Hwalk. destruct P as [|p r]; [congruence|].
  assert (H1 : (min_lon_of p r <= max_lon_of p r)%Q) by apply qmin_le_qmax.
  assert (H2 : (max_lon_of p r <= min_lon_of p r)%Q -> max_lon_of p r = min_lon_of p r)
    by apply qmin_qmax_same.
  assert (H3 : (min_lat_of p r <= max_lat_of p r)%Q) by apply qmin_le_qmax.
  assert (H4 : (max_lat_of p r <= min_lat_of p r)%Q -> max_lat_of p r = min_lat_of p r)
    by apply qmin_qmax_same.
  split.
  - eexists. split; [apply excel_calculate_bounds_points|].
    apply excel_corners_fixpoint; assumption.
  - eexists. split; [apply geojson_calculate_bounds_points, Hwalk|].
    apply geojson_corners_fixpoint; assumption.
Qed.

Lemma C9_witness :
  (exists b,
     GeometryProcessor.calculate_bounds (VList (map point sample_points)) = Ok b /\
     GeometryProcessor.calculate_bounds (excel_corners b) = Ok b) /\
  (exists b,
     GeoJsonBatchProcessor.calculate_bounds sample_object = Ok b /\
     GeoJsonBatchProcessor.calculate_bounds (geojson_corners b) = Ok b).
Proof.
  apply (C9_bounds_idempotent_on_corners sample_points sample_object).
  - discriminate.
  - reflexivity.
Defined.

(** ** Scenarios on concrete inputs *)

(** C7.  For the GeoJSON text of scenario A, decoding succeeds, the
    computed bbox is [[10, 10, 30, 20]], the center is [[20, 15]], and for
    every source name the feature built is a FeatureCollection with one
    Feature whose geometry is a Polygon with the single closed ring
    [[[10,10],[10,20],[30,20],[30,10],[10,10]]] (south-west, north-west,
    north-east, south-east, south-west).  A batch made of one file with
    this text writes exactly that collection. *)
Theorem C7_scenario_A_rectangle :
  exists geojson_data bounds_info,
    Json.loads scenario_A = Some geojson_data /\
    GeoJsonBatchProcessor.calculate_bounds geojson_data = Ok bounds_info /\
    GeoJsonBatchProcessor.bbox bounds_info = [VInt 10; VInt 10; VInt 30; VInt 20] /\
    GeoJsonBatchProcessor.center bounds_info = [VInt 20; VInt 15] /\
    (forall source_filename, exists properties,
       GeoJsonBatchProcessor.create_rectangle_geojson bounds_info source_filename
       = VDict
           [("type", VStr "FeatureCollection");
            ("features",
             VList
               [VDict
                  [("type", VStr "Feature");
                   ("geometry",
                    VDict [("type", VStr "Polygon");
                           ("coordinates", VList [scenario_A_ring])]);
                   ("properties", VDict properties)]])]) /\
    (let fs := [ {| GeoJsonBatchProcessor.file_name := "a.geojson";
                    GeoJsonBatchProcessor.file_content :=
                      GeoJsonBatchProcessor.Text scenario_A |} ] in
     let run := GeoJsonBatchProcessor.process_directory fs GeoJsonBatchProcessor.init in
     fst run = GeoJsonBatchProcessor.Returned /\
     GeoJsonBatchProcessor.written (snd run)
     = [("a四角边框矩形面.geojson",
         GeoJsonBatchProcessor.create_rectangle_geojson bounds_info "a")]).
Proof.
  eexists. eexists.
  split; [vm_compute; reflexivity|].
  split; [vm_compute; reflexivity|].
  split; [reflexivity|].
  split; [reflexivity|].
  split.
  - intro source_filename. eexists. reflexivity.
  - vm_compute. split; reflexivity.
Qed.

(** C2.  What the code does on the row of scenario C.  The cell
    [[102.5,31.2]] is valid JSON, so it is classified [json] before the
    pattern of a coordinate array is tried; [_parse_json] hands the flat
    array [[102.5, 31.2]] to [calculate_bounds] as the list of points;
    subscripting its first item, a float, raises [TypeError]; the row is
    counted as an error and its eight cells stay unset.  The sibling
    parser [_parse_coordinate_array] yields the single point
    [[[102.5, 31.2]]] for the same text, on which the eight cells would
    carry 102.5 and 31.2. *)
Theorem C2_scenario_C_row_fails :
  GeometryProcessor.detect_geometry_format (Some scenario_C)
  = Ok ("json", VDict [("coordinates", VList [VDec 205 2; VDec 156 5])]) /\
  GeometryProcessor.calculate_bounds (VList [VDec 205 2; VDec 156 5])
  = Raise TypeError /\
  GeometryProcessor.process_row "geom" scenario_C_row = GeometryProcessor.Failed /\
  GeometryProcessor.process_rows "geom" [scenario_C_row]
    {| GeometryProcessor.processed_rows := 0; GeometryProcessor.error_rows := 0 |}
  = ([scenario_C_row],
     {| GeometryProcessor.processed_rows := 0; GeometryProcessor.error_rows := 1 |}) /\
  GeometryProcessor._is_coordinate_array scenario_C = true /\
  GeometryProcessor._parse_coordinate_array scenario_C
  = Ok (VDict [("coordinates", VList [VList [VDec 205 2; VDec 156 5]])]) /\
  GeometryProcessor.calculate_bounds (VList [VList [VDec 205 2; VDec 156 5]])
  = Ok (excel_bounds (205 # 2) (205 # 2) (156 # 5) (156 # 5)).
Proof.
  repeat split; vm_compute; reflexivity.
Qed.

(** ** Strings and the regular expressions *)

Section Strings.

Lemma append_nil_r (a : string) : (a ++ "")%string = a.
Proof. induction a as [|c a IH]; simpl; [reflexivity|]. now rewrite IH. Qed.

Lemma append_assoc (a b c : string) :
  ((a ++ b) ++ c)%string = (a ++ (b ++ c))%string.
Proof. induction a as [|x a IH]; simpl; [reflexivity|]. now rewrite IH. Qed.

Lemma length_append (a b : string) :
  String.length (a ++ b) = String.length a + String.length b.
Proof. induction a as [|x a IH]; simpl; [reflexivity|]. now rewrite IH. Qed.

Lemma substring_prefix (w rest : string) :
  substring 0 (String.length w) (w ++ rest) = w.
Proof.
  induction w as [|c w IH]; simpl.
  - destruct rest; reflexivity.
  - now rewrite IH.
Qed.

Lemma consumed_append (w rest : string) : Re.consumed (w ++ rest) rest = w.
Proof.
  unfold Re.consumed. rewrite length_append.
  replace (String.length w + String.length rest - String.length rest)
    with (String.length w) by lia.
  apply substring_prefix.
Qed.

Lemma all_chars_append p a b :
  all_chars p (a ++ b) = (all_chars p a && all_chars p b)%bool.
Proof.
  induction a as [|c a IH]; simpl; [reflexivity|].
  rewrite IH. now rewrite andb_assoc.
Qed.

Lemma span_append p a b :
  all_chars p a = true -> stops p b -> span p (a ++ b) = (a, b).
Proof.
  intros Ha Hb. induction a as [|c a IH]; simpl in *.
  - destruct b as [|c b]; simpl in *; [reflexivity|]. now rewrite Hb.
  - apply andb_true_iff in Ha as [Hc Ha]. rewrite Hc, (IH Ha). reflexivity.
Qed.

Lemma lstrip_blank s : all_chars is_space s = true -> lstrip s = "".
Proof.
  induction s as [|c s IH]; simpl; [reflexivity|].
  intro H. apply andb_true_iff in H as [Hc Hs]. rewrite Hc. apply IH, Hs.
Qed.

Lemma strip_blank s : all_chars is_space s = true -> strip s = "".
Proof. intro H. unfold strip. now rewrite (lstrip_blank s H). Qed.

End Strings.

Section Regex.

Import Re.

Lemma star_rests_self p s : In s (star_rests p s).
Proof.
  destruct s as [|c s]; simpl; [now left|].
  destruct (p c); [apply in_or_app; right|]; now left.
Qed.

Lemma star_rests_sound p s rest :
  In rest (star_rests p s) ->
  exists w, s = (w ++ rest)%string /\ all_chars p w = true.
Proof.
  induction s as [|c s IH]; simpl.
  - intros [<-|[]]. now exists "".
  - destruct (p c) eqn:E.
    + intro H. apply in_app_or in H as [H|[<-|[]]].
      * destruct (IH H) as (w & -> & Hw).
        exists (String c w). simpl. now rewrite E, Hw.
      * now exists "".
    + intros [<-|[]]. now exists "".
Qed.

Lemma star_rests_complete p w rest :
  all_chars p w = true -> In rest (star_rests p (w ++ rest)).
Proof.
  induction w as [|c w IH]; simpl.
  - intros _. apply star_rests_self.
  - intro H. apply andb_true_iff in H as [Hc Hw]. rewrite Hc.
    apply in_or_app. left. apply IH, Hw.
Qed.

Lemma rests_sound r : forall s rest,
  In rest (rests r s) -> exists w, s = (w ++ rest)%string /\ lang r w.
Proof.
  induction r as [|c|p|r IH|p|r1 IH1 r2 IH2]; intros s rest H; simpl in *.
  - destruct H as [<-|[]]. now exists "".
  - destruct s as [|c' s]; [destruct H|].
    destruct (Ascii.eqb c c') eqn:E; [|destruct H].
    apply Ascii.eqb_eq in E as <-. destruct H as [<-|[]].
    now exists (String c "").
  - destruct s as [|c' s]; [destruct H|].
    destruct (p c') eqn:E; [|destruct H].
    destruct H as [<-|[]]. exists (String c' ""). split; [reflexivity|].
    now exists c'.
  - apply in_app_or in H as [H|[<-|[]]].
    + destruct (IH _ _ H) as (w & -> & Hw). exists w. now split; [|right].
    + exists "". now split; [|left].
  - apply star_rests_sound, H.
  - apply in_flat_map in H as (mid & H1 & H2).
    destruct (IH1 _ _ H1) as (w1 & -> & Hw1).
    destruct (IH2 _ _ H2) as (w2 & -> & Hw2).
    exists (w1 ++ w2)%string. split; [now rewrite append_assoc|].
    now exists w1, w2.
Qed.

Lemma rests_complete r : forall w rest,
  lang r w -> In rest (rests r (w ++ rest)).
Proof.
  induction r as [|c|p|r IH|p|r1 IH1 r2 IH2]; intros w rest H; simpl in *.
  - subst w. now left.
  - subst w. simpl. rewrite Ascii.eqb_refl. now left.
  - destruct H as (c & -> & Hc). simpl. rewrite Hc. now left.
  - apply in_or_app. destruct H as [->|H].
    + right. now left.
    + left. apply IH, H.
  - apply star_rests_complete, H.
  - destruct H as (w1 & w2 & -> & H1 & H2).
    apply in_flat_map. exists (w2 ++ rest)%string. split.
    + rewrite append_assoc. apply IH1, H1.
    + apply IH2, H2.
Qed.

(** Every item that a scan reports comes from a match. *)
Lemma scan_all {A : Type} (Q : A -> Prop) (m : string -> option (A * nat)) :
  (forall t a n, m t = Some (a, n) -> Q a) ->
  forall s skip, Forall Q (scan m skip s).
Proof.
  intro Hm. induction s as [|c s IH]; intro skip; simpl.
  - destruct skip; [|constructor].
    destruct (m "") as [[a n]|] eqn:E; constructor; [eapply Hm, E|constructor].
  - destruct skip; [|apply IH].
    destruct (m (String c s)) as [[a n]|] eqn:E; [|apply IH].
    constructor; [eapply Hm, E|apply IH].
Qed.

End Regex.

(** ** Decimal numerals: the matches of [-?\d+\.?\d*] *)

Section Numerals.

Import Re GeometryProcessor.

Lemma digit_not_minus c : is_digit c = true -> Ascii.eqb c "-" = false.
Proof. by_cases c. Qed.

Lemma digit_is_start c : is_digit c = true -> numeral_start c = true.
Proof. unfold numeral_start. now intros ->. Qed.

Lemma digit_is_numeral c : is_digit c = true -> numeral_char c = true.
Proof. unfold numeral_char. now intros ->. Qed.

Lemma space_not_start c : is_space c = true -> numeral_start c = false.
Proof. by_cases c. Qed.

Lemma space_not_numeral c : is_space c = true -> numeral_char c = false.
Proof. by_cases c. Qed.

Lemma start_is_numeral c : numeral_start c = true -> numeral_char c = true.
Proof.
  unfold numeral_start, numeral_char. intro H.
  apply orb_true_iff. now left.
Qed.

Lemma digits_are_numeral w :
  all_chars is_digit w = true -> all_chars numeral_char w = true.
Proof.
  induction w as [|c w IH]; simpl; [reflexivity|].
  intro H. apply andb_true_iff in H as [Hc Hw].
  now rewrite (digit_is_numeral c Hc), (IH Hw).
Qed.

Lemma blanks_not_start w :
  all_chars is_space w = true ->
  all_chars (fun c => negb (numeral_start c)) w = true.
Proof.
  induction w as [|c w IH]; simpl; [reflexivity|].
  intro H. apply andb_true_iff in H as [Hc Hw].
  now rewrite (space_not_start c Hc), (IH Hw).
Qed.

Lemma lang_number_decimal w : lang number_re w -> is_decimal w.
Proof.
  unfold number_re. simpl.
  intros (sg & w1 & -> & Hsg & pl & w2 & -> & Hpl & dt & w3 & -> & Hdt
          & fp & e & -> & Hfp & ->).
  destruct Hpl as (d1 & ds & -> & (c & -> & Hc) & Hds).
  rewrite append_nil_r.
  assert (Hsign : sg = "" \/ sg = "-") by (destruct Hsg; [left|right]; assumption).
  destruct Hdt as [->| ->].
  - exists sg, (String c ds ++ fp)%string, "".
    rewrite append_nil_r. simpl. repeat split; try assumption.
    + discriminate.
    + now rewrite Hc, all_chars_append, Hds, Hfp.
    + now left.
  - exists sg, (String c ds), (String "." fp).
    simpl. repeat split; try assumption.
    + discriminate.
    + now rewrite Hc, Hds.
    + right. now exists fp.
Qed.

Lemma decimal_nonempty w : is_decimal w -> w <> "".
Proof.
  intros (sg & ip & tail & -> & _ & Hip & _) H.
  destruct sg; [|discriminate]. destruct ip; [congruence|discriminate].
Qed.

Lemma decimal_chars w : is_decimal w -> all_chars numeral_char w = true.
Proof.
  intros (sg & ip & tail & -> & Hsg & _ & Hip & Htail).
  rewrite !all_chars_append, (digits_are_numeral ip Hip).
  destruct Hsg as [->| ->]; destruct Htail as [->|(fp & -> & Hfp)]; simpl;
    try rewrite (digits_are_numeral fp Hfp); reflexivity.
Qed.

Lemma decimal_starts w :
  is_decimal w -> exists c r, w = String c r /\ numeral_start c = true.
Proof.
  intros (sg & ip & tail & -> & Hsg & Hne & Hip & _).
  destruct ip as [|c ip]; [congruence|]. simpl in Hip.
  apply andb_true_iff in Hip as [Hc _].
  destruct Hsg as [->| ->]; simpl.
  - exists c. eexists. split; [reflexivity|]. apply digit_is_start, Hc.
  - exists "-"%char. eexists. split; reflexivity.
Qed.

(** [float] accepts every decimal numeral and gives a finite number. *)
Lemma py_float_decimal w : is_decimal w -> exists x, py_float w = Ok (fin x).
Proof.
  intros (sg & ip & tail & -> & Hsg & Hne & Hip & Htail).
  assert (Hstop : stops is_digit tail).
  { destruct Htail as [->|(fp & -> & _)]; simpl; reflexivity. }
  assert (Htl : exists fp, snd (strip_char "." tail) = fp /\ all_chars is_digit fp = true).
  { destruct Htail as [->|(fp & -> & Hfp)]; simpl; eauto. }
  destruct Htl as (fp & Htl & Hfp).
  assert (Hfp' : span is_digit fp = (fp, "")).
  { rewrite <- (append_nil_r fp) at 1. apply span_append; [assumption|exact I]. }
  unfold py_float.
  destruct Hsg as [->| ->].
  - destruct ip as [|c ip]; [congruence|].
    assert (Hc : is_digit c = true) by (simpl in Hip; now apply andb_true_iff in Hip).
    cbn [append strip_char]. rewrite (digit_not_minus c Hc).
    change (String c (ip ++ tail)) with (String c ip ++ tail)%string.
    rewrite (span_append _ _ _ Hip Hstop), Htl, Hfp'.
    eexists. reflexivity.
  - cbn [append strip_char Ascii.eqb Bool.eqb andb].
    rewrite (span_append _ _ _ Hip Hstop), Htl, Hfp'.
    destruct ip as [|c ip]; [congruence|].
    eexists. reflexivity.
Qed.

Lemma findall_number s : findall number_re s = scan number_at 0 s.
Proof. reflexivity. Qed.

Lemma number_at_sound t a n :
  number_at t = Some (a, n) ->
  exists rest, t = (a ++ rest)%string /\ is_decimal a /\ n = String.length a.
Proof.
  unfold number_at. destruct (rests number_re t) as [|rest l] eqn:E; [discriminate|].
  intro H. injection H as <- <-.
  assert (Hin : In rest (rests number_re t)) by (rewrite E; now left).
  destruct (rests_sound _ _ _ Hin) as (w & -> & Hw).
  rewrite consumed_append. exists rest. repeat split.
  - apply lang_number_decimal, Hw.
  - rewrite length_append. lia.
Qed.

Lemma number_at_complete a rest :
  lang number_re a -> number_at (a ++ rest) <> None.
Proof.
  intro H. unfold number_at.
  pose proof (rests_complete number_re a rest H) as Hin.
  destruct (rests number_re (a ++ rest)); [destruct Hin|discriminate].
Qed.

Lemma number_at_start c t a n :
  number_at (String c t) = Some (a, n) -> numeral_start c = true.
Proof.
  intro H. destruct (number_at_sound _ _ _ H) as (rest & E & Hd & _).
  destruct (decimal_starts a Hd) as (c' & r & -> & Hc').
  simpl in E. now injection E as -> _.
Qed.

(** A run of numeral characters that ends where [rest] begins cannot be
    exceeded by a word of numeral characters starting at the same place. *)
Lemma prefix_bound a' : forall r' a rest,
  (a' ++ r')%string = (a ++ rest)%string ->
  all_chars numeral_char a' = true ->
  stops numeral_char rest ->
  String.length a' <= String.length a.
Proof.
  induction a' as [|c a' IH]; intros r' a rest E Ha' Hrest; simpl; [lia|].
  simpl in Ha'. apply andb_true_iff in Ha' as [Hc Ha'].
  destruct a as [|c0 a]; simpl in E.
  - subst rest. simpl in Hrest. congruence.
  - injection E as -> E. simpl. apply le_n_S. eapply IH; eassumption.
Qed.

(** Inside a run of numeral characters the scan reports what it finds and
    resumes at the end of the run. *)
Lemma scan_run a : forall rest skip,
  all_chars numeral_char a = true ->
  stops numeral_char rest ->
  skip <= String.length a ->
  exists found, scan number_at skip (a ++ rest) = found ++ scan number_at 0 rest.
Proof.
  induction a as [|c a IH]; intros rest skip Ha Hrest Hskip; simpl in *.
  - assert (skip = 0) by lia. subst skip. now exists [].
  - apply andb_true_iff in Ha as [Hc Ha].
    destruct skip as [|k].
    + destruct (number_at (String c (a ++ rest))) as [[x n]|] eqn:E.
      * destruct (number_at_sound _ _ _ E) as (r' & E' & Hd & ->).
        assert (Hb : String.length x <= String.length (String c a)).
        { eapply (prefix_bound x r' (String c a) rest); try eassumption.
          - now rewrite <- E'.
          - apply decimal_chars, Hd. }
        simpl in Hb.
        destruct (IH rest (Nat.pred (String.length x)) Ha Hrest) as (found & ->);
          [lia|].
        now exists (x :: found).
      * apply IH; [assumption..|lia].
    + apply IH; [assumption..|lia].
Qed.

(** At the start of a numeral that ends where [rest] begins, the scan
    reports at least one item. *)
Lemma scan_numeral a rest :
  lang number_re a ->
  stops numeral_char rest ->
  exists x found,
    scan number_at 0 (a ++ rest) = x :: found ++ scan number_at 0 rest.
Proof.
  intros Hl Hrest.
  pose proof (lang_number_decimal a Hl) as Hd.
  pose proof (decimal_chars a Hd) as Ha.
  pose proof (number_at_complete a rest Hl) as Hm.
  destruct a as [|c a]; [now apply decimal_nonempty in Hd|].
  simpl in *. apply andb_true_iff in Ha as [Hc Ha].
  destruct (number_at (String c (a ++ rest))) as [[x n]|] eqn:E; [|congruence].
  destruct (number_at_sound _ _ _ E) as (r' & E' & Hdx & ->).
  assert (Hb : String.length x <= String.length (String c a)).
  { eapply (prefix_bound x r' (String c a) rest).
    - now rewrite <- E'.
    - apply decimal_chars, Hdx.
    - assumption. }
  simpl in Hb.
  destruct (scan_run a rest (Nat.pred (String.length x)) Ha Hrest) as (found & ->);
    [lia|].
  now exists x, found.
Qed.

(** The scan passes over characters that cannot start a numeral. *)
Lemma scan_skip w t :
  all_chars (fun c => negb (numeral_start c)) w = true ->
  scan number_at 0 (w ++ t) = scan number_at 0 t.
Proof.
  induction w as [|c w IH]; simpl; [reflexivity|].
  intro H. apply andb_true_iff in H as [Hc Hw].
  destruct (number_at (String c (w ++ t))) as [[x n]|] eqn:E.
  - apply number_at_start in E. rewrite E in Hc. discriminate.
  - apply IH, Hw.
Qed.

Lemma findall_number_decimal s : Forall is_decimal (findall number_re s).
Proof.
  rewrite findall_number. apply scan_all.
  intros t a n H. now destruct (number_at_sound _ _ _ H) as (_ & _ & Hd & _).
Qed.

End Numerals.

(** ** The patterns [(lon, lat)] and [[lon, lat]] *)

Section PairPattern.

Import Re GeometryProcessor.

Lemma stops_after_blanks w ch t :
  all_chars is_space w = true ->
  numeral_char ch = false ->
  stops numeral_char (w ++ String ch t).
Proof.
  destruct w as [|c w]; simpl; intros Hw Hch; [assumption|].
  apply andb_true_iff in Hw as [Hc _]. apply space_not_numeral, Hc.
Qed.

Lemma not_start_around w1 ch w2 :
  all_chars is_space w1 = true ->
  numeral_start ch = false ->
  all_chars is_space w2 = true ->
  all_chars (fun c => negb (numeral_start c)) (w1 ++ String ch w2) = true.
Proof.
  intros H1 Hch H2. rewrite all_chars_append. simpl.
  now rewrite (blanks_not_start w1 H1), Hch, (blanks_not_start w2 H2).
Qed.

Lemma matches_lang r s :
  matches r s = true ->
  exists w rest, s = (w ++ rest)%string /\ lang r w /\ at_end rest = true.
Proof.
  unfold matches. intro H. apply existsb_exists in H as (rest & Hin & Hend).
  destruct (rests_sound _ _ _ Hin) as (w & -> & Hw).
  now exists w, rest.
Qed.

(** A string that matches one of the two patterns holds at least two
    numerals, of which [float] accepts the first two: the parser of the
    format cannot fail. *)
Lemma pair_pattern_parses opening closing s :
  numeral_start opening = false ->
  numeral_char closing = false ->
  matches (pair_pattern opening closing) s = true ->
  exists x y,
    parse_two_numbers s = Ok (VDict [("coordinates", VList [point (x, y)])]).
Proof.
  intros Hopen Hclose Hm.
  destruct (matches_lang _ _ Hm) as (w & rest & -> & Hw & _).
  unfold pair_pattern in Hw. cbn [lang seq] in Hw.
  destruct Hw as (w1 & ? & -> & Hw1 & ? & ? & -> & -> & w2 & ? & -> & Hw2
                  & n1 & ? & -> & Hn1 & w3 & ? & -> & Hw3 & ? & ? & -> & ->
                  & w4 & ? & -> & Hw4 & n2 & ? & -> & Hn2 & w5 & ? & -> & Hw5
                  & ? & ? & -> & -> & w6 & ? & -> & Hw6 & ->).
  set (R2 := (w5 ++ String closing (w6 ++ rest))%string).
  set (R1 := ((w3 ++ String "," w4) ++ (n2 ++ R2))%string).
  match goal with
  | |- context [parse_two_numbers ?s] =>
      assert (Es : s = ((w1 ++ String opening w2) ++ (n1 ++ R1))%string)
  end.
  { unfold R1, R2. rewrite ?append_assoc. cbn [append].
    rewrite ?append_assoc. cbn [append]. reflexivity. }
  rewrite Es. clear Es.
  assert (Hscan : exists n0 n1' tl,
             findall number_re ((w1 ++ String opening w2) ++ (n1 ++ R1))
             = n0 :: n1' :: tl).
  { rewrite findall_number.
    rewrite scan_skip by (apply not_start_around; assumption).
    assert (HR1 : stops numeral_char R1).
    { unfold R1. rewrite append_assoc. cbn [append].
      apply stops_after_blanks; [assumption|reflexivity]. }
    destruct (scan_numeral n1 R1 Hn1 HR1) as (x1 & f1 & ->).
    unfold R1.
    rewrite scan_skip by (apply not_start_around; [assumption|reflexivity|assumption]).
    assert (HR2 : stops numeral_char R2)
      by (apply stops_after_blanks; assumption).
    destruct (scan_numeral n2 R2 Hn2 HR2) as (x2 & f2 & ->).
    destruct f1 as [|y f1]; simpl; eauto. }
  destruct Hscan as (n0 & n1' & tl & Hscan).
  pose proof (findall_number_decimal ((w1 ++ String opening w2) ++ (n1 ++ R1))) as Hall.
  rewrite Hscan in Hall.
  inversion Hall as [|? ? Hd0 Hall']; subst.
  inversion Hall' as [|? ? Hd1 _]; subst.
  destruct (py_float_decimal _ Hd0) as (x & Hx).
  destruct (py_float_decimal _ Hd1) as (y & Hy).
  exists x, y. unfold parse_two_numbers. rewrite Hscan, Hx. cbn [bind].
  rewrite Hy. reflexivity.
Qed.

Lemma coordinate_pair_parses s :
  _is_coordinate_pair s = true ->
  exists x y,
    _parse_coordinate_pair s = Ok (VDict [("coordinates", VList [point (x, y)])]).
Proof. apply pair_pattern_parses; reflexivity. Qed.

Lemma coordinate_array_parses s :
  _is_coordinate_array s = true ->
  exists x y,
    _parse_coordinate_array s = Ok (VDict [("coordinates", VList [point (x, y)])]).
Proof. apply pair_pattern_parses; reflexivity. Qed.

End PairPattern.

(** ** Format detection *)

Section Detection.

Import Re GeometryProcessor.

Lemma reraise_cases {A : Type} (m : result A) :
  (exists a, reraise_ValueError m = Ok a) \/ reraise_ValueError m = Raise ValueError.
Proof. destruct m; simpl; eauto. Qed.

(** The shape of what detection does on a non-empty text. *)
Lemma detect_cases s0 :
  s0 <> "" ->
  let s := strip s0 in
  detect_geometry_format (Some s0) =
    if _is_geojson s then d <- _parse_geojson s ;; Ok ("geojson", d)
    else if _is_wkt s then d <- _parse_wkt s ;; Ok ("wkt", d)
    else if _is_json s then d <- _parse_json s ;; Ok ("json", d)
    else if _is_coordinate_pair s then
      d <- _parse_coordinate_pair s ;; Ok ("coordinate_pair", d)
    else if _is_coordinate_array s then
      d <- _parse_coordinate_array s ;; Ok ("coordinate_array", d)
    else Ok ("unknown", VDict []).
Proof.
  intro H. unfold detect_geometry_format.
  apply String.eqb_neq in H. now rewrite H.
Qed.

End Detection.

(** C3, as the code has it.  Format detection ends on every input, null,
    empty or malformed.  It returns exactly one of the seven format names,
    or it raises [ValueError]; it raises only on a non-empty text that is
    recognised as GeoJSON, WKT or JSON and whose parser then fails.  On a
    null or empty input, on a coordinate pair, on a coordinate array and on
    a text that no recogniser accepts it returns its format name. *)
Theorem C3_detection_total_up_to_parse_errors (geom_str : option string) :
  (exists format_type parsed_data,
     GeometryProcessor.detect_geometry_format geom_str = Ok (format_type, parsed_data) /\
     In format_type GeometryProcessor.format_types) \/
  (GeometryProcessor.detect_geometry_format geom_str = Raise ValueError /\
   exists s, geom_str = Some s /\ s <> "" /\
     (GeometryProcessor._is_geojson (strip s)
      || GeometryProcessor._is_wkt (strip s)
      || GeometryProcessor._is_json (strip s))%bool = true).
Proof.
  destruct geom_str as [s0|].
  2: { left. exists "empty", (VDict []). split; [reflexivity|]. simpl. tauto. }
  destruct (String.eqb_spec s0 "") as [->|Hne].
  { left. exists "empty", (VDict []). split; [reflexivity|]. simpl. tauto. }
  rewrite (detect_cases s0 Hne). cbv zeta.
  destruct (GeometryProcessor._is_geojson (strip s0)) eqn:E1.
  { unfold GeometryProcessor._parse_geojson.
    destruct (reraise_cases
      match Json.loads (strip s0) with
      | Some data => GeometryProcessor._extract_coordinates_from_geojson data
      | None => Raise ValueError
      end) as [(d & ->)| ->]; simpl.
    - left. exists "geojson", d. split; [reflexivity|]. simpl. tauto.
    - right. split; [reflexivity|]. exists s0. now rewrite E1. }
  destruct (GeometryProcessor._is_wkt (strip s0)) eqn:E2.
  { unfold GeometryProcessor._parse_wkt.
    match goal with
    | |- context [reraise_ValueError ?m] =>
        destruct (reraise_cases m) as [(d & ->)| ->]; simpl
    end.
    - left. exists "wkt", d. split; [reflexivity|]. simpl. tauto.
    - right. split; [reflexivity|]. exists s0. now rewrite E1, E2. }
  destruct (GeometryProcessor._is_json (strip s0)) eqn:E3.
  { unfold GeometryProcessor._parse_json.
    match goal with
    | |- context [reraise_ValueError ?m] =>
        destruct (reraise_cases m) as [(d & ->)| ->]; simpl
    end.
    - left. exists "json", d. split; [reflexivity|]. simpl. tauto.
    - right. split; [reflexivity|]. exists s0. now rewrite E1, E2, E3. }
  destruct (GeometryProcessor._is_coordinate_pair (strip s0)) eqn:E4.
  { destruct (coordinate_pair_parses _ E4) as (x & y & ->). simpl.
    left. eexists. eexists. split; [reflexivity|]. simpl. tauto. }
  destruct (GeometryProcessor._is_coordinate_array (strip s0)) eqn:E5.
  { destruct (coordinate_array_parses _ E5) as (x & y & ->). simpl.
    left. eexists. eexists. split; [reflexivity|]. simpl. tauto. }
  left. exists "unknown", (VDict []). split; [reflexivity|]. simpl. tauto.
Qed.

(** C3, as the specification words it, fails: the text [POINT()] is
    recognised as WKT, no coordinate pair is found in it, and detection
    raises [ValueError] instead of returning a format name. *)
Lemma C3_counterexample :
  GeometryProcessor.detect_geometry_format (Some "POINT()") = Raise ValueError /\
  ~ (exists format_type parsed_data,
       GeometryProcessor.detect_geometry_format (Some "POINT()")
       = Ok (format_type, parsed_data) /\
       In format_type GeometryProcessor.format_types).
Proof.
  assert (H : GeometryProcessor.detect_geometry_format (Some "POINT()")
              = Raise ValueError) by (vm_compute; reflexivity).
  split; [exact H|].
  intros (t & d & H' & _). rewrite H in H'. discriminate.
Qed.

(** C10.  A non-empty text made of blanks only is not taken for an empty
    geometry: the emptiness test precedes [strip], so the text is
    classified [unknown], and the row that holds it is counted as a row
    error, not skipped. *)
Theorem C10_blank_text_is_unknown (s : string) :
  s <> "" ->
  all_chars is_space s = true ->
  GeometryProcessor.detect_geometry_format (Some s) = Ok ("unknown", VDict []) /\
  forall geometry_field_name r n,
    GeometryProcessor.row_getitem (GeometryProcessor.cells r) geometry_field_name
      = Ok (Some s) ->
    GeometryProcessor.process_row geometry_field_name r = GeometryProcessor.Failed /\
    GeometryProcessor.process_rows geometry_field_name [r] n
    = ([r], {| GeometryProcessor.processed_rows := GeometryProcessor.processed_rows n;
               GeometryProcessor.error_rows := S (GeometryProcessor.error_rows n) |}).
Proof.
  intros Hne Hblank.
  assert (Hd : GeometryProcessor.detect_geometry_format (Some s)
               = Ok ("unknown", VDict [])).
  { rewrite (detect_cases s Hne). rewrite (strip_blank s Hblank).
    vm_compute. reflexivity. }
  split; [exact Hd|].
  intros field r n Hcell.
  assert (Hrow : GeometryProcessor.process_row field r = GeometryProcessor.Failed).
  { unfold GeometryProcessor.process_row. rewrite Hcell. cbn [bind].
    rewrite Hd. reflexivity. }
  split; [exact Hrow|].
  cbn [GeometryProcessor.process_rows]. rewrite Hrow. reflexivity.
Qed.

Lemma C10_witness :
  GeometryProcessor.detect_geometry_format (Some "   ") = Ok ("unknown", VDict []) /\
  GeometryProcessor.process_row "geom" blank_row = GeometryProcessor.Failed.
Proof.
  destruct (C10_blank_text_is_unknown "   ") as [Hd Hrows].
  - discriminate.
  - reflexivity.
  - split; [exact Hd|].
    apply (Hrows "geom" blank_row
             {| GeometryProcessor.processed_rows := 0;
                GeometryProcessor.error_rows := 0 |}).
    reflexivity.
Defined.

(** ** WKT *)

Section Wkt.

Import Re GeometryProcessor.

Lemma hd_error_In {A : Type} (l : list A) (x : A) : hd_error l = Some x -> In x l.
Proof. destruct l; simpl; [discriminate|]. intro H. injection H as ->. now left. Qed.

Lemma wkt_pairs_decimal s :
  Forall (fun pr => is_decimal (fst pr) /\ is_decimal (snd pr)) (wkt_pairs s).
Proof.
  unfold wkt_pairs, findall_pairs. apply scan_all.
  intros t [g1 g2] n H. apply hd_error_In in H.
  apply in_flat_map in H as (t1 & H1 & H).
  apply in_flat_map in H as (t2 & H2 & H).
  apply in_map_iff in H as (t3 & E & H3).
  injection E as <- <- _.
  destruct (rests_sound _ _ _ H1) as (w1 & -> & Hw1).
  destruct (rests_sound _ _ _ H3) as (w3 & -> & Hw3).
  rewrite !consumed_append. simpl.
  split; apply lang_number_decimal; assumption.
Qed.

Lemma wkt_coordinates_decimal pairs :
  Forall (fun pr => is_decimal (fst pr) /\ is_decimal (snd pr)) pairs ->
  exists pts, wkt_coordinates pairs = Ok pts /\ Forall2 pair_point pairs pts.
Proof.
  induction 1 as [|[lon lat] r [Hlon Hlat] _ (pts & IH & HF)]; simpl.
  - exists []. split; [reflexivity|constructor].
  - destruct (py_float_decimal _ Hlon) as (x & Hx).
    destruct (py_float_decimal _ Hlat) as (y & Hy).
    simpl in Hx, Hy. rewrite Hx. cbn [bind]. rewrite Hy. cbn [bind]. rewrite IH.
    exists (point (x, y) :: pts). split; [reflexivity|].
    constructor; [|assumption]. now exists x, y.
Qed.

Lemma parse_wkt_pairs s :
  match wkt_pairs s with
  | [] => _parse_wkt s = Raise ValueError
  | _ :: _ =>
      exists pts,
        _parse_wkt s = Ok (VDict [("coordinates", VList pts)]) /\
        Forall2 pair_point (wkt_pairs s) pts
  end.
Proof.
  unfold _parse_wkt. fold (wkt_pairs s).
  pose proof (wkt_pairs_decimal s) as Hd.
  destruct (wkt_pairs s) as [|pr r] eqn:E; [reflexivity|].
  destruct (wkt_coordinates_decimal _ Hd) as (pts & Hpts & HF).
  rewrite Hpts. cbn [bind].
  inversion HF; subst. eexists. split; [reflexivity|assumption].
Qed.

End Wkt.

(** ** Parentheses do not matter to the WKT scan *)

Section Separators.

Import Re GeometryProcessor.

(** A substitution of characters that keeps every numeral character and
    every blank, and sends no other character onto one of them. *)
Variable f : ascii -> ascii.
Hypothesis f_keeps :
  forall c, (numeral_char c || is_space c)%bool = true -> f c = c.
Hypothesis f_other :
  forall c, (numeral_char c || is_space c)%bool = false ->
            (numeral_char (f c) || is_space (f c))%bool = false.

(** The pattern tells a character and its image apart nowhere. *)
Fixpoint respects (r : regex) : Prop :=
  match r with
  | Eps => True
  | Lit c => forall c', Ascii.eqb c (f c') = Ascii.eqb c c'
  | Cls p | Star p => forall c, p (f c) = p c
  | Opt r1 => respects r1
  | Seq r1 r2 => respects r1 /\ respects r2
  end.

Lemma class_respected (p : ascii -> bool) :
  (forall c, p c = true -> (numeral_char c || is_space c)%bool = true) ->
  forall c, p (f c) = p c.
Proof.
  intros Hp c.
  destruct (numeral_char c || is_space c)%bool eqn:E.
  - now rewrite (f_keeps c E).
  - pose proof (f_other c E) as E'.
    destruct (p c) eqn:Hc; [rewrite (Hp c Hc) in E; discriminate|].
    destruct (p (f c)) eqn:Hfc; [rewrite (Hp _ Hfc) in E'; discriminate|].
    reflexivity.
Qed.

Lemma literal_respected (c : ascii) :
  (numeral_char c || is_space c)%bool = true ->
  forall c', Ascii.eqb c (f c') = Ascii.eqb c c'.
Proof.
  intros Hc. apply (class_respected (Ascii.eqb c)).
  intros c' E. apply Ascii.eqb_eq in E. now subst c'.
Qed.

Lemma number_re_respected : respects number_re.
Proof.
  unfold number_re, Plus. cbn [respects seq]. repeat split;
    first [ apply literal_respected; reflexivity
          | apply class_respected; intros c Hc;
            unfold numeral_char; now rewrite Hc ].
Qed.

Lemma blanks_respected : respects (Plus is_space).
Proof.
  unfold Plus. cbn [respects]. split; apply class_respected; intros c Hc;
    rewrite Hc; apply orb_true_r.
Qed.

Lemma map_string_append a b :
  map_string f (a ++ b) = (map_string f a ++ map_string f b)%string.
Proof. induction a as [|c a IH]; simpl; [reflexivity|]. now rewrite IH. Qed.

Lemma map_string_length s : String.length (map_string f s) = String.length s.
Proof. induction s as [|c s IH]; simpl; [reflexivity|]. now rewrite IH. Qed.

Lemma map_string_substring s : forall n m,
  substring n m (map_string f s) = map_string f (substring n m s).
Proof.
  induction s as [|c s IH]; intros n m; simpl.
  - destruct n, m; reflexivity.
  - destruct n; [destruct m; simpl; [reflexivity|now rewrite IH]|apply IH].
Qed.

Lemma map_string_consumed t rest :
  consumed (map_string f t) (map_string f rest) = map_string f (consumed t rest).
Proof.
  unfold consumed. rewrite !map_string_length. apply map_string_substring.
Qed.

Lemma map_string_decimal w : is_decimal w -> map_string f w = w.
Proof.
  intro H. apply decimal_chars in H.
  induction w as [|c w IH]; simpl in *; [reflexivity|].
  apply andb_true_iff in H as [Hc Hw].
  rewrite (IH Hw), (f_keeps c); [reflexivity|]. now rewrite Hc.
Qed.

Lemma star_rests_map p s :
  (forall c, p (f c) = p c) ->
  star_rests p (map_string f s) = map (map_string f) (star_rests p s).
Proof.
  intro Hp. induction s as [|c s IH]; simpl; [reflexivity|].
  rewrite Hp. destruct (p c); [|reflexivity].
  now rewrite IH, map_app.
Qed.

Lemma flat_map_of_map {A B C : Type} (g : B -> list C) (h : A -> B) l :
  flat_map g (map h l) = flat_map (fun x => g (h x)) l.
Proof. induction l as [|x l IH]; simpl; [reflexivity|]. now rewrite IH. Qed.

Lemma map_of_flat_map {A B C : Type} (h : B -> C) (g : A -> list B) l :
  map h (flat_map g l) = flat_map (fun x => map h (g x)) l.
Proof.
  induction l as [|x l IH]; simpl; [reflexivity|]. now rewrite map_app, IH.
Qed.

Lemma rests_map r : respects r -> forall s,
  rests r (map_string f s) = map (map_string f) (rests r s).
Proof.
  induction r as [|c|p|r IH|p|r1 IH1 r2 IH2]; simpl; intros Hr s.
  - reflexivity.
  - destruct s as [|c' s]; simpl; [reflexivity|].
    rewrite Hr. now destruct (Ascii.eqb c c').
  - destruct s as [|c' s]; simpl; [reflexivity|].
    rewrite Hr. now destruct (p c').
  - now rewrite (IH Hr), map_app.
  - apply star_rests_map, Hr.
  - destruct Hr as [H1 H2].
    rewrite (IH1 H1), flat_map_of_map, map_of_flat_map.
    apply flat_map_ext. intro t. apply IH2, H2.
Qed.

Lemma scan_map {A : Type} (m : string -> option (A * nat)) (h : A -> A) :
  (forall t, m (map_string f t)
             = option_map (fun an => (h (fst an), snd an)) (m t)) ->
  forall s skip, scan m skip (map_string f s) = map h (scan m skip s).
Proof.
  intro Hm. induction s as [|c s IH]; intro skip.
  - destruct skip; [|reflexivity].
    pose proof (Hm "") as H0. cbn [map_string] in H0.
    cbn [scan map_string].
    destruct (m "") as [[a n]|]; [|reflexivity].
    simpl in H0. injection H0 as H0. simpl. now rewrite <- H0.
  - destruct skip as [|k]; [|apply IH].
    pose proof (Hm (String c s)) as H0. cbn [map_string] in H0.
    cbn [scan map_string]. rewrite H0.
    destruct (m (String c s)) as [[a n]|]; simpl; [|apply IH].
    now rewrite IH.
Qed.

Lemma wkt_pairs_map s : wkt_pairs (map_string f s) = wkt_pairs s.
Proof.
  pose proof (wkt_pairs_decimal s) as Hd.
  unfold wkt_pairs, findall_pairs in *.
  rewrite (scan_map _ (fun pr => (map_string f (fst pr), map_string f (snd pr)))).
  - induction Hd as [|[g1 g2] l [H1 H2] _ IH]; simpl; [reflexivity|].
    simpl in H1, H2.
    now rewrite IH, (map_string_decimal _ H1), (map_string_decimal _ H2).
  - intro t.
    rewrite (rests_map _ number_re_respected), flat_map_of_map.
    set (H := fun an : string * string * nat =>
                ((map_string f (fst (fst an)), map_string f (snd (fst an))), snd an)).
    match goal with
    | |- hd_error ?l = option_map _ (hd_error ?l0) =>
        assert (E : l = map H l0)
    end.
    { rewrite map_of_flat_map. apply flat_map_ext. intro t1.
      rewrite (rests_map _ blanks_respected), flat_map_of_map, map_of_flat_map.
      apply flat_map_ext. intro t2.
      rewrite (rests_map _ number_re_respected), !map_map.
      apply map_ext. intro t3. unfold H. cbn [fst snd].
      now rewrite !map_string_consumed, !map_string_length. }
    rewrite E.
    match goal with
    | |- hd_error (map H ?l0) = _ => destruct l0 as [|[[a b] n] l']
    end; reflexivity.
Qed.

Lemma parse_wkt_map s : _parse_wkt (map_string f s) = _parse_wkt s.
Proof.
  unfold _parse_wkt. fold (wkt_pairs (map_string f s)). fold (wkt_pairs s).
  now rewrite wkt_pairs_map.
Qed.

End Separators.

Lemma parse_wkt_without_parentheses s :
  GeometryProcessor._parse_wkt (map_string without_parentheses s)
  = GeometryProcessor._parse_wkt s.
Proof.
  apply parse_wkt_map; intro c; by_cases c.
Qed.

(** C8.  [_parse_wkt] disregards rings and parentheses: it scans the text
    for the pairs of numerals separated by blanks and makes one point of
    each pair found, in order; it fails exactly when no pair is found; and
    its result is the same when every parenthesis of the text is replaced
    by a comma.  For the text of scenario B five pairs are found, detection
    yields the five points ([(1,1)], [(2,1)], [(2,2)], [(1,2)], [(1,1)]),
    and their bounds are [min_lon = 1], [min_lat = 1], [max_lon = 2],
    [max_lat = 2]. *)
Theorem C8_wkt_flat_scan :
  (forall s,
     match wkt_pairs s with
     | [] => GeometryProcessor._parse_wkt s = Raise ValueError
     | _ :: _ =>
         exists pts,
           GeometryProcessor._parse_wkt s = Ok (VDict [("coordinates", VList pts)]) /\
           Forall2 pair_point (wkt_pairs s) pts
     end) /\
  (forall s,
     GeometryProcessor._parse_wkt (map_string without_parentheses s)
     = GeometryProcessor._parse_wkt s) /\
  wkt_pairs scenario_B = [("1", "1"); ("2", "1"); ("2", "2"); ("1", "2"); ("1", "1")] /\
  List.length (map point scenario_B_points) = 5 /\
  GeometryProcessor.detect_geometry_format (Some scenario_B)
  = Ok ("wkt", VDict [("coordinates", VList (map point scenario_B_points))]) /\
  GeometryProcessor.calculate_bounds (VList (map point scenario_B_points))
  = Ok (excel_bounds (1 # 1) (2 # 1) (1 # 1) (2 # 1)).
Proof.
  split; [exact parse_wkt_pairs|].
  split; [exact parse_wkt_without_parentheses|].
  repeat split; vm_compute; reflexivity.
Qed.

(** ** What the parsers guarantee about the points *)

Section Points.

Import GeometryProcessor.

Lemma point_two_numbers xy : two_numbers (point xy).
Proof. now exists (fin (fst xy)), (fin (snd xy)). Qed.

Lemma Forall_flat_map {A B : Type} (Q : B -> Prop) (f : A -> list B) l :
  Forall (fun x => Forall Q (f x)) l -> Forall Q (flat_map f l).
Proof.
  induction 1 as [|x r Hx _ IH]; simpl; [constructor|].
  apply Forall_app. now split.
Qed.

Lemma Forall_concat {A : Type} (Q : A -> Prop) (ls : list (list A)) :
  Forall (Forall Q) ls -> Forall Q (concat ls).
Proof.
  induction 1 as [|l r Hl _ IH]; simpl; [constructor|].
  apply Forall_app. now split.
Qed.

Lemma mapM_Forall2 {A B : Type} (f : A -> result B) l : forall l',
  mapM f l = Ok l' -> Forall2 (fun x y => f x = Ok y) l l'.
Proof.
  induction l as [|x r IH]; simpl; intros l' H.
  - injection H as <-. constructor.
  - destruct (f x) as [y|e] eqn:E; [|discriminate].
    destruct (mapM f r) as [ys|e]; [|discriminate].
    injection H as <-. constructor; [assumption|]. now apply IH.
Qed.

Lemma extract_first_numeric obj :
  Forall first_numeric (Walk.extract_coordinates obj).
Proof.
  induction obj as [| | | |l IH|d _] using value_induction;
    try (simpl; constructor).
  destruct l as [|x r]; [simpl; constructor|].
  cbn [Walk.extract_coordinates].
  destruct (is_number x) eqn:E.
  - constructor; [|constructor]. now exists x, r.
  - apply Forall_flat_map, IH.
Qed.

Lemma feature_first_numeric feature pts :
  Walk.feature_coordinates feature = Ok pts -> Forall first_numeric pts.
Proof.
  unfold Walk.feature_coordinates.
  destruct (py_get feature "geometry" (VDict [])) as [g|]; [|discriminate].
  cbn [bind].
  destruct (py_get g "coordinates" (VList [])) as [c|]; [|discriminate].
  cbn [bind]. intro H. injection H as <-. apply extract_first_numeric.
Qed.

Lemma collect_first_numeric geojson_data pts :
  Walk.collect geojson_data = Ok pts -> Forall first_numeric pts.
Proof.
  unfold Walk.collect.
  destruct (py_get geojson_data "type" (VStr "")) as [t|]; [|discriminate].
  cbn [bind].
  destruct (py_lower t) as [geojson_type|]; [|discriminate].
  cbn [bind].
  destruct (String.eqb geojson_type "featurecollection").
  - destruct (py_get geojson_data "features" (VList [])) as [fs|]; [|discriminate].
    cbn [bind].
    destruct (py_iter fs) as [features|]; [|discriminate].
    cbn [bind].
    destruct (mapM Walk.feature_coordinates features) as [cs|] eqn:E; [|discriminate].
    cbn [bind]. intro H. injection H as <-.
    apply Forall_concat.
    apply mapM_Forall2 in E.
    induction E as [|f c fs' cs' Hf _ IH]; constructor; [|assumption].
    eapply feature_first_numeric, Hf.
  - destruct (String.eqb geojson_type "feature").
    + apply feature_first_numeric.
    + destruct (py_get geojson_data "coordinates" (VList [])) as [c|]; [|discriminate].
      cbn [bind]. intro H. injection H as <-. apply extract_first_numeric.
Qed.

Lemma extract_from_geojson_first_numeric geojson_data d :
  _extract_coordinates_from_geojson geojson_data = Ok d ->
  exists pts, d = coordinates_dict pts /\ Forall first_numeric pts.
Proof.
  unfold _extract_coordinates_from_geojson.
  destruct (Walk.collect geojson_data) as [pts|] eqn:E; [|discriminate].
  cbn [bind]. intro H. injection H as <-.
  exists pts. split; [reflexivity|]. eapply collect_first_numeric, E.
Qed.

Lemma reraise_Ok {A : Type} (m : result A) a :
  reraise_ValueError m = Ok a -> m = Ok a.
Proof. destruct m; simpl; congruence. Qed.

Lemma parse_geojson_first_numeric s d :
  _parse_geojson s = Ok d ->
  exists pts, d = coordinates_dict pts /\ Forall first_numeric pts.
Proof.
  unfold _parse_geojson. intro H. apply reraise_Ok in H.
  destruct (Json.loads s) as [data|]; [|discriminate].
  eapply extract_from_geojson_first_numeric, H.
Qed.

Lemma parse_json_object_first_numeric s dct d :
  Json.loads s = Some (VDict dct) ->
  _parse_json s = Ok d ->
  exists pts, d = coordinates_dict pts /\ Forall first_numeric pts.
Proof.
  unfold _parse_json. intros E H. apply reraise_Ok in H. rewrite E in H.
  eapply extract_from_geojson_first_numeric, H.
Qed.

Lemma parse_wkt_two_numbers s d :
  _parse_wkt s = Ok d ->
  exists pts, d = coordinates_dict pts /\ pts <> [] /\ Forall two_numbers pts.
Proof.
  intro H. pose proof (parse_wkt_pairs s) as Hp.
  destruct (wkt_pairs s) as [|pr r]; [congruence|].
  destruct Hp as (pts & Hpts & HF). rewrite Hpts in H. injection H as <-.
  exists pts. split; [reflexivity|]. split.
  - inversion HF; discriminate.
  - clear Hpts. induction HF as [|? ? ? ? (x & y & _ & _ & ->) _ IH];
      constructor; [apply point_two_numbers|assumption].
Qed.

(** [min] and [max] succeed with a number only on a list of numbers. *)
Lemma py_lt_numeric x y b :
  py_lt x y = Ok b -> is_number x = true /\ is_number y = true.
Proof.
  unfold py_lt.
  destruct x; simpl; try discriminate; destruct y; simpl; try discriminate;
    try (destruct b0; simpl; try discriminate);
    try (destruct b1; simpl; try discriminate);
    now split.
Qed.

Lemma min_from_numeric l : forall best m,
  min_from best l = Ok m -> is_number m = true ->
  is_number best = true /\ Forall (fun v => is_number v = true) l.
Proof.
  induction l as [|x r IH]; simpl; intros best m H Hm.
  - injection H as ->. now split.
  - destruct (py_lt x best) as [b|] eqn:E; [|discriminate].
    apply py_lt_numeric in E as [Hx Hb].
    destruct b; destruct (IH _ _ H Hm) as [_ HF]; split; try assumption;
      now constructor.
Qed.

Lemma py_min_numeric l m :
  py_min l = Ok m -> is_number m = true -> Forall (fun v => is_number v = true) l.
Proof.
  destruct l as [|x r]; simpl; [discriminate|].
  intros H Hm. destruct (min_from_numeric _ _ _ H Hm). now constructor.
Qed.

Lemma py_add_numeric a b v : py_add a b = Ok v -> is_number a = true.
Proof. unfold py_add. destruct a; simpl; try discriminate; reflexivity. Qed.

Lemma two_leading_of_items p a b :
  py_getitem p 0 = Ok a -> py_getitem p 1 = Ok b ->
  is_number a = true -> is_number b = true ->
  two_leading_numbers p.
Proof.
  destruct p as [| | |s|l|d]; simpl; try discriminate.
  - destruct s as [|c s]; simpl; [discriminate|].
    intro H. injection H as <-. discriminate.
  - destruct l as [|x [|y r]]; simpl; try discriminate.
    intros H1 H2 Ha Hb. injection H1 as ->. injection H2 as ->.
    now exists a, b, r.
Qed.

Lemma calculate_bounds_two_leading geojson_data b :
  GeoJsonBatchProcessor.calculate_bounds geojson_data = Ok b ->
  exists pts,
    Walk.collect geojson_data = Ok pts /\ pts <> [] /\
    Forall two_leading_numbers pts.
Proof.
  unfold GeoJsonBatchProcessor.calculate_bounds.
  destruct (Walk.collect geojson_data) as [pts|]; [|discriminate].
  cbn [bind]. destruct pts as [|p0 r0]; [discriminate|].
  set (pts := p0 :: r0).
  destruct (mapM (fun coord => py_getitem coord 0) pts) as [lons|] eqn:Elon;
    [|discriminate].
  cbn [bind].
  destruct (mapM (fun coord => py_getitem coord 1) pts) as [lats|] eqn:Elat;
    [|discriminate].
  cbn [bind].
  destruct (py_min lons) as [mnx|] eqn:E1; [|discriminate]. cbn [bind].
  destruct (py_max lons) as [mxx|]; [|discriminate]. cbn [bind].
  destruct (py_min lats) as [mny|] eqn:E2; [|discriminate]. cbn [bind].
  destruct (py_max lats) as [mxy|]; [|discriminate]. cbn [bind].
  destruct (py_add mnx mxx) as [sx|] eqn:E3; [|discriminate]. cbn [bind].
  destruct (py_half sx) as [cx|]; [|discriminate]. cbn [bind].
  destruct (py_add mny mxy) as [sy|] eqn:E4; [|discriminate]. cbn [bind].
  intros _.
  exists pts. split; [reflexivity|]. split; [discriminate|].
  pose proof (py_min_numeric _ _ E1 (py_add_numeric _ _ _ E3)) as Hlons.
  pose proof (py_min_numeric _ _ E2 (py_add_numeric _ _ _ E4)) as Hlats.
  apply mapM_Forall2 in Elon. apply mapM_Forall2 in Elat.
  clear E1 E2 E3 E4. revert lats Elat Hlats Hlons.
  induction Elon as [|p a ps ls Hp _ IH]; intros lats Elat Hlats Hlons.
  - constructor.
  - inversion Elat as [|? y ? ys Hy Hys]; subst.
    inversion Hlats; subst. inversion Hlons; subst.
    constructor; [eapply two_leading_of_items; eassumption|].
    eapply IH; eassumption.
Qed.

End Points.

(** C5, as the code has it.  In tabular mode, when detection succeeds with
    the format [wkt], [coordinate_pair] or [coordinate_array], the point
    set has at least one point and every point has exactly two numeric
    components.  With the format [geojson], and with the format [json] on a
    JSON object, the point set may be empty (the caller rejects it
    afterwards), and every point is a non-empty list whose first component
    is numeric; its other components are kept as they are.  In GeoJSON
    mode, when [calculate_bounds] succeeds, the point set that it walked
    has at least one point and the first two components of every point are
    numeric. *)
Theorem C5_parser_guarantee_by_format :
  (forall geom_str format_type parsed_data,
     GeometryProcessor.detect_geometry_format geom_str
       = Ok (format_type, parsed_data) ->
     (In format_type ["wkt"; "coordinate_pair"; "coordinate_array"] ->
      exists pts,
        parsed_data = coordinates_dict pts /\ pts <> [] /\
        Forall two_numbers pts) /\
     (format_type = "geojson" ->
      exists pts,
        parsed_data = coordinates_dict pts /\ Forall first_numeric pts) /\
     (format_type = "json" ->
      forall s dct,
        geom_str = Some s -> Json.loads (strip s) = Some (VDict dct) ->
        exists pts,
          parsed_data = coordinates_dict pts /\ Forall first_numeric pts)) /\
  (forall geojson_data bounds_info,
     GeoJsonBatchProcessor.calculate_bounds geojson_data = Ok bounds_info ->
     exists pts,
       Walk.collect geojson_data = Ok pts /\ pts <> [] /\
       Forall two_leading_numbers pts).
Proof.
  split; [|exact calculate_bounds_two_leading].
  intros geom_str t d H.
  assert (Hempty : t = "empty" ->
    (In t ["wkt"; "coordinate_pair"; "coordinate_array"] ->
      exists pts, d = coordinates_dict pts /\ pts <> [] /\ Forall two_numbers pts) /\
    (t = "geojson" ->
      exists pts, d = coordinates_dict pts /\ Forall first_numeric pts) /\
    (t = "json" -> forall s dct,
        geom_str = Some s -> Json.loads (strip s) = Some (VDict dct) ->
        exists pts, d = coordinates_dict pts /\ Forall first_numeric pts)).
  { intros ->. repeat split; try discriminate.
    simpl. intros [E|[E|[E|[]]]]; discriminate. }
  destruct geom_str as [s0|]; [|apply Hempty; simpl in H; congruence].
  destruct (String.eqb_spec s0 "") as [->|Hne];
    [apply Hempty; simpl in H; congruence|].
  clear Hempty. rewrite (detect_cases s0 Hne) in H. cbv zeta in H.
  destruct (GeometryProcessor._is_geojson (strip s0)).
  { destruct (GeometryProcessor._parse_geojson (strip s0)) as [d'|] eqn:E;
      [|discriminate].
    cbn [bind] in H. injection H as <- <-.
    repeat split; try discriminate.
    - simpl. intros [E'|[E'|[E'|[]]]]; discriminate.
    - intros _. eapply parse_geojson_first_numeric, E. }
  destruct (GeometryProcessor._is_wkt (strip s0)).
  { destruct (GeometryProcessor._parse_wkt (strip s0)) as [d'|] eqn:E;
      [|discriminate].
    cbn [bind] in H. injection H as <- <-.
    repeat split; try discriminate.
    intros _. eapply parse_wkt_two_numbers, E. }
  destruct (GeometryProcessor._is_json (strip s0)).
  { destruct (GeometryProcessor._parse_json (strip s0)) as [d'|] eqn:E;
      [|discriminate].
    cbn [bind] in H. injection H as <- <-.
    repeat split; try discriminate.
    - simpl. intros [E'|[E'|[E'|[]]]]; discriminate.
    - intros _ s dct Hs Hl. injection Hs as <-.
      eapply parse_json_object_first_numeric; eassumption. }
  destruct (GeometryProcessor._is_coordinate_pair (strip s0)) eqn:E4.
  { destruct (coordinate_pair_parses _ E4) as (x & y & E). rewrite E in H.
    cbn [bind] in H. injection H as <- <-.
    repeat split; try discriminate.
    intros _. exists [point (x, y)]. repeat split; [discriminate|].
    constructor; [apply point_two_numbers|constructor]. }
  destruct (GeometryProcessor._is_coordinate_array (strip s0)) eqn:E5.
  { destruct (coordinate_array_parses _ E5) as (x & y & E). rewrite E in H.
    cbn [bind] in H. injection H as <- <-.
    repeat split; try discriminate.
    intros _. exists [point (x, y)]. repeat split; [discriminate|].
    constructor; [apply point_two_numbers|constructor]. }
  injection H as <- <-.
  repeat split; try discriminate.
  simpl. intros [E'|[E'|[E'|[]]]]; discriminate.
Qed.

Lemma C5_witness :
  (exists pts,
     coordinates_dict (map point scenario_B_points) = coordinates_dict pts /\
     pts <> [] /\ Forall two_numbers pts) /\
  (exists pts,
     Walk.collect sample_object = Ok pts /\ pts <> [] /\
     Forall two_leading_numbers pts).
Proof.
  destruct C5_parser_guarantee_by_format as [Htab Hgeo].
  split.
  - apply (Htab (Some scenario_B) "wkt" (coordinates_dict (map point scenario_B_points))).
    + vm_compute. reflexivity.
    + simpl. tauto.
  - apply (Hgeo sample_object
             (geojson_bounds (10 # 1) (30 # 1) (10 # 1) (20 # 1))).
    vm_compute. reflexivity.
Defined.

(** C5, as the specification words it, fails.  The parser succeeds on a
    GeoJSON Point without coordinates, with an empty point set; and it
    succeeds on a Point with three coordinates, with a point that keeps its
    three components. *)
Lemma C5_counterexample :
  GeometryProcessor.detect_geometry_format (Some empty_point_text)
    = Ok ("geojson", coordinates_dict []) /\
  GeometryProcessor.detect_geometry_format (Some point_3d_text)
    = Ok ("geojson", coordinates_dict [VList [VInt 1; VInt 2; VInt 3]]) /\
  ~ two_numbers (VList [VInt 1; VInt 2; VInt 3]) /\
  ~ (forall geom_str format_type parsed_data,
       GeometryProcessor.detect_geometry_format geom_str
         = Ok (format_type, parsed_data) ->
       format_type <> "empty" -> format_type <> "unknown" ->
       exists pts,
         parsed_data = coordinates_dict pts /\ pts <> [] /\
         Forall two_numbers pts).
Proof.
  assert (H1 : GeometryProcessor.detect_geometry_format (Some empty_point_text)
               = Ok ("geojson", coordinates_dict []))
    by (vm_compute; reflexivity).
  split; [exact H1|].
  split; [vm_compute; reflexivity|].
  split.
  - intros (a & b & E & _). discriminate.
  - intro claim.
    destruct (claim _ _ _ H1) as (pts & E & Hne & _); try discriminate.
    injection E as <-. now apply Hne.
Qed.

(** ** The GeoJSON batch *)

Section GeoJsonBatch.

Import GeoJsonBatchProcessor.

Lemma validate_all_spec fs files : forall valid st,
  let r := validate_all fs files valid st in
  console (snd r) = console st ++ flat_map (report fs) files /\
  error_files (snd r) = error_files st ++ invalid_files fs files /\
  written (snd r) = written st /\
  processed_count (snd r) = processed_count st /\
  success_files (snd r) = success_files st.
Proof.
  induction files as [|f r IH]; intros valid st; cbn zeta.
  - simpl. rewrite !app_nil_r. repeat split.
  - unfold invalid_files. cbn [validate_all flat_map].
    fold (invalid_files fs r). unfold report at 1.
    destruct (validate_geojson_file fs f) as [[ok msg] data].
    destruct ok.
    + specialize (IH (valid ++ [(f, data)])
                     (print [FormatCorrect] (print [Checking f] st))).
      cbn zeta in IH. destruct IH as (H1 & H2 & H3 & H4 & H5).
      rewrite H1, H2, H3, H4, H5. simpl.
      rewrite <- !app_assoc. repeat split.
    + match goal with
      | |- context [validate_all fs r valid ?s] =>
          specialize (IH valid s)
      end.
      cbn zeta in IH. destruct IH as (H1 & H2 & H3 & H4 & H5).
      rewrite H1, H2, H3, H4, H5. simpl.
      rewrite <- !app_assoc. repeat split.
Qed.

Lemma invalid_files_In fs files f :
  In f files ->
  fst (fst (validate_geojson_file fs f)) = false ->
  In (f, snd (fst (validate_geojson_file fs f))) (invalid_files fs files).
Proof.
  intros Hin Hbad. unfold invalid_files. apply in_flat_map.
  exists f. split; [assumption|].
  destruct (validate_geojson_file fs f) as [[ok msg] data].
  simpl in *. subst ok. now left.
Qed.

Lemma process_directory_invalid fs f bad :
  invalid_files fs (geojson_files fs) = f :: bad ->
  process_directory fs init
  = (Exited 1,
     {| processed_count := 0;
        error_files := f :: bad;
        success_files := [];
        written := [];
        console :=
          batch_header (geojson_files fs)
          ++ flat_map (report fs) (geojson_files fs)
          ++ Stopping :: map (fun fe => Reported (fst fe) (snd fe)) (f :: bad) |}).
Proof.
  intro Hbad. unfold process_directory. fold (geojson_files fs).
  destruct (geojson_files fs) as [|g gs] eqn:Eg; [discriminate|].
  rewrite <- Eg in *. clear Eg g gs.
  match goal with
  | |- context [validate_all fs ?l ?v ?s] =>
      pose proof (validate_all_spec fs l v s) as Hs;
      destruct (validate_all fs l v s) as [valid st]
  end.
  cbn zeta in Hs. cbn [snd] in Hs.
  destruct Hs as (H1 & H2 & H3 & H4 & H5).
  cbn [print init console error_files written processed_count success_files app]
    in H1, H2, H3, H4, H5.
  rewrite Hbad in H2.
  rewrite H2. unfold print. rewrite H1, H2, H3, H4, H5.
  unfold batch_header. cbn [app]. rewrite <- ?app_assoc. reflexivity.
Qed.

Lemma process_directory_valid fs :
  geojson_files fs <> [] ->
  invalid_files fs (geojson_files fs) = [] ->
  fst (process_directory fs init) = Returned /\
  exists rest,
    console (snd (process_directory fs init))
    = batch_header (geojson_files fs)
      ++ flat_map (report fs) (geojson_files fs)
      ++ AllValid :: rest.
Proof.
  intros Hne Hgood. unfold process_directory. fold (geojson_files fs).
  destruct (geojson_files fs) as [|g gs] eqn:Eg; [congruence|].
  rewrite <- Eg in *. clear Eg g gs.
  match goal with
  | |- context [validate_all fs ?l ?v ?s] =>
      pose proof (validate_all_spec fs l v s) as Hs;
      destruct (validate_all fs l v s) as [valid st]
  end.
  cbn zeta in Hs. cbn [snd] in Hs.
  destruct Hs as (H1 & H2 & H3 & H4 & H5).
  cbn [print init console error_files written processed_count success_files app]
    in H1, H2.
  rewrite Hgood in H2. rewrite H2.
  split; [reflexivity|]. cbn [snd].
  assert (Hp : forall l s, exists rest,
             console (process_all l s) = console s ++ rest).
  { induction l as [|[n d] l IH]; intro s; cbn [process_all].
    - exists []. now rewrite app_nil_r.
    - destruct (calculate_bounds d);
        match goal with
        | |- context [process_all l ?s'] => destruct (IH s') as (rest & ->)
        end; simpl; rewrite <- !app_assoc; eexists; reflexivity. }
  destruct (Hp valid (print [AllValid] st)) as (rest & Hrest).
  unfold print_summary, print at 1. cbn [console]. rewrite Hrest.
  cbn [print console]. rewrite H1. unfold batch_header.
  cbn [app]. rewrite <- !app_assoc. cbn [app].
  eexists. reflexivity.
Qed.

End GeoJsonBatch.

(** C6.  In GeoJSON batch mode every input file is validated, and its
    result printed, before anything else happens: on every non-empty batch
    the console starts with the header and the validation report of every
    file, in order.  If a file fails validation the batch stops there:
    [process_directory] exits with status 1, no output file is written, no
    file is counted as processed, the console holds nothing but the
    validation report of every file followed by the list of the failing
    files, and each failing file is in that list with its message. *)
Theorem C6_geojson_batch_fail_closed (fs : list GeoJsonBatchProcessor.file) :
  let files := geojson_files fs in
  let run := GeoJsonBatchProcessor.process_directory fs GeoJsonBatchProcessor.init in
  files <> [] ->
  (exists rest,
     GeoJsonBatchProcessor.console (snd run)
     = batch_header files ++ flat_map (report fs) files ++ rest) /\
  ((exists f, In f files /\
      fst (fst (GeoJsonBatchProcessor.validate_geojson_file fs f)) = false) ->
   fst run = GeoJsonBatchProcessor.Exited 1 /\
   GeoJsonBatchProcessor.written (snd run) = [] /\
   GeoJsonBatchProcessor.processed_count (snd run) = 0 /\
   GeoJsonBatchProcessor.success_files (snd run) = [] /\
   GeoJsonBatchProcessor.error_files (snd run) = invalid_files fs files /\
   GeoJsonBatchProcessor.console (snd run)
   = batch_header files ++ flat_map (report fs) files
     ++ GeoJsonBatchProcessor.Stopping
        :: map (fun fe => GeoJsonBatchProcessor.Reported (fst fe) (snd fe))
               (invalid_files fs files) /\
   forall f, In f files ->
     fst (fst (GeoJsonBatchProcessor.validate_geojson_file fs f)) = false ->
     In (GeoJsonBatchProcessor.Reported f
           (snd (fst (GeoJsonBatchProcessor.validate_geojson_file fs f))))
        (GeoJsonBatchProcessor.console (snd run))).
Proof.
  intros files run Hne. subst files run.
  destruct (invalid_files fs (geojson_files fs)) as [|b bad] eqn:Ebad.
  - destruct (process_directory_valid fs Hne Ebad) as (_ & rest & Hc).
    split; [eexists; exact Hc|].
    intros (f & Hin & Hf). exfalso.
    pose proof (invalid_files_In fs _ f Hin Hf) as H. rewrite Ebad in H.
    destruct H.
  - rewrite (process_directory_invalid fs b bad Ebad). cbn [fst snd].
    cbn [GeoJsonBatchProcessor.console GeoJsonBatchProcessor.written
         GeoJsonBatchProcessor.processed_count GeoJsonBatchProcessor.success_files
         GeoJsonBatchProcessor.error_files].
    split; [eexists; reflexivity|].
    intros _. repeat split.
    intros f Hin Hf.
    pose proof (invalid_files_In fs _ f Hin Hf) as H. rewrite Ebad in H.
    apply in_or_app. right. apply in_or_app. right. right.
    apply in_map_iff. eexists. split; [|exact H]. reflexivity.
Qed.

Lemma C6_witness :
  let run := GeoJsonBatchProcessor.process_directory scenario_E GeoJsonBatchProcessor.init in
  fst run = GeoJsonBatchProcessor.Exited 1 /\
  GeoJsonBatchProcessor.written (snd run) = [] /\
  GeoJsonBatchProcessor.console (snd run)
  = [GeoJsonBatchProcessor.Scanning; GeoJsonBatchProcessor.Found 3;
     GeoJsonBatchProcessor.Validating;
     GeoJsonBatchProcessor.Checking "a.geojson"; GeoJsonBatchProcessor.FormatCorrect;
     GeoJsonBatchProcessor.Checking "b.geojson";
     GeoJsonBatchProcessor.FormatError (GeoJsonBatchProcessor.NotAnObject "b.geojson");
     GeoJsonBatchProcessor.Checking "c.geojson"; GeoJsonBatchProcessor.FormatCorrect;
     GeoJsonBatchProcessor.Stopping;
     GeoJsonBatchProcessor.Reported "b.geojson"
       (GeoJsonBatchProcessor.NotAnObject "b.geojson")].
Proof.
  destruct (C6_geojson_batch_fail_closed scenario_E) as [_ H].
  - discriminate.
  - destruct H as (H1 & H2 & _ & _ & _ & H6 & _).
    + exists "b.geojson". split; [vm_compute; tauto|reflexivity].
    + split; [exact H1|]. split; [exact H2|]. exact H6.
Defined.

(** ** The tabular batch *)

Section ExcelBatch.

Import GeometryProcessor.

Lemma excel_validate_all_spec fs files : forall valid st,
  let r := validate_all fs files valid st in
  fst r = valid
          ++ filter (fun p => fst (validate_excel_file fs (geometry_field_name st) p))
               files /\
  geometry_field_name (snd r) = geometry_field_name st /\
  error_files (snd r)
  = error_files st ++ invalid_excel_files fs (geometry_field_name st) files /\
  written (snd r) = written st /\
  processed_count (snd r) = processed_count st /\
  success_files (snd r) = success_files st.
Proof.
  induction files as [|f r IH]; intros valid st; cbn zeta.
  - simpl. rewrite !app_nil_r. repeat split.
  - unfold invalid_excel_files. cbn [validate_all flat_map filter].
    fold (invalid_excel_files fs (geometry_field_name st) r).
    destruct (validate_excel_file fs (geometry_field_name st) f) as [ok msg].
    destruct ok; cbn [fst].
    + specialize (IH (valid ++ [f]) st). cbn zeta in IH.
      destruct IH as (H0 & H1 & H2 & H3 & H4 & H5).
      rewrite H0, H1, H2, H3, H4, H5. rewrite <- !app_assoc. repeat split.
    + match goal with
      | |- context [validate_all fs r valid ?s] => specialize (IH valid s)
      end.
      cbn zeta in IH. cbn [geometry_field_name error_files written
                           processed_count success_files] in IH.
      destruct IH as (H0 & H1 & H2 & H3 & H4 & H5).
      rewrite H0, H1, H2, H3, H4, H5. rewrite <- !app_assoc. repeat split.
Qed.

Lemma invalid_excel_files_In fs field files f :
  In f files ->
  fst (validate_excel_file fs field f) = false ->
  In (f, snd (validate_excel_file fs field f)) (invalid_excel_files fs field files).
Proof.
  intros Hin Hbad. unfold invalid_excel_files. apply in_flat_map.
  exists f. split; [assumption|].
  destruct (validate_excel_file fs field f) as [ok msg].
  simpl in *. subst ok. now left.
Qed.

Lemma invalid_excel_files_nil fs field files :
  (forall f, In f files -> fst (validate_excel_file fs field f) = true) ->
  invalid_excel_files fs field files = [] /\
  filter (fun p => fst (validate_excel_file fs field p)) files = files.
Proof.
  induction files as [|f r IH]; intro H; [now split|].
  unfold invalid_excel_files. cbn [flat_map filter].
  fold (invalid_excel_files fs field r).
  pose proof (H f (or_introl eq_refl)) as Hf.
  destruct (validate_excel_file fs field f) as [ok msg]. cbn [fst] in *. subst ok.
  destruct IH as [-> ->]; [intros g Hg; apply H; now right|]. now split.
Qed.

(** A file that passes validation is processed without error. *)
Lemma validated_file_is_processed fs field f :
  fst (validate_excel_file fs field f) = true ->
  exists df, process_excel_file fs field f = Ok (output_name f, df).
Proof.
  unfold validate_excel_file, process_excel_file.
  destruct (find_file fs f) as [file|]; [|discriminate].
  destruct (negb (existsb (String.eqb (lower (Path.suffix f))) supported_excel_formats));
    [discriminate|].
  destruct (Nat.eqb (file_size file) 0); [discriminate|].
  destruct (file_table file) as [df|]; [|discriminate].
  destruct (negb (existsb (String.eqb field) (columns df))); [discriminate|].
  intros _.
  destruct (process_rows field (rows (add_new_columns df))
              {| processed_rows := 0; error_rows := 0 |}) as [rs n].
  eexists. reflexivity.
Qed.

Lemma process_all_valid fs files : forall st,
  (forall f, In f files ->
     fst (validate_excel_file fs (geometry_field_name st) f) = true) ->
  let st' := process_all fs files st in
  success_files st' = success_files st ++ files /\
  map fst (written st') = map fst (written st) ++ map output_name files /\
  processed_count st' = processed_count st + List.length files /\
  error_files st' = error_files st.
Proof.
  induction files as [|f r IH]; intros st H; cbn zeta.
  - simpl. rewrite !app_nil_r, Nat.add_0_r. repeat split.
  - cbn [process_all].
    destruct (validated_file_is_processed fs _ f (H f (or_introl eq_refl)))
      as (df & ->).
    match goal with
    | |- context [process_all fs r ?s] => specialize (IH s)
    end.
    cbn zeta in IH. cbn [geometry_field_name success_files written
                         processed_count error_files] in IH.
    destruct IH as (H1 & H2 & H3 & H4); [intros g Hg; apply H; now right|].
    rewrite H1, H2, H3, H4. rewrite map_app, <- !app_assoc. simpl.
    repeat split. lia.
Qed.

End ExcelBatch.

(** C4, as the code has it.  In tabular batch mode every file is validated
    before any file is processed.  A file-level error found by the
    validation (an unsupported extension, a missing geometry column, an
    empty or unreadable file) in any file stops the whole batch:
    [process_directory] exits with status 1, no file is processed and no
    output is written, the valid files included.  When every file passes
    validation, every file of the batch is processed and its output is
    written. *)
Theorem C4_tabular_batch_stops_on_invalid_file (fs : list GeometryProcessor.file)
  (field : string) :
  let files := excel_files fs in
  let run :=
    GeometryProcessor.process_directory fs (GeometryProcessor.init field) field in
  files <> [] ->
  ((exists f, In f files /\
      fst (GeometryProcessor.validate_excel_file fs field f) = false) ->
   fst run = GeometryProcessor.Exited 1 /\
   GeometryProcessor.written (snd run) = [] /\
   GeometryProcessor.processed_count (snd run) = 0 /\
   GeometryProcessor.success_files (snd run) = [] /\
   GeometryProcessor.error_files (snd run) = invalid_excel_files fs field files) /\
  ((forall f, In f files ->
      fst (GeometryProcessor.validate_excel_file fs field f) = true) ->
   fst run = GeometryProcessor.Returned /\
   GeometryProcessor.success_files (snd run) = files /\
   map fst (GeometryProcessor.written (snd run)) = map output_name files /\
   GeometryProcessor.processed_count (snd run) = List.length files /\
   GeometryProcessor.error_files (snd run) = []).
Proof.
  intros files run Hne. subst files run.
  unfold GeometryProcessor.process_directory. fold (excel_files fs).
  destruct (excel_files fs) as [|g gs] eqn:Eg; [congruence|].
  rewrite <- Eg in *. clear Eg g gs.
  match goal with
  | |- context [GeometryProcessor.validate_all fs ?l ?v ?s] =>
      pose proof (excel_validate_all_spec fs l v s) as Hs;
      destruct (GeometryProcessor.validate_all fs l v s) as [valid st]
  end.
  cbn zeta in Hs. cbn [fst snd] in Hs.
  cbn [GeometryProcessor.init GeometryProcessor.geometry_field_name
       GeometryProcessor.error_files GeometryProcessor.written
       GeometryProcessor.processed_count GeometryProcessor.success_files app] in Hs.
  destruct Hs as (H0 & Hn & H2 & H3 & H4 & H5).
  split.
  - intros (f & Hin & Hf).
    pose proof (invalid_excel_files_In fs field _ f Hin Hf) as Hbad.
    rewrite H2.
    destruct (invalid_excel_files fs field (excel_files fs)) as [|b bad];
      [destruct Hbad|].
    cbn [fst snd]. rewrite H2. repeat split; assumption.
  - intros Hall.
    destruct (invalid_excel_files_nil fs field _ Hall) as [Hnil Hfil].
    rewrite Hnil in H2. rewrite Hfil in H0. rewrite H2. cbn [fst snd].
    split; [reflexivity|].
    destruct (process_all_valid fs valid st) as (P1 & P2 & P3 & P4).
    { intros f Hf. rewrite Hn. apply Hall. now rewrite <- H0. }
    rewrite P1, P2, P3, P4, H2, H3, H4, H5, H0. repeat split.
Qed.

Lemma C4_witness :
  let run :=
    GeometryProcessor.process_directory batch_with_missing_column
      (GeometryProcessor.init "geom") "geom" in
  fst run = GeometryProcessor.Exited 1 /\
  GeometryProcessor.written (snd run) = [] /\
  GeometryProcessor.processed_count (snd run) = 0 /\
  GeometryProcessor.success_files (snd run) = [] /\
  GeometryProcessor.error_files (snd run)
  = [("a.csv", GeometryProcessor.FieldMissing "geom")].
Proof.
  destruct (C4_tabular_batch_stops_on_invalid_file batch_with_missing_column "geom")
    as [H _].
  - discriminate.
  - apply H. exists "a.csv". split; [vm_compute; tauto|reflexivity].
Defined.

(** C4, as the specification words it, fails.  In the batch above the file
    [a.csv] lacks the geometry column and [b.csv] passes validation; the
    batch exits with status 1 and [b.csv] is not processed: nothing is
    written for it. *)
Lemma C4_counterexample :
  let run :=
    GeometryProcessor.process_directory batch_with_missing_column
      (GeometryProcessor.init "geom") "geom" in
  GeometryProcessor.validate_excel_file batch_with_missing_column "geom" "a.csv"
    = (false, GeometryProcessor.FieldMissing "geom") /\
  GeometryProcessor.validate_excel_file batch_with_missing_column "geom" "b.csv"
    = (true, GeometryProcessor.NoMessage) /\
  (exists df,
     GeometryProcessor.process_excel_file batch_with_missing_column "geom" "b.csv"
     = Ok ("b_with_bounds.csv", df)) /\
  fst run = GeometryProcessor.Exited 1 /\
  GeometryProcessor.success_files (snd run) = [] /\
  ~ (exists df, In ("b_with_bounds.csv", df) (GeometryProcessor.written (snd run))).
Proof.
  cbv zeta.
  split; [vm_compute; reflexivity|].
  split; [vm_compute; reflexivity|].
  split; [eexists; vm_compute; reflexivity|].
  split; [vm_compute; reflexivity|].
  split; [vm_compute; reflexivity|].
  intros (df & H). vm_compute in H. exact H.
Qed.

(* ================================================================== *)
(** * Further properties of the code *)
(* ================================================================== *)

(** ** More on the bounds of a list of points *)

Section BoundsMore.

Lemma qmin_from_In best l : In (qmin_from best l) (best :: l).
Proof.
  revert best. induction l as [|x r IH]; intro best; simpl; [now left|].
  destruct (Qltb x best).
  - right. apply IH.
  - destruct (IH best) as [H|H]; [now left|right; now right].
Qed.

Lemma qmax_from_In best l : In (qmax_from best l) (best :: l).
Proof.
  revert best. induction l as [|x r IH]; intro best; simpl; [now left|].
  destruct (Qltb best x).
  - right. apply IH.
  - destruct (IH best) as [H|H]; [now left|right; now right].
Qed.

(** Both [calculate_bounds] on a non-empty list of points, with the four
    extreme coordinates named. *)
Lemma bounds_of_points (P : list (Q * Q)) (geojson_data : value) :
  P <> [] ->
  Walk.collect geojson_data = Ok (map point P) ->
  exists p r,
    P = p :: r /\
    GeometryProcessor.calculate_bounds (VList (map point P))
    = Ok (excel_bounds (min_lon_of p r) (max_lon_of p r)
                       (min_lat_of p r) (max_lat_of p r)) /\
    GeoJsonBatchProcessor.calculate_bounds geojson_data
    = Ok (geojson_bounds (min_lon_of p r) (max_lon_of p r)
                         (min_lat_of p r) (max_lat_of p r)).
Proof.
  intros Hne Hwalk. destruct P as [|p r]; [congruence|].
  exists p, r. split; [reflexivity|]. split.
  - apply excel_calculate_bounds_points.
  - apply geojson_calculate_bounds_points, Hwalk.
Qed.

End BoundsMore.

(** X1.  The rectangle is the smallest one: each of the four extreme
    coordinates that [calculate_bounds] returns is the coordinate of a
    point of the list, so every axis-aligned rectangle that contains all
    the points contains the computed one. *)
Theorem X1_bounds_are_attained (P : list (Q * Q)) (geojson_data : value) :
  P <> [] ->
  Walk.collect geojson_data = Ok (map point P) ->
  exists min_lon max_lon min_lat max_lat : Q,
    GeometryProcessor.calculate_bounds (VList (map point P))
      = Ok (excel_bounds min_lon max_lon min_lat max_lat) /\
    GeoJsonBatchProcessor.calculate_bounds geojson_data
      = Ok (geojson_bounds min_lon max_lon min_lat max_lat) /\
    In min_lon (map fst P) /\ In max_lon (map fst P) /\
    In min_lat (map snd P) /\ In max_lat (map snd P) /\
    forall west east south north : Q,
      (forall p, In p P ->
         (west <= fst p <= east)%Q /\ (south <= snd p <= north)%Q) ->
      (west <= min_lon)%Q /\ (max_lon <= east)%Q /\
      (south <= min_lat)%Q /\ (max_lat <= north)%Q.
Proof.
  intros Hne Hwalk.
  destruct (bounds_of_points P geojson_data Hne Hwalk) as (p & r & -> & Hx & Hg).
  exists (min_lon_of p r), (max_lon_of p r), (min_lat_of p r), (max_lat_of p r).
  split; [exact Hx|]. split; [exact Hg|].
  assert (H1 : In (min_lon_of p r) (map fst (p :: r))) by apply qmin_from_In.
  assert (H2 : In (max_lon_of p r) (map fst (p :: r))) by apply qmax_from_In.
  assert (H3 : In (min_lat_of p r) (map snd (p :: r))) by apply qmin_from_In.
  assert (H4 : In (max_lat_of p r) (map snd (p :: r))) by apply qmax_from_In.
  repeat split; try assumption.
  - apply in_map_iff in H1 as (q & <- & Hq). apply (H q Hq).
  - apply in_map_iff in H2 as (q & <- & Hq). apply (H q Hq).
  - apply in_map_iff in H3 as (q & <- & Hq). apply (H q Hq).
  - apply in_map_iff in H4 as (q & <- & Hq). apply (H q Hq).
Qed.

Lemma X1_witness :
  exists min_lon max_lon min_lat max_lat : Q,
    GeometryProcessor.calculate_bounds (VList (map point sample_points))
      = Ok (excel_bounds min_lon max_lon min_lat max_lat) /\
    GeoJsonBatchProcessor.calculate_bounds sample_object
      = Ok (geojson_bounds min_lon max_lon min_lat max_lat) /\
    In min_lon (map fst sample_points) /\ In max_lon (map fst sample_points) /\
    In min_lat (map snd sample_points) /\ In max_lat (map snd sample_points) /\
    forall west east south north : Q,
      (forall p, In p sample_points ->
         (west <= fst p <= east)%Q /\ (south <= snd p <= north)%Q) ->
      (west <= min_lon)%Q /\ (max_lon <= east)%Q /\
      (south <= min_lat)%Q /\ (max_lat <= north)%Q.
Proof.
  apply (X1_bounds_are_attained sample_points sample_object).
  - discriminate.
  - reflexivity.
Defined.

Section BoundsOrder.



(** The least element of a list is determined, as a number, by the set of
    its elements. *)
Lemma qmin_from_same_elements x r x' r' :
  (forall y, In y (x :: r) -> In y (x' :: r')) ->
  (qmin_from x' r' <= qmin_from x r)%Q.
Proof.
  intro H. pose proof (H _ (qmin_from_In x r)) as [E|Hin].
  - rewrite <- E. apply qmin_from_le_best.
  - apply qmin_from_le_all, Hin.
Qed.

Lemma qmax_from_same_elements x r x' r' :
  (forall y, In y (x :: r) -> In y (x' :: r')) ->
  (qmax_from x r <= qmax_from x' r')%Q.
Proof.
  intro H. pose proof (H _ (qmax_from_In x r)) as [E|Hin].
  - rewrite <- E. apply qmax_from_ge_best.
  - apply qmax_from_ge_all, Hin.
Qed.

Lemma qmin_from_lower x r y : In y (x :: r) -> (qmin_from x r <= y)%Q.
Proof.
  intros [<-|H]; [apply qmin_from_le_best|apply qmin_from_le_all, H].
Qed.

Lemma qmax_from_upper x r y : In y (x :: r) -> (y <= qmax_from x r)%Q.
Proof.
  intros [<-|H]; [apply qmax_from_ge_best|apply qmax_from_ge_all, H].
Qed.

End BoundsOrder.





(** X4.  The bounds depend on the set of the points only: two non-empty
    lists with the same points, in any order and with any repetitions,
    have numerically equal [min_lon], [max_lon], [min_lat] and
    [max_lat], in both modes. *)
Theorem X4_bounds_ignore_order (P P' : list (Q * Q)) (geojson_data geojson_data' : value) :
  P <> [] ->
  (forall p, In p P <-> In p P') ->
  Walk.collect geojson_data = Ok (map point P) ->
  Walk.collect geojson_data' = Ok (map point P') ->
  exists a b c d a' b' c' d' : Q,
    GeometryProcessor.calculate_bounds (VList (map point P))
      = Ok (excel_bounds a b c d) /\
    GeometryProcessor.calculate_bounds (VList (map point P'))
      = Ok (excel_bounds a' b' c' d') /\
    GeoJsonBatchProcessor.calculate_bounds geojson_data
      = Ok (geojson_bounds a b c d) /\
    GeoJsonBatchProcessor.calculate_bounds geojson_data'
      = Ok (geojson_bounds a' b' c' d') /\
    (a == a')%Q /\ (b == b')%Q /\ (c == c')%Q /\ (d == d')%Q.
Proof.
  intros Hne Hsame Hw Hw'.
  assert (Hne' : P' <> []).
  { destruct P as [|p r]; [congruence|]. intros ->.
    apply (Hsame p). now left. }
  destruct (bounds_of_points P geojson_data Hne Hw) as (p & r & -> & Hx & Hg).
  destruct (bounds_of_points P' geojson_data' Hne' Hw') as (p' & r' & -> & Hx' & Hg').
  do 8 eexists.
  split; [exact Hx|]. split; [exact Hx'|]. split; [exact Hg|]. split; [exact Hg'|].
  assert (Hmap : forall f : Q * Q -> Q, forall y,
            In y (f p :: map f r) <-> In y (f p' :: map f r')).
  { intros f y.
    change (f p :: map f r) with (map f (p :: r)).
    change (f p' :: map f r') with (map f (p' :: r')).
    rewrite !in_map_iff. split; intros (q & E & Hq); exists q; split;
      try assumption; now apply Hsame. }
  unfold min_lon_of, max_lon_of, min_lat_of, max_lat_of.
  repeat split; apply Qle_antisym;
    first [ apply qmin_from_same_elements | apply qmax_from_same_elements ];
    intros y Hy; now apply Hmap.
Qed.

Lemma X4_witness :
  exists a b c d a' b' c' d' : Q,
    GeometryProcessor.calculate_bounds (VList (map point sample_points))
      = Ok (excel_bounds a b c d) /\
    GeometryProcessor.calculate_bounds (VList (map point sample_points_shuffled))
      = Ok (excel_bounds a' b' c' d') /\
    GeoJsonBatchProcessor.calculate_bounds sample_object
      = Ok (geojson_bounds a b c d) /\
    GeoJsonBatchProcessor.calculate_bounds sample_object_shuffled
      = Ok (geojson_bounds a' b' c' d') /\
    (a == a')%Q /\ (b == b')%Q /\ (c == c')%Q /\ (d == d')%Q.
Proof.
  apply (X4_bounds_ignore_order sample_points sample_points_shuffled
           sample_object sample_object_shuffled).
  - discriminate.
  - intro p. unfold sample_points, sample_points_shuffled. simpl. tauto.
  - reflexivity.
  - reflexivity.
Defined.

(** X5.  The bounds of two lists of points put together are the envelope
    of their two rectangles: the least of the two [min] and the greatest of
    the two [max], on each axis. *)
Theorem X5_bounds_of_concatenation (P R : list (Q * Q)) :
  P <> [] -> R <> [] ->
  exists a b c d a' b' c' d' a'' b'' c'' d'' : Q,
    GeometryProcessor.calculate_bounds (VList (map point P))
      = Ok (excel_bounds a b c d) /\
    GeometryProcessor.calculate_bounds (VList (map point R))
      = Ok (excel_bounds a' b' c' d') /\
    GeometryProcessor.calculate_bounds (VList (map point (P ++ R)))
      = Ok (excel_bounds a'' b'' c'' d'') /\
    (a'' == Qmin a a')%Q /\ (b'' == Qmax b b')%Q /\
    (c'' == Qmin c c')%Q /\ (d'' == Qmax d d')%Q.
Proof.
  intros HP HR.
  destruct P as [|p r]; [congruence|]. destruct R as [|p' r']; [congruence|].
  do 12 eexists.
  split; [apply excel_calculate_bounds_points|].
  split; [apply excel_calculate_bounds_points|].
  split; [apply (excel_calculate_bounds_points p (r ++ p' :: r'))|].
  unfold min_lon_of, max_lon_of, min_lat_of, max_lat_of.
  assert (Hsplit : forall f : Q * Q -> Q, forall y,
            In y (f p :: map f (r ++ p' :: r')) ->
            In y (f p :: map f r) \/ In y (f p' :: map f r')).
  { intros f y [E|H]; [left; now left|].
    rewrite map_app in H. apply in_app_or in H as [H|H];
      [left; now right|now right]. }
  assert (Hleft : forall f : Q * Q -> Q, forall y,
            In y (f p :: map f r) -> In y (f p :: map f (r ++ p' :: r'))).
  { intros f y [E|H]; [now left|right].
    rewrite map_app. apply in_or_app. now left. }
  assert (Hright : forall f : Q * Q -> Q, forall y,
            In y (f p' :: map f r') -> In y (f p :: map f (r ++ p' :: r'))).
  { intros f y H. right. rewrite map_app. apply in_or_app. now right. }
  repeat split; apply Qle_antisym.
  - apply Q.min_glb; apply qmin_from_same_elements; intros y Hy;
      [now apply Hleft|now apply Hright].
  - destruct (Hsplit fst _ (qmin_from_In (fst p) (map fst (r ++ p' :: r')))) as [H|H].
    + eapply Qle_trans; [apply Q.le_min_l|]. apply qmin_from_lower, H.
    + eapply Qle_trans; [apply Q.le_min_r|]. apply qmin_from_lower, H.
  - destruct (Hsplit fst _ (qmax_from_In (fst p) (map fst (r ++ p' :: r')))) as [H|H].
    + eapply Qle_trans; [|apply Q.le_max_l]. apply qmax_from_upper, H.
    + eapply Qle_trans; [|apply Q.le_max_r]. apply qmax_from_upper, H.
  - apply Q.max_lub; apply qmax_from_same_elements; intros y Hy;
      [now apply Hleft|now apply Hright].
  - apply Q.min_glb; apply qmin_from_same_elements; intros y Hy;
      [now apply Hleft|now apply Hright].
  - destruct (Hsplit snd _ (qmin_from_In (snd p) (map snd (r ++ p' :: r')))) as [H|H].
    + eapply Qle_trans; [apply Q.le_min_l|]. apply qmin_from_lower, H.
    + eapply Qle_trans; [apply Q.le_min_r|]. apply qmin_from_lower, H.
  - destruct (Hsplit snd _ (qmax_from_In (snd p) (map snd (r ++ p' :: r')))) as [H|H].
    + eapply Qle_trans; [|apply Q.le_max_l]. apply qmax_from_upper, H.
    + eapply Qle_trans; [|apply Q.le_max_r]. apply qmax_from_upper, H.
  - apply Q.max_lub; apply qmax_from_same_elements; intros y Hy;
      [now apply Hleft|now apply Hright].
Qed.

Lemma X5_witness :
  exists a b c d a' b' c' d' a'' b'' c'' d'' : Q,
    GeometryProcessor.calculate_bounds (VList (map point sample_points))
      = Ok (excel_bounds a b c d) /\
    GeometryProcessor.calculate_bounds (VList (map point scenario_B_points))
      = Ok (excel_bounds a' b' c' d') /\
    GeometryProcessor.calculate_bounds
      (VList (map point (sample_points ++ scenario_B_points)))
      = Ok (excel_bounds a'' b'' c'' d'') /\
    (a'' == Qmin a a')%Q /\ (b'' == Qmax b b')%Q /\
    (c'' == Qmin c c')%Q /\ (d'' == Qmax d d')%Q.
Proof.
  apply (X5_bounds_of_concatenation sample_points scenario_B_points);
    discriminate.
Defined.

(** ** When [calculate_bounds] succeeds *)

Section Success.














End Success.


(** ** The walk over coordinates *)

Section WalkMore.

Lemma extract_point p : first_numeric p -> Walk.extract_coordinates p = [p].
Proof.
  intros (a & rest & -> & Ha). cbn [Walk.extract_coordinates]. now rewrite Ha.
Qed.

Lemma extract_list_of_lists l :
  match l with
  | x :: _ => is_number x = false
  | [] => True
  end ->
  Walk.extract_coordinates (VList l) = flat_map Walk.extract_coordinates l.
Proof.
  destruct l as [|x r]; [reflexivity|]. intro H.
  cbn [Walk.extract_coordinates]. now rewrite H.
Qed.

Lemma first_numeric_not_number p : first_numeric p -> is_number p = false.
Proof. now intros (a & rest & -> & _). Qed.

Lemma extract_points pts :
  Forall first_numeric pts -> Walk.extract_coordinates (VList pts) = pts.
Proof.
  intro H. rewrite extract_list_of_lists.
  - induction H as [|p r Hp _ IH]; cbn [flat_map]; [reflexivity|].
    now rewrite (extract_point p Hp), IH.
  - destruct H as [|p r Hp _]; [exact I|]. now apply first_numeric_not_number.
Qed.

Lemma extract_rings rings :
  Forall (Forall first_numeric) rings ->
  Walk.extract_coordinates (VList (map VList rings)) = concat rings.
Proof.
  intro H. rewrite extract_list_of_lists.
  - induction H as [|ring r Hr _ IH]; cbn [flat_map map concat]; [reflexivity|].
    now rewrite (extract_points ring Hr), IH.
  - destruct rings; [exact I|reflexivity].
Qed.

Lemma extract_polygons polygons :
  Forall (Forall (Forall first_numeric)) polygons ->
  Walk.extract_coordinates (VList (map (fun rings => VList (map VList rings)) polygons))
  = concat (map (@concat value) polygons).
Proof.
  intro H. rewrite extract_list_of_lists.
  - induction H as [|rings r Hr _ IH]; cbn [flat_map map concat]; [reflexivity|].
    now rewrite (extract_rings rings Hr), IH.
  - destruct polygons; [exact I|reflexivity].
Qed.

End WalkMore.

(** X7.  The walk [extract_coordinates] flattens every level of nesting
    and keeps the order.  A list whose first item is a number is one point,
    whatever follows that number.  On a list of points (MultiPoint,
    LineString) it returns the points as they are; on a list of rings of
    points (Polygon, MultiLineString) it returns the points of all the
    rings, ring after ring; on a list of polygons (MultiPolygon) the points
    of all the rings of all the polygons.  Empty lists contribute nothing. *)
Theorem X7_walk_flattens_nesting :
  (forall x rest,
     is_number x = true ->
     Walk.extract_coordinates (VList (x :: rest)) = [VList (x :: rest)]) /\
  (forall pts,
     Forall first_numeric pts -> Walk.extract_coordinates (VList pts) = pts) /\
  (forall rings,
     Forall (Forall first_numeric) rings ->
     Walk.extract_coordinates (VList (map VList rings)) = concat rings) /\
  (forall polygons,
     Forall (Forall (Forall first_numeric)) polygons ->
     Walk.extract_coordinates
       (VList (map (fun rings => VList (map VList rings)) polygons))
     = concat (map (@concat value) polygons)).
Proof.
  split; [|split; [|split]].
  - intros x rest Hx. cbn [Walk.extract_coordinates]. now rewrite Hx.
  - exact extract_points.
  - exact extract_rings.
  - exact extract_polygons.
Qed.

Lemma X7_witness :
  Walk.extract_coordinates
    (VList (map VList [map point sample_points; map point scenario_B_points]))
  = map point sample_points ++ map point scenario_B_points.
Proof.
  destruct X7_walk_flattens_nesting as (_ & _ & H & _).
  rewrite (H [map point sample_points; map point scenario_B_points]).
  - reflexivity.
  - repeat constructor; eexists; eexists; split; reflexivity.
Defined.

Section CollectMore.

Lemma py_get_dict d key default :
  py_get (VDict d) key default = Ok (dict_get d key default).
Proof. unfold py_get, dict_get. now destruct (dict_lookup d key). Qed.

Lemma collect_unfold d name :
  lower_type d = Some name ->
  Walk.collect (VDict d) =
    if String.eqb name "featurecollection" then
      fs <- py_get (VDict d) "features" (VList []) ;;
      features <- py_iter fs ;;
      cs <- mapM Walk.feature_coordinates features ;;
      Ok (concat cs)
    else if String.eqb name "feature" then Walk.feature_coordinates (VDict d)
    else c <- py_get (VDict d) "coordinates" (VList []) ;;
         Ok (Walk.extract_coordinates c).
Proof.
  unfold lower_type, Walk.collect. rewrite py_get_dict. cbn [bind].
  destruct (dict_get d "type" (VStr "")); try discriminate.
  intro H. injection H as <-. reflexivity.
Qed.

Lemma collect_geometry d name :
  lower_type d = Some name ->
  name <> "featurecollection" -> name <> "feature" ->
  Walk.collect (VDict d)
  = Ok (Walk.extract_coordinates (dict_get d "coordinates" (VList []))).
Proof.
  intros Ht H1 H2. rewrite (collect_unfold d name Ht).
  apply String.eqb_neq in H1, H2. rewrite H1, H2.
  now rewrite py_get_dict.
Qed.

Lemma collect_feature d g :
  lower_type d = Some "feature" ->
  dict_lookup d "geometry" = Some (VDict g) ->
  Walk.collect (VDict d)
  = Ok (Walk.extract_coordinates (dict_get g "coordinates" (VList []))).
Proof.
  intros Ht Hg. rewrite (collect_unfold d _ Ht). cbn [String.eqb Ascii.eqb Bool.eqb].
  unfold Walk.feature_coordinates. rewrite py_get_dict. cbn [bind].
  unfold dict_get at 1. rewrite Hg. now rewrite py_get_dict.
Qed.

Lemma feature_coordinates_collect f pts :
  (exists d, f = VDict d /\ lower_type d = Some "feature") ->
  Walk.collect f = Ok pts -> Walk.feature_coordinates f = Ok pts.
Proof.
  intros (d & -> & Ht). now rewrite (collect_unfold d _ Ht).
Qed.

Lemma mapM_Forall2_ok {A B : Type} (f : A -> result B) l l' :
  Forall2 (fun x y => f x = Ok y) l l' -> mapM f l = Ok l'.
Proof.
  induction 1 as [|x y l l' Hx _ IH]; simpl; [reflexivity|].
  now rewrite Hx, IH.
Qed.

Lemma collect_feature_collection d features ptss :
  lower_type d = Some "featurecollection" ->
  dict_lookup d "features" = Some (VList features) ->
  Forall2 (fun f pts => Walk.feature_coordinates f = Ok pts) features ptss ->
  Walk.collect (VDict d) = Ok (concat ptss).
Proof.
  intros Ht Hf HF. rewrite (collect_unfold d _ Ht).
  cbn [String.eqb Ascii.eqb Bool.eqb].
  rewrite py_get_dict. unfold dict_get. rewrite Hf. cbn [bind py_iter].
  now rewrite (mapM_Forall2_ok _ _ _ HF).
Qed.

Lemma mapM_raises {A B : Type} (f : A -> result B) good ys bad rest e :
  Forall2 (fun x y => f x = Ok y) good ys ->
  f bad = Raise e ->
  mapM f (good ++ bad :: rest) = Raise e.
Proof.
  intros HF Hbad. induction HF as [|x y l l' Hx _ IH]; simpl.
  - now rewrite Hbad.
  - now rewrite Hx, IH.
Qed.

End CollectMore.

(** X8.  How the walk composes over the kinds of GeoJSON objects.  The
    type is read in lower case and decides the dispatch.  An object that is
    neither a Feature nor a FeatureCollection gives the points of its own
    [coordinates]; a Feature gives the points of the [coordinates] of its
    geometry, so the same points as the geometry alone; a
    FeatureCollection gives the points of its features one after the
    other, in the order of the features. *)
Theorem X8_walk_composes (d : list (string * value)) :
  (forall name,
     lower_type d = Some name ->
     name <> "featurecollection" -> name <> "feature" ->
     Walk.collect (VDict d)
     = Ok (Walk.extract_coordinates (dict_get d "coordinates" (VList [])))) /\
  (forall g name,
     lower_type d = Some "feature" ->
     dict_lookup d "geometry" = Some (VDict g) ->
     lower_type g = Some name ->
     name <> "featurecollection" -> name <> "feature" ->
     Walk.collect (VDict d) = Walk.collect (VDict g)) /\
  (forall features ptss,
     lower_type d = Some "featurecollection" ->
     dict_lookup d "features" = Some (VList features) ->
     Forall2 (fun f pts =>
                (exists fd, f = VDict fd /\ lower_type fd = Some "feature") /\
                Walk.collect f = Ok pts) features ptss ->
     Walk.collect (VDict d) = Ok (concat ptss)).
Proof.
  split; [|split].
  - intros name. apply collect_geometry.
  - intros g name Ht Hg Hgt H1 H2.
    rewrite (collect_feature d g Ht Hg).
    now rewrite (collect_geometry g name Hgt H1 H2).
  - intros features ptss Ht Hf HF.
    apply (collect_feature_collection d features ptss Ht Hf).
    clear Ht Hf.
    induction HF as [|f pts fs ps [Hd Hc] _ IH]; [constructor|].
    constructor; [|assumption].
    now apply feature_coordinates_collect.
Qed.

Lemma X8_witness :
  Walk.collect (VDict sample_collection)
  = Ok (concat [map point sample_points; map point sample_points]).
Proof.
  destruct (X8_walk_composes sample_collection) as (_ & _ & H).
  apply (H [sample_feature; sample_feature]); try reflexivity.
  repeat constructor; try reflexivity;
    eexists; split; reflexivity.
Defined.

(** X9.  A null geometry is an error, a missing one is not.  A Feature
    whose [geometry] is [null] makes the walk raise [AttributeError], and
    so does a FeatureCollection that holds such a Feature after any number
    of sound ones: the tabular parser turns it into [ValueError], the
    GeoJSON [calculate_bounds] raises and [_has_valid_coordinates] raises.
    A Feature without the key [geometry] has no points and raises
    nothing. *)
Theorem X9_null_geometry_raises (d : list (string * value)) :
  (lower_type d = Some "feature" ->
   dict_lookup d "geometry" = Some VNone ->
   Walk.collect (VDict d) = Raise AttributeError) /\
  (lower_type d = Some "feature" ->
   dict_lookup d "geometry" = None ->
   Walk.collect (VDict d) = Ok []) /\
  (forall good ptss bad rest,
     lower_type d = Some "featurecollection" ->
     dict_lookup d "features" = Some (VList (good ++ VDict bad :: rest)) ->
     Forall2 (fun f pts => Walk.feature_coordinates f = Ok pts) good ptss ->
     dict_lookup bad "geometry" = Some VNone ->
     Walk.collect (VDict d) = Raise AttributeError /\
     GeometryProcessor._extract_coordinates_from_geojson (VDict d)
       = Raise AttributeError /\
     GeoJsonBatchProcessor._has_valid_coordinates (VDict d) = Raise AttributeError /\
     GeoJsonBatchProcessor.calculate_bounds (VDict d) = Raise AttributeError).
Proof.
  split; [|split].
  - intros Ht Hg. rewrite (collect_unfold d _ Ht).
    cbn [String.eqb Ascii.eqb Bool.eqb].
    unfold Walk.feature_coordinates. rewrite py_get_dict. unfold dict_get.
    now rewrite Hg.
  - intros Ht Hg. rewrite (collect_unfold d _ Ht).
    cbn [String.eqb Ascii.eqb Bool.eqb].
    unfold Walk.feature_coordinates. rewrite py_get_dict. unfold dict_get.
    now rewrite Hg.
  - intros good ptss bad rest Ht Hf HF Hbad.
    assert (Hc : Walk.collect (VDict d) = Raise AttributeError).
    { rewrite (collect_unfold d _ Ht). cbn [String.eqb Ascii.eqb Bool.eqb].
      rewrite py_get_dict. unfold dict_get. rewrite Hf. cbn [bind py_iter].
      rewrite (mapM_raises _ good ptss (VDict bad) rest AttributeError HF);
        [reflexivity|].
      unfold Walk.feature_coordinates. rewrite py_get_dict. unfold dict_get.
      now rewrite Hbad. }
    split; [exact Hc|].
    unfold GeometryProcessor._extract_coordinates_from_geojson,
      GeoJsonBatchProcessor._has_valid_coordinates,
      GeoJsonBatchProcessor.calculate_bounds.
    rewrite Hc. repeat split.
Qed.

Lemma X9_witness :
  Walk.collect (VDict collection_with_null_geometry) = Raise AttributeError /\
  GeometryProcessor._extract_coordinates_from_geojson
    (VDict collection_with_null_geometry) = Raise AttributeError /\
  GeoJsonBatchProcessor._has_valid_coordinates
    (VDict collection_with_null_geometry) = Raise AttributeError /\
  GeoJsonBatchProcessor.calculate_bounds
    (VDict collection_with_null_geometry) = Raise AttributeError.
Proof.
  destruct (X9_null_geometry_raises collection_with_null_geometry) as (_ & _ & H).
  apply (H [sample_feature] [map point sample_points]
           [("type", VStr "Feature"); ("geometry", VNone)] []);
    try reflexivity.
  repeat constructor.
Defined.

(** ** The rectangle written for a file *)

Section Rectangle.

Variables a b c d : Q.
Hypothesis Hab : (a <= b)%Q.
Hypothesis Hab_same : (b <= a)%Q -> b = a.
Hypothesis Hcd : (c <= d)%Q.
Hypothesis Hcd_same : (d <= c)%Q -> d = c.

Lemma ring_min_lon : min_lon_of (a, c) [(a, d); (b, d); (b, c); (a, c)] = a.
Proof.
  unfold min_lon_of. simpl.
  rewrite ?Qltb_irrefl.
  assert (E : Qltb b a = false) by (apply Qltb_ge, Hab).
  rewrite E. reflexivity.
Qed.

Lemma ring_max_lon : max_lon_of (a, c) [(a, d); (b, d); (b, c); (a, c)] = b.
Proof.
  unfold max_lon_of. simpl.
  rewrite Qltb_irrefl.
  assert (E' : Qltb b a = false) by (apply Qltb_ge, Hab).
  destruct (Qltb a b) eqn:E.
  - rewrite ?Qltb_irrefl, ?E'. reflexivity.
  - apply Qltb_ge in E. rewrite (Hab_same E).
    rewrite ?Qltb_irrefl. reflexivity.
Qed.

Lemma ring_min_lat : min_lat_of (a, c) [(a, d); (b, d); (b, c); (a, c)] = c.
Proof.
  unfold min_lat_of. simpl.
  assert (E : Qltb d c = false) by (apply Qltb_ge, Hcd).
  rewrite E, !Qltb_irrefl. reflexivity.
Qed.

Lemma ring_max_lat : max_lat_of (a, c) [(a, d); (b, d); (b, c); (a, c)] = d.
Proof.
  unfold max_lat_of. simpl.
  assert (E' : Qltb d c = false) by (apply Qltb_ge, Hcd).
  destruct (Qltb c d) eqn:E.
  - rewrite ?Qltb_irrefl, ?E'. reflexivity.
  - apply Qltb_ge in E. rewrite (Hcd_same E).
    rewrite ?Qltb_irrefl. reflexivity.
Qed.

Lemma rectangle_walk name :
  Walk.collect
    (GeoJsonBatchProcessor.create_rectangle_geojson (geojson_bounds a b c d) name)
  = Ok (map point [(a, c); (a, d); (b, d); (b, c); (a, c)]).
Proof. reflexivity. Qed.

Lemma rectangle_fixpoint name :
  GeoJsonBatchProcessor.calculate_bounds
    (GeoJsonBatchProcessor.create_rectangle_geojson (geojson_bounds a b c d) name)
  = Ok (geojson_bounds a b c d).
Proof.
  rewrite (geojson_calculate_bounds_points _ (a, c) [(a, d); (b, d); (b, c); (a, c)])
    by apply rectangle_walk.
  rewrite ring_min_lon, ring_max_lon, ring_min_lat, ring_max_lat.
  reflexivity.
Qed.

End Rectangle.

(** X10.  The rectangle written for a file is itself an input with the
    same bounds.  For every non-empty list [P] of 2-D points that the walk
    extracts from an object and every source name, the FeatureCollection
    that [create_rectangle_geojson] builds from the bounds of the object
    holds the closed ring south-west, north-west, north-east, south-east,
    south-west as its five points, passes [_has_valid_coordinates], and
    [calculate_bounds] gives on it the very bounds it was built from. *)
Theorem X10_rectangle_round_trip (P : list (Q * Q)) (geojson_data : value)
  (source_filename : string) :
  P <> [] ->
  Walk.collect geojson_data = Ok (map point P) ->
  exists b,
    GeoJsonBatchProcessor.calculate_bounds geojson_data = Ok b /\
    let rectangle := GeoJsonBatchProcessor.create_rectangle_geojson b source_filename in
    let corners := GeoJsonBatchProcessor.corners b in
    Walk.collect rectangle
    = Ok [VList (GeoJsonBatchProcessor.SW corners);
          VList (GeoJsonBatchProcessor.NW corners);
          VList (GeoJsonBatchProcessor.NE corners);
          VList (GeoJsonBatchProcessor.SE corners);
          VList (GeoJsonBatchProcessor.SW corners)] /\
    GeoJsonBatchProcessor._has_valid_coordinates rectangle = Ok true /\
    GeoJsonBatchProcessor.calculate_bounds rectangle = Ok b.
Proof.
  intros Hne Hwalk. destruct P as [|p r]; [congruence|].
  eexists. split; [apply geojson_calculate_bounds_points, Hwalk|].
  cbv zeta. split; [reflexivity|]. split; [reflexivity|].
  apply rectangle_fixpoint;
    first [apply qmin_le_qmax | apply qmin_qmax_same].
Qed.

Lemma X10_witness :
  exists b,
    GeoJsonBatchProcessor.calculate_bounds sample_object = Ok b /\
    let rectangle := GeoJsonBatchProcessor.create_rectangle_geojson b "sample" in
    let corners := GeoJsonBatchProcessor.corners b in
    Walk.collect rectangle
    = Ok [VList (GeoJsonBatchProcessor.SW corners);
          VList (GeoJsonBatchProcessor.NW corners);
          VList (GeoJsonBatchProcessor.NE corners);
          VList (GeoJsonBatchProcessor.SE corners);
          VList (GeoJsonBatchProcessor.SW corners)] /\
    GeoJsonBatchProcessor._has_valid_coordinates rectangle = Ok true /\
    GeoJsonBatchProcessor.calculate_bounds rectangle = Ok b.
Proof.
  apply (X10_rectangle_round_trip sample_points sample_object "sample").
  - discriminate.
  - reflexivity.
Defined.

(** ** What validation guarantees *)

Section Validated.

Import GeoJsonBatchProcessor.



















End Validated.



(** ** The processing loop of the GeoJSON batch *)

Section GeoJsonProcessing.

Import GeoJsonBatchProcessor.

Lemma validate_all_valid fs files : forall valid st,
  fst (validate_all fs files valid st) = valid ++ valid_files fs files.
Proof.
  induction files as [|f r IH]; intros valid st.
  - simpl. now rewrite app_nil_r.
  - unfold valid_files. cbn [validate_all flat_map]. fold (valid_files fs r).
    destruct (validate_geojson_file fs f) as [[ok msg] data].
    destruct ok; rewrite IH; [|reflexivity].
    now rewrite <- app_assoc.
Qed.

Lemma valid_files_all fs files :
  invalid_files fs files = [] -> map fst (valid_files fs files) = files.
Proof.
  induction files as [|f r IH]; [reflexivity|].
  unfold invalid_files, valid_files. cbn [flat_map].
  fold (invalid_files fs r). fold (valid_files fs r).
  destruct (validate_geojson_file fs f) as [[ok msg] data].
  destruct ok; [|discriminate].
  cbn [app map fst]. intro H. now rewrite IH.
Qed.

Lemma process_all_spec files : forall st,
  let st' := process_all files st in
  success_files st' = success_files st ++ map fst (filter succeeded files) /\
  error_files st' = error_files st ++ failures files /\
  written st' = written st ++ outputs files /\
  processed_count st' = processed_count st + List.length (outputs files).
Proof.
  induction files as [|[f d] r IH]; intro st; cbn zeta.
  - simpl. rewrite !app_nil_r, Nat.add_0_r. repeat split.
  - cbn [process_all].
    destruct (calculate_bounds d) as [b|e] eqn:E.
    + assert (Hp : processed (f, d)
                   = inl (rectangle_name f,
                          create_rectangle_geojson b (fst (Path.splitext f))))
        by (unfold processed; cbn [fst snd]; now rewrite E).
      assert (Hs : succeeded (f, d) = true) by (unfold succeeded; now rewrite Hp).
      match goal with
      | |- context [process_all r ?s] => specialize (IH s)
      end.
      cbn zeta in IH. destruct IH as (H1 & H2 & H3 & H4).
      rewrite H1, H2, H3, H4.
      unfold outputs, failures. cbn [flat_map filter]. rewrite Hp, Hs.
      fold (outputs r). fold (failures r).
      cbn [success_files error_files written processed_count print console].
      rewrite <- ?app_assoc. cbn [app map fst List.length].
      repeat split. lia.
    + assert (Hp : processed (f, d) = inr (f, ProcessingError e))
        by (unfold processed; cbn [fst snd]; now rewrite E).
      assert (Hs : succeeded (f, d) = false) by (unfold succeeded; now rewrite Hp).
      match goal with
      | |- context [process_all r ?s] => specialize (IH s)
      end.
      cbn zeta in IH. destruct IH as (H1 & H2 & H3 & H4).
      rewrite H1, H2, H3, H4.
      unfold outputs, failures. cbn [flat_map filter]. rewrite Hp, Hs.
      fold (outputs r). fold (failures r).
      cbn [success_files error_files written processed_count print console].
      rewrite <- ?app_assoc. cbn [app map fst List.length].
      repeat split.
Qed.

Lemma outputs_failures_length files :
  List.length (outputs files) + List.length (failures files) = List.length files.
Proof.
  induction files as [|x r IH]; [reflexivity|].
  unfold outputs, failures. cbn [flat_map]. fold (outputs r). fold (failures r).
  destruct (processed x); cbn [app List.length]; lia.
Qed.

Lemma outputs_succeeded files :
  map fst (outputs files) = map rectangle_name (map fst (filter succeeded files)).
Proof.
  induction files as [|x r IH]; [reflexivity|].
  unfold outputs. cbn [flat_map filter]. fold (outputs r).
  unfold succeeded at 1.
  destruct (processed x) as [o|e] eqn:E; cbn [app map fst]; rewrite IH;
    [|reflexivity].
  f_equal. unfold processed in E.
  destruct (calculate_bounds (snd x)); [|discriminate].
  now injection E as <-.
Qed.

End GeoJsonProcessing.

Section GeoJsonProcessingRun.

Import GeoJsonBatchProcessor.

Lemma invalid_files_nil fs files :
  (forall f, In f files -> fst (fst (validate_geojson_file fs f)) = true) ->
  invalid_files fs files = [].
Proof.
  induction files as [|f r IH]; intro H; [reflexivity|].
  unfold invalid_files. cbn [flat_map]. fold (invalid_files fs r).
  pose proof (H f (or_introl eq_refl)) as Hf.
  destruct (validate_geojson_file fs f) as [[ok msg] data]. cbn [fst] in Hf.
  subst ok. cbn [app]. apply IH. intros g Hg. apply H. now right.
Qed.

Lemma process_directory_processing fs :
  geojson_files fs <> [] ->
  invalid_files fs (geojson_files fs) = [] ->
  let work := valid_files fs (geojson_files fs) in
  let run := process_directory fs init in
  fst run = Returned /\
  success_files (snd run) = map fst (filter succeeded work) /\
  error_files (snd run) = failures work /\
  written (snd run) = outputs work /\
  processed_count (snd run) = List.length (outputs work) /\
  exists before,
    console (snd run)
    = before ++ [Summary (List.length (outputs work))
                   (map fst (filter succeeded work)) (failures work)].
Proof.
  intros Hne Hgood. cbv zeta. unfold process_directory. fold (geojson_files fs).
  destruct (geojson_files fs) as [|g gs] eqn:Eg; [congruence|].
  rewrite <- Eg in *. clear Eg g gs.
  match goal with
  | |- context [validate_all fs ?l ?v ?s] =>
      pose proof (validate_all_spec fs l v s) as Hs;
      pose proof (validate_all_valid fs l v s) as Hv;
      destruct (validate_all fs l v s) as [valid st]
  end.
  cbn zeta in Hs. cbn [fst snd] in Hs, Hv.
  destruct Hs as (H1 & H2 & H3 & H4 & H5).
  cbn [print init console error_files written processed_count success_files app]
    in H1, H2, H3, H4, H5.
  rewrite Hgood in H2. rewrite H2. cbn [app] in Hv. subst valid.
  cbn [fst snd].
  destruct (process_all_spec (valid_files fs (geojson_files fs)) (print [AllValid] st))
    as (P1 & P2 & P3 & P4).
  cbn [print success_files error_files written processed_count] in P1, P2, P3, P4.
  rewrite H2, H3, H4, H5 in *. cbn [app Nat.add] in P1, P2, P3, P4.
  unfold print_summary.
  cbn [print success_files error_files written processed_count console].
  rewrite P1, P2, P3, P4.
  repeat split. eexists. reflexivity.
Qed.

End GeoJsonProcessingRun.

(** X12.  The processing loop of the GeoJSON batch goes on after a
    failure.  When every file of a non-empty batch passes validation,
    [process_directory] returns without exiting, whatever happens to the
    files afterwards.  Every file is then processed, in the order of the
    scan, on the data that validation returned, and ends in exactly one of
    the two lists: in [success_files] with its rectangle in the output, or
    in [error_files] with the exception that [calculate_bounds] raised; a
    file that fails neither stops the files after it nor takes back what
    was written before.  The counter, the number of successes and the
    number of files written agree, and the summary printed last shows the
    three accumulators. *)
Theorem X12_geojson_processing_goes_on (fs : list GeoJsonBatchProcessor.file) :
  let files := geojson_files fs in
  let work := valid_files fs files in
  let run := GeoJsonBatchProcessor.process_directory fs GeoJsonBatchProcessor.init in
  files <> [] ->
  (forall f, In f files ->
     fst (fst (GeoJsonBatchProcessor.validate_geojson_file fs f)) = true) ->
  fst run = GeoJsonBatchProcessor.Returned /\
  map fst work = files /\
  GeoJsonBatchProcessor.success_files (snd run) = map fst (filter succeeded work) /\
  GeoJsonBatchProcessor.error_files (snd run) = failures work /\
  GeoJsonBatchProcessor.written (snd run) = outputs work /\
  map fst (GeoJsonBatchProcessor.written (snd run))
  = map rectangle_name (GeoJsonBatchProcessor.success_files (snd run)) /\
  GeoJsonBatchProcessor.processed_count (snd run)
  = List.length (GeoJsonBatchProcessor.success_files (snd run)) /\
  List.length (GeoJsonBatchProcessor.success_files (snd run))
  + List.length (GeoJsonBatchProcessor.error_files (snd run))
  = List.length files /\
  exists before,
    GeoJsonBatchProcessor.console (snd run)
    = before
      ++ [GeoJsonBatchProcessor.Summary
            (GeoJsonBatchProcessor.processed_count (snd run))
            (GeoJsonBatchProcessor.success_files (snd run))
            (GeoJsonBatchProcessor.error_files (snd run))].
Proof.
  intros files work run Hne Hall. subst files work run.
  pose proof (invalid_files_nil fs _ Hall) as Hgood.
  destruct (process_directory_processing fs Hne Hgood)
    as (R1 & R2 & R3 & R4 & R5 & before & R6).
  pose proof (valid_files_all fs _ Hgood) as Hw.
  pose proof (outputs_succeeded (valid_files fs (geojson_files fs))) as Ho.
  pose proof (outputs_failures_length (valid_files fs (geojson_files fs))) as Hl.
  assert (Hlen : List.length (outputs (valid_files fs (geojson_files fs)))
                 = List.length (map fst (filter succeeded
                                           (valid_files fs (geojson_files fs))))).
  { rewrite <- (length_map fst (outputs _)), Ho. now rewrite length_map. }
  rewrite R2, R3, R4, R5.
  split; [exact R1|]. split; [exact Hw|].
  split; [reflexivity|]. split; [reflexivity|]. split; [reflexivity|].
  split; [exact Ho|]. split; [exact Hlen|].
  split.
  - rewrite <- Hlen, Hl. rewrite <- Hw at 2. now rewrite length_map.
  - exists before. rewrite R6. reflexivity.
Qed.

Lemma X12_witness :
  let run :=
    GeoJsonBatchProcessor.process_directory batch_with_short_point
      GeoJsonBatchProcessor.init in
  fst run = GeoJsonBatchProcessor.Returned /\
  GeoJsonBatchProcessor.success_files (snd run) = ["b.geojson"] /\
  GeoJsonBatchProcessor.error_files (snd run)
  = [("a.geojson", GeoJsonBatchProcessor.ProcessingError IndexError)] /\
  GeoJsonBatchProcessor.processed_count (snd run) = 1.
Proof.
  destruct (X12_geojson_processing_goes_on batch_with_short_point)
    as (H1 & _ & H3 & H4 & _ & _ & H7 & _).
  - discriminate.
  - intros f Hf. vm_compute in Hf.
    destruct Hf as [<-|[<-|[]]]; vm_compute; reflexivity.
  - cbv zeta. split; [exact H1|]. split; [rewrite H3; reflexivity|].
    split; [rewrite H4; reflexivity|]. rewrite H7, H3. reflexivity.
Defined.

(** ** The names found by the scan, and the names written *)

Section Names.

Import Path.

Lemma substring_split s : forall m,
  m <= String.length s ->
  s = (substring 0 m s ++ substring m (String.length s - m) s)%string.
Proof.
  induction s as [|c s IH]; intros m Hm.
  - destruct m; reflexivity.
  - destruct m as [|m]; simpl.
    + f_equal. clear. induction s as [|c s IH]; simpl; [reflexivity|].
      now rewrite <- IH.
    + f_equal. apply IH. simpl in Hm. lia.
Qed.

Lemma substring_suffix w rest :
  substring (String.length w) (String.length rest) (w ++ rest) = rest.
Proof.
  induction w as [|c w IH]; simpl; [|exact IH].
  induction rest as [|c r IH]; simpl; [reflexivity|]. now rewrite IH.
Qed.

Lemma ends_with_split ext name :
  ends_with ext name = true -> exists root, name = (root ++ ext)%string.
Proof.
  unfold ends_with. intro H. apply andb_true_iff in H as [Hle He].
  apply Nat.leb_le in Hle. apply String.eqb_eq in He.
  exists (substring 0 (String.length name - String.length ext) name).
  pose proof (substring_split name (String.length name - String.length ext)) as H.
  replace (String.length name - (String.length name - String.length ext))
    with (String.length ext) in H by lia.
  rewrite He in H. apply H. lia.
Qed.

Lemma rfind_dot_append a : forall b i found,
  rfind_dot (a ++ b) i found = rfind_dot b (i + String.length a) (rfind_dot a i found).
Proof.
  induction a as [|c a IH]; intros b i found; simpl.
  - now rewrite Nat.add_0_r.
  - rewrite IH. now rewrite Nat.add_succ_r.
Qed.

Lemma rfind_dot_extension root ext :
  In ext scanned_extensions ->
  rfind_dot (root ++ ext) 0 None = Some (String.length root).
Proof.
  intro H. rewrite rfind_dot_append. simpl in H.
  destruct H as [<-|[<-|[<-|[<-|[<-|[]]]]]]; reflexivity.
Qed.

Lemma extension_length ext :
  In ext scanned_extensions -> 2 <= String.length ext.
Proof.
  simpl. intros [<-|[<-|[<-|[<-|[<-|[]]]]]]; simpl; lia.
Qed.

Lemma not_hidden_not_all_dots root :
  root <> "" -> hidden root = false -> all_dots root = false.
Proof.
  destruct root as [|c r]; [congruence|]. intros _. simpl.
  destruct (Ascii.eqb_spec c "."%char) as [->|Hc]; [discriminate|reflexivity].
Qed.

Lemma hidden_append root ext :
  root <> "" -> hidden (root ++ ext) = hidden root.
Proof. destruct root; [congruence|reflexivity]. Qed.

(** A name made of a visible root and a scanned extension is cut between
    the two, by [pathlib] and by [os.path.splitext]. *)
Lemma cut_at_extension root ext :
  In ext scanned_extensions -> root <> "" -> hidden root = false ->
  stem_suffix (root ++ ext) = (root, ext) /\ splitext (root ++ ext) = (root, ext).
Proof.
  intros Hext Hne Hvis.
  pose proof (extension_length ext Hext) as Hlen.
  assert (Hroot : 0 < String.length root) by (destruct root; simpl; [congruence|lia]).
  unfold stem_suffix, splitext. rewrite (rfind_dot_extension root ext Hext).
  rewrite length_append, substring_prefix.
  replace (String.length root + String.length ext - String.length root)
    with (String.length ext) by lia.
  rewrite substring_suffix.
  rewrite (not_hidden_not_all_dots root Hne Hvis).
  assert (E1 : Nat.ltb 0 (String.length root) = true) by now apply Nat.ltb_lt.
  assert (E2 : Nat.ltb (String.length root)
                 (String.length root + String.length ext - 1) = true)
    by (apply Nat.ltb_lt; lia).
  rewrite E1, E2. split; reflexivity.
Qed.

(** What the scan finds: names of the directory made of a visible,
    non-empty root and the extension scanned for. *)
Lemma glob_names names ext name :
  In ext scanned_extensions -> In name (glob names ext) ->
  In name names /\
  exists root,
    name = (root ++ ext)%string /\ root <> "" /\ hidden root = false.
Proof.
  intros Hext Hin. unfold glob in Hin. apply filter_In in Hin as [Hin H].
  apply andb_true_iff in H as [Hvis Hend]. apply negb_true_iff in Hvis.
  split; [assumption|].
  destruct (ends_with_split ext name Hend) as (root & ->).
  exists root. split; [reflexivity|].
  assert (Hne : root <> "").
  { intros ->. simpl in Hvis, Hext.
    destruct Hext as [<-|[<-|[<-|[<-|[<-|[]]]]]]; discriminate. }
  split; [assumption|]. now rewrite <- (hidden_append root ext Hne).
Qed.


Lemma existsb_eqb_In_iff (x : string) (l : list string) :
  In x l -> existsb (String.eqb x) l = true.
Proof.
  intro H. apply existsb_exists. exists x. split; [assumption|].
  apply String.eqb_refl.
Qed.

Lemma geojson_find_file_In fs name :
  In name (map GeoJsonBatchProcessor.file_name fs) ->
  exists f, GeoJsonBatchProcessor.find_file fs name = Some f.
Proof.
  induction fs as [|f r IH]; simpl; [tauto|].
  destruct (String.eqb_spec (GeoJsonBatchProcessor.file_name f) name) as [_|Hn].
  - eauto.
  - intros [H|H]; [congruence|]. now apply IH.
Qed.

Lemma excel_find_file_In fs name :
  In name (map GeometryProcessor.file_name fs) ->
  exists f, GeometryProcessor.find_file fs name = Some f.
Proof.
  induction fs as [|f r IH]; simpl; [tauto|].
  destruct (String.eqb_spec (GeometryProcessor.file_name f) name) as [_|Hn].
  - eauto.
  - intros [H|H]; [congruence|]. now apply IH.
Qed.

Lemma geojson_files_scanned fs name :
  In name (geojson_files fs) ->
  exists ext, In ext GeoJsonBatchProcessor.supported_formats /\
    In name (glob (map GeoJsonBatchProcessor.file_name fs) ext).
Proof.
  unfold geojson_files. intro H. apply in_flat_map in H as (ext & H1 & H2). eauto.
Qed.

Lemma excel_files_scanned fs name :
  In name (excel_files fs) ->
  exists ext, In ext GeometryProcessor.supported_excel_formats /\
    In name (glob (map GeometryProcessor.file_name fs) ext).
Proof.
  unfold excel_files. intro H. apply in_flat_map in H as (ext & H1 & H2). eauto.
Qed.

Lemma append_cancel_r (a b c : string) :
  (a ++ c)%string = (b ++ c)%string -> a = b.
Proof.
  revert b. induction a as [|x a IH]; intros [|y b] H; simpl in H.
  - reflexivity.
  - exfalso. apply (f_equal String.length) in H. simpl in H.
    rewrite length_append in H. lia.
  - exfalso. apply (f_equal String.length) in H. simpl in H.
    rewrite length_append in H. lia.
  - injection H as -> H. f_equal. now apply IH.
Qed.

End Names.

Section ScannedNames.

Import Path.

Lemma ends_with_append a ext : ends_with ext (a ++ ext) = true.
Proof.
  unfold ends_with. rewrite length_append.
  replace (String.length a + String.length ext - String.length ext)
    with (String.length a) by lia.
  rewrite substring_suffix, String.eqb_refl.
  apply andb_true_iff. split; [apply Nat.leb_le; lia|reflexivity].
Qed.

Lemma glob_single a ext :
  a <> "" -> hidden a = false -> glob [(a ++ ext)%string] ext = [(a ++ ext)%string].
Proof.
  intros Hne Hvis. unfold glob. cbn [filter].
  now rewrite (hidden_append a ext Hne), Hvis, ends_with_append.
Qed.

Lemma geojson_scanned_shape fs f :
  In f (geojson_files fs) ->
  exists root ext file,
    f = (root ++ ext)%string /\ In ext GeoJsonBatchProcessor.supported_formats /\
    root <> "" /\ hidden root = false /\
    stem_suffix f = (root, ext) /\ splitext f = (root, ext) /\
    GeoJsonBatchProcessor.find_file fs f = Some file.
Proof.
  intro H. destruct (geojson_files_scanned fs f H) as (ext & Hext & Hg).
  assert (Hs : In ext scanned_extensions) by (apply in_or_app; now left).
  destruct (glob_names _ ext f Hs Hg) as (Hin & root & -> & Hne & Hvis).
  destruct (cut_at_extension root ext Hs Hne Hvis) as [C1 C2].
  destruct (geojson_find_file_In fs _ Hin) as (file & Hf).
  exists root, ext, file. repeat split; assumption.
Qed.

Lemma excel_scanned_shape fs f :
  In f (excel_files fs) ->
  exists root ext file,
    f = (root ++ ext)%string /\ In ext GeometryProcessor.supported_excel_formats /\
    root <> "" /\ hidden root = false /\
    stem_suffix f = (root, ext) /\ splitext f = (root, ext) /\
    GeometryProcessor.find_file fs f = Some file.
Proof.
  intro H. destruct (excel_files_scanned fs f H) as (ext & Hext & Hg).
  assert (Hs : In ext scanned_extensions) by (apply in_or_app; now right).
  destruct (glob_names _ ext f Hs Hg) as (Hin & root & -> & Hne & Hvis).
  destruct (cut_at_extension root ext Hs Hne Hvis) as [C1 C2].
  destruct (excel_find_file_In fs _ Hin) as (file & Hf).
  exists root, ext, file. repeat split; assumption.
Qed.

Lemma append_nonempty (a b : string) : a <> "" -> (a ++ b)%string <> "".
Proof. destruct a; [congruence|discriminate]. Qed.

End ScannedNames.



(** X14.  The names of the files written.  For a file found by the scan,
    the tabular script writes [root_with_bounds.ext] and the GeoJSON script
    writes the root, the fixed suffix and [.geojson], where the name
    scanned is the root followed by the extension.  The name written
    differs from the name read, so no input is overwritten even when the
    output directory is the input directory; but it carries a scanned
    extension itself, so a second run over that directory takes the
    outputs of the first for inputs.  In tabular mode two files of a batch
    never share their output name.  In GeoJSON mode they can: [root.json]
    and [root.geojson] are written to the same file. *)
Theorem X14_output_names
  (geojson_dir : list GeoJsonBatchProcessor.file)
  (excel_dir : list GeometryProcessor.file) (f : string) :
  (In f (excel_files excel_dir) ->
   output_name f <> f /\
   (exists ext, In ext GeometryProcessor.supported_excel_formats /\
      Path.glob [output_name f] ext = [output_name f]) /\
   forall g, In g (excel_files excel_dir) -> output_name g = output_name f -> g = f) /\
  (In f (geojson_files geojson_dir) ->
   rectangle_name f <> f /\
   Path.glob [rectangle_name f] ".geojson" = [rectangle_name f]) /\
  (forall root, root <> "" -> Path.hidden root = false ->
   rectangle_name (root ++ ".json") = rectangle_name (root ++ ".geojson")).
Proof.
  split; [|split].
  - intro H.
    destruct (excel_scanned_shape _ f H)
      as (root & ext & file & -> & Hext & Hne & Hvis & Hcut & _ & _).
    assert (Hout : output_name (root ++ ext)
                   = ((root ++ "_with_bounds") ++ ext)%string).
    { unfold output_name, Path.stem, Path.suffix. rewrite Hcut. cbn [fst snd].
      now rewrite append_assoc. }
    rewrite Hout. split; [|split].
    + intro E. apply append_cancel_r in E.
      apply (f_equal String.length) in E. rewrite length_append in E.
      simpl in E. lia.
    + exists ext. split; [assumption|].
      apply glob_single.
      * now apply append_nonempty.
      * now rewrite (hidden_append root _ Hne).
    + intros g Hg.
      destruct (excel_scanned_shape _ g Hg)
        as (root' & ext' & file' & -> & Hext' & Hne' & Hvis' & Hcut' & _ & _).
      unfold output_name at 1, Path.stem, Path.suffix. rewrite Hcut'. cbn [fst snd].
      rewrite <- append_assoc. intro E.
      assert (Hs : forall e, In e GeometryProcessor.supported_excel_formats ->
                     In e scanned_extensions)
        by (intros e He; apply in_or_app; now right).
      assert (C : forall r e, r <> "" -> Path.hidden r = false ->
                    In e GeometryProcessor.supported_excel_formats ->
                    Path.stem_suffix ((r ++ "_with_bounds") ++ e)
                    = ((r ++ "_with_bounds")%string, e)).
      { intros r e Hr Hv He. apply cut_at_extension.
        - now apply Hs.
        - now apply append_nonempty.
        - now rewrite (hidden_append r _ Hr). }
      pose proof (C root' ext' Hne' Hvis' Hext') as C1.
      pose proof (C root ext Hne Hvis Hext) as C2.
      rewrite E in C1. rewrite C1 in C2. injection C2 as E1 E2.
      apply append_cancel_r in E1. now subst.
  - intro H.
    destruct (geojson_scanned_shape _ f H)
      as (root & ext & file & -> & Hext & Hne & Hvis & _ & Hcut & _).
    assert (Hout : rectangle_name (root ++ ext)
                   = ((root ++ GeoJsonBatchProcessor.name_suffix) ++ ".geojson")%string).
    { unfold rectangle_name. rewrite Hcut. cbn [fst].
      now rewrite append_assoc. }
    rewrite Hout. split.
    + intro E. apply (f_equal String.length) in E.
      rewrite !length_append in E.
      simpl in Hext. destruct Hext as [<-|[<-|[]]]; simpl in E; lia.
    + apply glob_single.
      * now apply append_nonempty.
      * now rewrite (hidden_append root _ Hne).
  - intros root Hne Hvis. unfold rectangle_name.
    destruct (cut_at_extension root ".json") as [_ ->]; try assumption;
      [simpl; tauto|].
    destruct (cut_at_extension root ".geojson") as [_ ->]; try assumption;
      [simpl; tauto|].
    reflexivity.
Qed.

Lemma X14_witness :
  (output_name "b.csv" <> "b.csv" /\
   forall g, In g (excel_files batch_with_missing_column) ->
     output_name g = output_name "b.csv" -> g = "b.csv") /\
  rectangle_name "a.json" <> "a.json" /\
  rectangle_name "a.json" = rectangle_name "a.geojson".
Proof.
  destruct (X14_output_names directory_with_twins batch_with_missing_column "b.csv")
    as (H1 & _ & _).
  destruct (X14_output_names directory_with_twins batch_with_missing_column "a.json")
    as (_ & H2 & H3).
  split; [|split].
  - destruct H1 as (A & _ & B); [vm_compute; tauto|]. split; assumption.
  - destruct H2 as (A & _); [vm_compute; tauto|]. exact A.
  - apply (H3 "a"); [discriminate|reflexivity].
Defined.

(** ** Where the recognisers overlap *)

Section Recognisers.

Import Re GeometryProcessor.

Lemma lstrip_stops s : stops is_space (lstrip s).
Proof.
  induction s as [|c s IH]; simpl; [exact I|].
  destruct (is_space c) eqn:E; [exact IH|exact E].
Qed.

Lemma rstrip_head c r :
  is_space c = false -> exists r', rstrip (String c r) = String c r'.
Proof.
  intro H. simpl. destruct (rstrip r); [rewrite H|]; eauto.
Qed.

Lemma strip_head s c r : lstrip s = String c r -> exists r', strip s = String c r'.
Proof.
  intro H. unfold strip. rewrite H. apply rstrip_head.
  pose proof (lstrip_stops s) as Hs. rewrite H in Hs. exact Hs.
Qed.

Lemma lstrip_strip s : lstrip (strip s) = strip s.
Proof.
  destruct (lstrip s) as [|c r] eqn:E.
  - unfold strip. rewrite E. reflexivity.
  - destruct (strip_head s c r E) as (r' & ->). simpl.
    pose proof (lstrip_stops s) as Hs. rewrite E in Hs. simpl in Hs.
    now rewrite Hs.
Qed.

(** A blank that JSON does not count as white space ends the decoding. *)
Lemma idle_step_blank c out :
  is_space c = true -> Json.is_json_ws c = false -> Json.idle_step c out = None.
Proof. by_cases c. Qed.

Lemma json_ws_is_space c : Json.is_json_ws c = true -> is_space c = true.
Proof. by_cases c. Qed.

Lemma idle_step_ws c out :
  Json.is_json_ws c = true -> Json.idle_step c out = Some (Json.LIdle, out).
Proof. intro H. unfold Json.idle_step. now rewrite H. Qed.

(** The decoder fails on a text whose first character after the blanks
    fails in the idle mode. *)
Lemma lex_first_char s : forall out c r,
  lstrip s = String c r ->
  (forall out', Json.lex Json.LIdle out' (String c r) = None) ->
  Json.lex Json.LIdle out s = None.
Proof.
  induction s as [|a s IH]; intros out c r Hs Hc; [discriminate|].
  simpl in Hs. destruct (is_space a) eqn:Ea.
  - cbn [Json.lex Json.lex_step].
    destruct (Json.is_json_ws a) eqn:Ew.
    + rewrite (idle_step_ws a out Ew). eapply IH; eassumption.
    + now rewrite (idle_step_blank a out Ea Ew).
  - rewrite Hs. apply Hc.
Qed.

Lemma loads_first_char s c r :
  lstrip s = String c r ->
  (forall out', Json.lex Json.LIdle out' (String c r) = None) ->
  Json.loads s = None.
Proof.
  intros Hs Hc. unfold Json.loads. now rewrite (lex_first_char s [] c r Hs Hc).
Qed.

Lemma rev_string_append s : forall acc,
  Json.rev_string acc s = (Json.rev_string "" s ++ acc)%string.
Proof.
  induction s as [|c s IH]; intro acc; simpl; [reflexivity|].
  rewrite (IH (String c acc)), (IH (String c "")).
  now rewrite append_assoc.
Qed.

(** No atom of JSON starts with the initial of a WKT keyword. *)
Lemma atom_value_keyword c m :
  keyword_initial c = true -> Json.atom_value (String c m) = None.
Proof. by_cases c. Qed.

Lemma lex_atom_keyword c s : forall acc out m,
  keyword_initial c = true ->
  Json.rev_string "" acc = String c m ->
  Json.lex (Json.LAtom acc) out s = None.
Proof.
  induction s as [|a s IH]; intros acc out m Hc Hacc.
  - simpl. now rewrite Hacc, (atom_value_keyword c m Hc).
  - cbn [Json.lex Json.lex_step].
    destruct (Json.is_atom_char a).
    + apply (IH _ _ (m ++ String a "")%string Hc).
      simpl. rewrite rev_string_append, Hacc. reflexivity.
    + now rewrite Hacc, (atom_value_keyword c m Hc).
Qed.

Lemma keyword_initial_atom c : keyword_initial c = true -> Json.idle_step c = fun out => Some (Json.LAtom (String c ""), out).
Proof. by_cases c. Qed.

Lemma loads_keyword s c r :
  lstrip s = String c r -> keyword_initial c = true -> Json.loads s = None.
Proof.
  intros Hs Hc. apply (loads_first_char s c r Hs). intro out.
  cbn [Json.lex Json.lex_step]. rewrite (keyword_initial_atom c Hc).
  apply (lex_atom_keyword c r _ _ "" Hc). reflexivity.
Qed.

Lemma loads_parenthesis s r : lstrip s = String "(" r -> Json.loads s = None.
Proof.
  intros Hs. apply (loads_first_char s _ r Hs). intro out. reflexivity.
Qed.

(** A text that matches a WKT pattern starts, after its blanks, with the
    initial of a keyword. *)
Lemma is_wkt_initial s :
  _is_wkt s = true -> exists c r, lstrip s = String c r /\ keyword_initial c = true.
Proof.
  unfold _is_wkt. intro H.
  destruct (lstrip s) as [|c r] eqn:E.
  - unfold strip in H. rewrite !E in H. simpl in H. discriminate.
  - exists c, r. split; [reflexivity|].
    destruct (strip_head s c r E) as (r1 & E1).
    assert (Hc : is_space c = false).
    { pose proof (lstrip_stops s) as Hs. now rewrite E in Hs. }
    rewrite E1 in H. cbn [collapse_blanks] in H. rewrite Hc in H.
    cbn [upper map_string] in H.
    destruct (keyword_initial c) eqn:Ek; [reflexivity|]. exfalso.
    revert H Ek. generalize (map_string upper_char (collapse_blanks false r1)).
    intros t H Ek.
    assert (Hu : Ascii.eqb "P" (upper_char c) = false /\
                 Ascii.eqb "L" (upper_char c) = false /\
                 Ascii.eqb "M" (upper_char c) = false).
    { unfold keyword_initial in Ek.
      apply orb_false_iff in Ek as [Ek E3'].
      apply orb_false_iff in Ek as [E1' E2'].
      rewrite !(Ascii.eqb_sym _ (upper_char c)). now repeat split. }
    destruct Hu as (U1 & U2 & U3).
    unfold wkt_patterns, wkt_pattern, matches in H.
    cbn [map existsb seq lit rests flat_map] in H.
    rewrite U1, U2, U3 in H. cbn [flat_map existsb orb] in H. discriminate.
Qed.

Lemma is_wkt_not_json s : _is_wkt s = true -> Json.loads s = None.
Proof.
  intro H. destruct (is_wkt_initial s H) as (c & r & E & Hc).
  exact (loads_keyword s c r E Hc).
Qed.

(** A text that matches the pattern of a pair starts, after its blanks,
    with the opening character. *)
Lemma pair_pattern_opening opening closing s :
  is_space opening = false ->
  matches (pair_pattern opening closing) s = true ->
  exists r, lstrip s = String opening r.
Proof.
  intros Hopen Hm.
  destruct (matches_lang _ _ Hm) as (w & rest & -> & Hw & _).
  unfold pair_pattern in Hw. cbn [lang seq] in Hw.
  destruct Hw as (w1 & w' & -> & Hw1 & o & w'' & -> & -> & _).
  rewrite !append_assoc. cbn [append].
  generalize ((w'' ++ rest)%string). intro t. clear Hm.
  induction w1 as [|c w1 IH]; simpl.
  - rewrite Hopen. eauto.
  - simpl in Hw1. apply andb_true_iff in Hw1 as [Hc Hw1]. rewrite Hc. now apply IH.
Qed.

Lemma is_wkt_opening s c r :
  lstrip s = String c r -> keyword_initial c = false -> _is_wkt s = false.
Proof.
  intros E Hc. destruct (_is_wkt s) eqn:H; [|reflexivity].
  destruct (is_wkt_initial s H) as (c' & r' & E' & Hc').
  rewrite E in E'. injection E' as <- <-. congruence.
Qed.

End Recognisers.

(** X15.  Where the five recognisers of [detect_geometry_format] overlap,
    and where they cannot.  A text accepted as WKT is never valid JSON, so
    it is neither GeoJSON nor JSON, and it is neither a coordinate pair nor
    a coordinate array.  A text accepted as a coordinate pair is not valid
    JSON, not WKT and not a coordinate array.  A coordinate array is never
    WKT.  A text accepted as GeoJSON is always JSON as well.  So the order
    of the tests decides the format in two places only: between GeoJSON
    and JSON, and between JSON and the coordinate array. *)
Theorem X15_recognisers_overlap (s : string) :
  (GeometryProcessor._is_wkt s = true ->
   GeometryProcessor._is_geojson s = false /\
   GeometryProcessor._is_json s = false /\
   GeometryProcessor._is_coordinate_pair s = false /\
   GeometryProcessor._is_coordinate_array s = false) /\
  (GeometryProcessor._is_coordinate_pair s = true ->
   GeometryProcessor._is_geojson s = false /\
   GeometryProcessor._is_wkt s = false /\
   GeometryProcessor._is_json s = false /\
   GeometryProcessor._is_coordinate_array s = false) /\
  (GeometryProcessor._is_coordinate_array s = true ->
   GeometryProcessor._is_wkt s = false) /\
  (GeometryProcessor._is_geojson s = true ->
   GeometryProcessor._is_json s = true).
Proof.
  assert (Hpair : GeometryProcessor._is_coordinate_pair s = true ->
                  exists r, lstrip s = String "(" r)
    by (apply pair_pattern_opening; reflexivity).
  assert (Harr : GeometryProcessor._is_coordinate_array s = true ->
                 exists r, lstrip s = String "[" r)
    by (apply pair_pattern_opening; reflexivity).
  split; [|split; [|split]].
  - intro H. pose proof (is_wkt_not_json s H) as Hj.
    destruct (is_wkt_initial s H) as (c & r & E & Hc).
    unfold GeometryProcessor._is_geojson, GeometryProcessor._is_json. rewrite Hj.
    split; [reflexivity|]. split; [reflexivity|]. split.
    + destruct (GeometryProcessor._is_coordinate_pair s); [|reflexivity].
      destruct (Hpair eq_refl) as (r' & E'). rewrite E in E'.
      injection E' as -> _. discriminate.
    + destruct (GeometryProcessor._is_coordinate_array s); [|reflexivity].
      destruct (Harr eq_refl) as (r' & E'). rewrite E in E'.
      injection E' as -> _. discriminate.
  - intro H. destruct (Hpair H) as (r & E).
    pose proof (loads_parenthesis s r E) as Hj.
    unfold GeometryProcessor._is_geojson, GeometryProcessor._is_json. rewrite Hj.
    split; [reflexivity|]. split; [|split; [reflexivity|]].
    + apply (is_wkt_opening s _ r E). reflexivity.
    + destruct (GeometryProcessor._is_coordinate_array s); [|reflexivity].
      destruct (Harr eq_refl) as (r' & E'). rewrite E in E'. discriminate.
  - intro H. destruct (Harr H) as (r & E).
    apply (is_wkt_opening s _ r E). reflexivity.
  - unfold GeometryProcessor._is_geojson, GeometryProcessor._is_json.
    destruct (Json.loads s); [reflexivity|discriminate].
Qed.

Lemma X15_witness :
  GeometryProcessor._is_geojson scenario_B = false /\
  GeometryProcessor._is_json scenario_B = false /\
  GeometryProcessor._is_coordinate_pair scenario_B = false /\
  GeometryProcessor._is_coordinate_array scenario_B = false.
Proof.
  destruct (X15_recognisers_overlap scenario_B) as (H & _).
  apply H. vm_compute. reflexivity.
Defined.

(** ** What becomes of a cell *)

Section Cells.

Import Re GeometryProcessor.





Lemma process_row_parsed field r s tag l :
  row_getitem (cells r) field = Ok (Some s) ->
  detect_geometry_format (Some s) = Ok (tag, coordinates_dict l) ->
  tag <> "empty" -> tag <> "unknown" ->
  process_row field r
  = match calculate_bounds (VList l) with
    | Ok b => Updated b
    | Raise _ => Failed
    end.
Proof.
  intros Hcell Hd H1 H2. unfold process_row. rewrite Hcell. cbn [bind].
  rewrite Hd. cbn [bind].
  apply String.eqb_neq in H1, H2. rewrite H1, H2.
  unfold coordinates_dict. cbn [py_get dict_lookup String.eqb Ascii.eqb Bool.eqb bind].
  destruct l as [|p l']; [reflexivity|].
  cbn [py_truthy negb]. destruct (calculate_bounds (VList (p :: l'))); reflexivity.
Qed.

Lemma json_array_detected s l :
  s <> "" -> Json.loads (strip s) = Some (VList l) ->
  detect_geometry_format (Some s) = Ok ("json", coordinates_dict l).
Proof.
  intros Hne Hl. rewrite (detect_cases s Hne). cbv zeta.
  unfold _is_geojson. rewrite Hl.
  destruct (_is_wkt (strip s)) eqn:Ew.
  { rewrite (is_wkt_not_json _ Ew) in Hl. discriminate. }
  unfold _is_json, _parse_json. rewrite Hl. reflexivity.
Qed.

End Cells.



(** X17.  A cell that holds a JSON array.  When the text of the cell,
    without the blanks around it, decodes to an array, the format detected
    is [json] and the array itself is taken for the list of points,
    without any walk.  The row is updated exactly when [calculate_bounds]
    succeeds on the array.  An array of points gives the bounds of the
    points.  An array that starts with a number, the coordinate array
    [[lon, lat]] included, always makes a row error: its items are numbers
    where points are expected. *)
Theorem X17_json_array_row (geometry_field_name : string)
  (r : GeometryProcessor.row) (s : string) (l : list value) :
  GeometryProcessor.row_getitem (GeometryProcessor.cells r) geometry_field_name
    = Ok (Some s) ->
  s <> "" ->
  Json.loads (strip s) = Some (VList l) ->
  GeometryProcessor.detect_geometry_format (Some s)
  = Ok ("json", coordinates_dict l) /\
  GeometryProcessor.process_row geometry_field_name r
  = match GeometryProcessor.calculate_bounds (VList l) with
    | Ok b => GeometryProcessor.Updated b
    | Raise _ => GeometryProcessor.Failed
    end /\
  (forall p P, l = map point (p :: P) ->
     GeometryProcessor.process_row geometry_field_name r
     = GeometryProcessor.Updated
         (excel_bounds (min_lon_of p P) (max_lon_of p P)
                       (min_lat_of p P) (max_lat_of p P))) /\
  (forall x others, l = x :: others -> is_number x = true ->
     GeometryProcessor.process_row geometry_field_name r = GeometryProcessor.Failed) /\
  (l = [] ->
     GeometryProcessor.process_row geometry_field_name r = GeometryProcessor.Failed).
Proof.
  intros Hcell Hne Hl.
  pose proof (json_array_detected s l Hne Hl) as Hd.
  pose proof (process_row_parsed _ r s _ _ Hcell Hd) as Hr.
  rewrite Hr by discriminate.
  split; [exact Hd|]. split; [reflexivity|]. split; [|split].
  - intros p P ->. now rewrite excel_calculate_bounds_points.
  - intros x others -> Hx.
    unfold GeometryProcessor.calculate_bounds.
    cbn [py_truthy negb py_iter bind mapM].
    destruct x as [| b | n | | |]; try discriminate; reflexivity.
  - intros ->. reflexivity.
Qed.

Lemma X17_witness :
  GeometryProcessor.detect_geometry_format (Some "[[1,2],[3,4]]")
  = Ok ("json", coordinates_dict [VList [VInt 1; VInt 2]; VList [VInt 3; VInt 4]]) /\
  GeometryProcessor.process_row "geom" array_row
  = GeometryProcessor.Updated (excel_bounds (1 # 1) (3 # 1) (2 # 1) (4 # 1)).
Proof.
  destruct (X17_json_array_row "geom" array_row "[[1,2],[3,4]]"
              [VList [VInt 1; VInt 2]; VList [VInt 3; VInt 4]])
    as (Hd & _ & Hp & _).
  - reflexivity.
  - discriminate.
  - vm_compute. reflexivity.
  - split; [exact Hd|].
    apply (Hp (1 # 1, 2 # 1)%Q [(3 # 1, 4 # 1)%Q]). reflexivity.
Defined.

(** ** The rows of the table written *)

Section Table.

Import GeometryProcessor.

Lemma py_add_numeric_both a b v :
  py_add a b = Ok v -> is_number a = true /\ is_number b = true.
Proof.
  unfold py_add.
  destruct a as [| [] | | | |], b as [| [] | | | |]; simpl;
    try discriminate; intros _; split; reflexivity.
Qed.

(** The bounds that [calculate_bounds] returns are numbers. *)
Lemma calculate_bounds_numeric coordinates b :
  calculate_bounds coordinates = Ok b ->
  is_number (top_left_longitude b) = true /\
  is_number (top_left_latitude b) = true /\
  is_number (bottom_left_longitude b) = true /\
  is_number (bottom_left_latitude b) = true /\
  is_number (top_right_longitude b) = true /\
  is_number (top_right_latitude b) = true /\
  is_number (bottom_right_longitude b) = true /\
  is_number (bottom_right_latitude b) = true.
Proof.
  unfold calculate_bounds.
  destruct (negb (py_truthy coordinates)); [discriminate|].
  destruct (py_iter coordinates) as [items|]; [|discriminate]. cbn [bind].
  destruct (mapM (fun coord => py_getitem coord 0) items) as [lons|]; [|discriminate].
  cbn [bind].
  destruct (mapM (fun coord => py_getitem coord 1) items) as [lats|]; [|discriminate].
  cbn [bind].
  destruct (py_min lons) as [mnx|]; [|discriminate]. cbn [bind].
  destruct (py_max lons) as [mxx|]; [|discriminate]. cbn [bind].
  destruct (py_min lats) as [mny|]; [|discriminate]. cbn [bind].
  destruct (py_max lats) as [mxy|]; [|discriminate]. cbn [bind].
  destruct (py_add mnx mxx) as [sx|] eqn:E1; [|discriminate]. cbn [bind].
  destruct (py_half sx) as [cx|]; [|discriminate]. cbn [bind].
  destruct (py_add mny mxy) as [sy|] eqn:E2; [|discriminate]. cbn [bind].
  destruct (py_half sy) as [cy|]; [|discriminate]. cbn [bind].
  destruct (py_sub mxx mnx) as [w|]; [|discriminate]. cbn [bind].
  destruct (py_sub mxy mny) as [h|]; [|discriminate]. cbn [bind].
  intro H. injection H as <-. cbn.
  destruct (py_add_numeric_both _ _ _ E1) as [A1 A2].
  destruct (py_add_numeric_both _ _ _ E2) as [A3 A4].
  repeat split; assumption.
Qed.

Lemma process_row_updated field r b :
  process_row field r = Updated b ->
  exists coordinates, calculate_bounds coordinates = Ok b.
Proof.
  unfold process_row.
  destruct (row_getitem (cells r) field) as [c|]; [|discriminate]. cbn [bind].
  destruct (detect_geometry_format c) as [[tag d]|]; [|discriminate]. cbn [bind].
  destruct (String.eqb tag "empty"); [discriminate|].
  destruct (String.eqb tag "unknown"); [discriminate|].
  destruct (py_get d "coordinates" (VList [])) as [coordinates|]; [|discriminate].
  cbn [bind].
  destruct (negb (py_truthy coordinates)); [discriminate|].
  destruct (calculate_bounds coordinates) as [b'|] eqn:E; [|discriminate].
  cbn [bind]. intro H. injection H as <-. eauto.
Qed.

Lemma set_bounds_filled r b coordinates :
  calculate_bounds coordinates = Ok b -> filled (set_bounds r b).
Proof.
  intro H. destruct (calculate_bounds_numeric _ _ H)
    as (H1 & H2 & H3 & H4 & H5 & H6 & H7 & H8).
  split; [reflexivity|]. cbn [set_bounds appended].
  repeat constructor; assumption.
Qed.

(** The format name of a non-empty text is never [empty]. *)
Lemma detect_not_empty s tag d :
  s <> "" -> detect_geometry_format (Some s) = Ok (tag, d) -> tag <> "empty".
Proof.
  intros Hne. rewrite (detect_cases s Hne). cbv zeta.
  repeat match goal with
         | |- context [if ?c then _ else _] => destruct c
         end;
    try match goal with
        | |- context [bind ?m _] => destruct m; cbn [bind]
        end;
    intro H; try discriminate; injection H as <- _; discriminate.
Qed.

Lemma process_row_skipped field r c :
  row_getitem (cells r) field = Ok c ->
  (process_row field r = Skipped <-> c = None \/ c = Some "").
Proof.
  intro Hcell. unfold process_row. rewrite Hcell. cbn [bind]. split.
  - destruct c as [s|]; [|now left].
    destruct (String.eqb_spec s "") as [->|Hne]; [now right|].
    intro H. exfalso.
    destruct (detect_geometry_format (Some s)) as [[tag d]|] eqn:Ed;
      [|discriminate].
    cbn [bind] in H.
    pose proof (detect_not_empty s tag d Hne Ed) as Ht.
    apply String.eqb_neq in Ht. rewrite Ht in H.
    destruct (String.eqb tag "unknown"); [discriminate|].
    destruct (py_get d "coordinates" (VList [])) as [coordinates|]; [|discriminate].
    cbn [bind] in H.
    destruct (negb (py_truthy coordinates)); [discriminate|].
    destruct (calculate_bounds coordinates); discriminate.
  - intros [->| ->]; reflexivity.
Qed.

Lemma process_rows_spec field rs : forall n,
  process_rows field rs n
  = (map (processed_row field) rs,
     {| processed_rows := processed_rows n + List.length (filter (is_updated field) rs);
        error_rows := error_rows n + List.length (filter (is_failed field) rs) |}).
Proof.
  induction rs as [|r rest IH]; intro n.
  - simpl. rewrite !Nat.add_0_r. now destruct n.
  - cbn [process_rows map filter].
    unfold processed_row at 1, is_updated at 1, is_failed at 1.
    destruct (process_row field r); rewrite IH; cbn [processed_rows error_rows List.length];
      f_equal; f_equal; lia.
Qed.

Lemma outcome_partition field rs :
  List.length (filter (is_updated field) rs)
  + List.length (filter (is_failed field) rs)
  + List.length (filter (is_skipped field) rs)
  = List.length rs.
Proof.
  induction rs as [|r rest IH]; [reflexivity|].
  cbn [filter]. unfold is_updated at 1, is_failed at 1, is_skipped at 1.
  destruct (process_row field r); cbn [List.length]; lia.
Qed.

Lemma processed_row_cells field r : cells (processed_row field r) = cells r.
Proof. unfold processed_row. now destruct (process_row field r). Qed.

Lemma processed_row_state field r :
  unset r ->
  (is_updated field r = true /\ filled (processed_row field r)) \/
  (is_updated field r = false /\ unset (processed_row field r)).
Proof.
  intro Hu. unfold processed_row, is_updated.
  destruct (process_row field r) as [| |b] eqn:E; [now right|now right|left].
  split; [reflexivity|].
  destruct (process_row_updated field r b E) as (coordinates & Hc).
  eapply set_bounds_filled, Hc.
Qed.

End Table.

(** X18.  What the loop over the rows does to one row.  The row is skipped
    without an error exactly when its geometry cell is null or the empty
    text; any other cell either updates the row or counts as a row error.
    A row is updated only with bounds that [calculate_bounds] returned, and
    then all of its eight new cells hold numbers; a row that is skipped or
    fails keeps its eight cells as they were.  The cells read from the file
    are never changed. *)
Theorem X18_row_outcome (geometry_field_name : string) (r : GeometryProcessor.row)
  (c : option string) :
  GeometryProcessor.row_getitem (GeometryProcessor.cells r) geometry_field_name = Ok c ->
  (GeometryProcessor.process_row geometry_field_name r = GeometryProcessor.Skipped
   <-> c = None \/ c = Some "") /\
  (forall b,
     GeometryProcessor.process_row geometry_field_name r = GeometryProcessor.Updated b ->
     (exists coordinates, GeometryProcessor.calculate_bounds coordinates = Ok b) /\
     processed_row geometry_field_name r = GeometryProcessor.set_bounds r b /\
     filled (processed_row geometry_field_name r)) /\
  (is_updated geometry_field_name r = false ->
   processed_row geometry_field_name r = r) /\
  GeometryProcessor.cells (processed_row geometry_field_name r)
  = GeometryProcessor.cells r.
Proof.
  intro Hcell. split; [apply process_row_skipped, Hcell|]. split; [|split].
  - intros b Hb.
    destruct (process_row_updated _ r b Hb) as (coordinates & Hc).
    split; [eauto|]. unfold processed_row. rewrite Hb. split; [reflexivity|].
    eapply set_bounds_filled, Hc.
  - unfold is_updated, processed_row.
    destruct (GeometryProcessor.process_row geometry_field_name r);
      [reflexivity|reflexivity|discriminate].
  - apply processed_row_cells.
Qed.

Lemma X18_witness :
  GeometryProcessor.process_row "geom" pair_row <> GeometryProcessor.Skipped /\
  filled (processed_row "geom" pair_row).
Proof.
  destruct (X18_row_outcome "geom" pair_row (Some "  (12.5, 45.25) ") eq_refl)
    as (H1 & H2 & _).
  split.
  - intro H. apply H1 in H. destruct H; discriminate.
  - destruct (GeometryProcessor.process_row "geom" pair_row) as [| |b] eqn:E;
      [vm_compute in E; discriminate|vm_compute in E; discriminate|].
    destruct (H2 b eq_refl) as (_ & _ & H). exact H.
Defined.

(** X19.  The table that [process_excel_file] writes.  For a file that
    exists, whose table can be read, has the geometry column and has none
    of the eight new column names yet, the function succeeds.  The output
    is named after the input, its columns are the columns read followed by
    the eight new columns, and its rows are the rows read, as many and in
    the same order, each with the cells it had: in every row the eight new
    cells are either all unset or all numbers, and they are unset in every
    row whose geometry cell is null or empty.  The two counters of the loop
    start from zero and count the rows updated and the rows in error; with
    the rows skipped they add up to the number of rows. *)
Theorem X19_table_written (fs : list GeometryProcessor.file)
  (field input_file : string) (f : GeometryProcessor.file)
  (df : GeometryProcessor.dataframe) :
  GeometryProcessor.find_file fs input_file = Some f ->
  GeometryProcessor.file_table f = Some df ->
  In field (GeometryProcessor.columns df) ->
  (forall c, In c GeometryProcessor.new_columns ->
     ~ In c (GeometryProcessor.columns df)) ->
  exists out,
    GeometryProcessor.process_excel_file fs field input_file
    = Ok (output_name input_file, out) /\
    GeometryProcessor.columns out
    = GeometryProcessor.columns df ++ GeometryProcessor.new_columns /\
    List.length (GeometryProcessor.rows out) = List.length (GeometryProcessor.rows df) /\
    map GeometryProcessor.cells (GeometryProcessor.rows out)
    = map GeometryProcessor.cells (GeometryProcessor.rows df) /\
    Forall (fun r => unset r \/ filled r) (GeometryProcessor.rows out) /\
    Forall (fun r => empty_cell field r -> unset r) (GeometryProcessor.rows out) /\
    let rows1 := GeometryProcessor.rows (GeometryProcessor.add_new_columns df) in
    let counts :=
      snd (GeometryProcessor.process_rows field rows1
             {| GeometryProcessor.processed_rows := 0;
                GeometryProcessor.error_rows := 0 |}) in
    GeometryProcessor.processed_rows counts
    = List.length (filter (is_updated field) rows1) /\
    GeometryProcessor.error_rows counts
    = List.length (filter (is_failed field) rows1) /\
    GeometryProcessor.processed_rows counts + GeometryProcessor.error_rows counts
    + List.length (filter (is_skipped field) rows1)
    = List.length (GeometryProcessor.rows df).
Proof.
  intros Hf Hdf Hfield _.
  unfold GeometryProcessor.process_excel_file. rewrite Hf, Hdf.
  rewrite (existsb_eqb_In_iff field _ Hfield). cbn [negb]. cbv zeta.
  rewrite !process_rows_spec. eexists. split; [reflexivity|].
  cbn [GeometryProcessor.columns]. split; [reflexivity|].
  cbn [GeometryProcessor.rows GeometryProcessor.add_new_columns].
  set (fresh := fun r : GeometryProcessor.row =>
         {| GeometryProcessor.cells := GeometryProcessor.cells r;
            GeometryProcessor.appended :=
              map (fun c => (c, VNone)) GeometryProcessor.new_columns |}).
  split; [now rewrite !length_map|].
  split.
  { rewrite !map_map. apply map_ext. intro r. now rewrite processed_row_cells. }
  split.
  { apply Forall_map, Forall_map, Forall_forall. intros r _.
    destruct (processed_row_state field (fresh r) eq_refl) as [[_ H]|[_ H]];
      [now right|now left]. }
  split.
  { apply Forall_map, Forall_map, Forall_forall. intros r _ He.
    unfold empty_cell in He. rewrite processed_row_cells in He.
    assert (Hs : GeometryProcessor.process_row field (fresh r)
                 = GeometryProcessor.Skipped).
    { destruct He as [He|He];
        apply (process_row_skipped field (fresh r) _ He); tauto. }
    change (unset (processed_row field (fresh r))).
    unfold processed_row. rewrite Hs. reflexivity. }
  cbn [snd GeometryProcessor.processed_rows GeometryProcessor.error_rows Nat.add].
  split; [reflexivity|]. split; [reflexivity|].
  rewrite outcome_partition. now rewrite length_map.
Qed.

Lemma X19_witness :
  exists out,
    GeometryProcessor.process_excel_file batch_with_missing_column "geom" "b.csv"
    = Ok ("b_with_bounds.csv", out) /\
    GeometryProcessor.columns out = "geom" :: GeometryProcessor.new_columns /\
    Forall (fun r => unset r \/ filled r) (GeometryProcessor.rows out).
Proof.
  destruct (X19_table_written batch_with_missing_column "geom" "b.csv"
              {| GeometryProcessor.file_name := "b.csv";
                 GeometryProcessor.file_size := 20;
                 GeometryProcessor.file_table := Some table_b |} table_b)
    as (out & H1 & H2 & _ & _ & H5 & _).
  - reflexivity.
  - reflexivity.
  - simpl. tauto.
  - intros c Hc [E|[]]. subst c. simpl in Hc.
    repeat (destruct Hc as [Hc|Hc]; [discriminate|]). exact Hc.
  - exists out. split; [exact H1|]. split; [exact H2|exact H5].
Defined.

(** ** Objects, scalars, blanks and letter case *)

Section MoreCells.

Import Re GeometryProcessor.

Lemma json_object_detected s d :
  s <> "" -> Json.loads (strip s) = Some (VDict d) ->
  detect_geometry_format (Some s)
  = match Walk.collect (VDict d) with
    | Ok pts =>
        Ok (if dict_has d "type" then "geojson" else "json", coordinates_dict pts)
    | Raise _ => Raise ValueError
    end.
Proof.
  intros Hne Hl. rewrite (detect_cases s Hne). cbv zeta.
  unfold _is_geojson. rewrite Hl.
  destruct (dict_has d "type").
  - unfold _parse_geojson, _extract_coordinates_from_geojson. rewrite Hl.
    destruct (Walk.collect (VDict d)); reflexivity.
  - destruct (_is_wkt (strip s)) eqn:Ew.
    { rewrite (is_wkt_not_json _ Ew) in Hl. discriminate. }
    unfold _is_json, _parse_json, _extract_coordinates_from_geojson. rewrite Hl.
    destruct (Walk.collect (VDict d)); reflexivity.
Qed.

Lemma json_scalar_detected s v :
  s <> "" -> Json.loads (strip s) = Some v ->
  (forall l, v <> VList l) -> (forall d, v <> VDict d) ->
  detect_geometry_format (Some s) = Raise ValueError.
Proof.
  intros Hne Hl H1 H2. rewrite (detect_cases s Hne). cbv zeta.
  destruct (_is_wkt (strip s)) eqn:Ew.
  { rewrite (is_wkt_not_json _ Ew) in Hl. discriminate. }
  unfold _is_geojson, _is_json, _parse_json. rewrite Hl.
  destruct v as [| | | |l|d]; try reflexivity.
  - now destruct (H1 l).
  - now destruct (H2 d).
Qed.

Lemma rstrip_rstrip s : rstrip (rstrip s) = rstrip s.
Proof.
  induction s as [|c s IH]; [reflexivity|].
  cbn [rstrip]. destruct (rstrip s) as [|d r'] eqn:E.
  - destruct (is_space c) eqn:Ec; [reflexivity|]. cbn [rstrip]. now rewrite Ec.
  - cbn [rstrip]. cbn [rstrip] in IH.
    destruct (rstrip r') as [|e r''] eqn:E'.
    + destruct (is_space d); [discriminate|]. now rewrite IH.
    + now rewrite IH.
Qed.

Lemma strip_strip s : strip (strip s) = strip s.
Proof.
  unfold strip at 1. rewrite lstrip_strip. unfold strip. apply rstrip_rstrip.
Qed.

End MoreCells.

(** X20.  A cell that holds a JSON object or a JSON scalar.  When the text
    of the cell, without the blanks around it, decodes to an object, the
    format is [geojson] if the object has the key [type] and [json]
    otherwise, and in both cases the points are those that the walk
    collects from the object; when the walk raises, detection raises
    [ValueError].  The row is then updated exactly when [calculate_bounds]
    succeeds on the points collected, and it is a row error when there is
    no point.  When the text decodes to a number, a string, a boolean or
    [null], detection raises [ValueError] and the row is a row error. *)
Theorem X20_json_object_row (geometry_field_name : string)
  (r : GeometryProcessor.row) (s : string) (v : value) :
  GeometryProcessor.row_getitem (GeometryProcessor.cells r) geometry_field_name
    = Ok (Some s) ->
  s <> "" ->
  Json.loads (strip s) = Some v ->
  (forall d pts, v = VDict d -> Walk.collect v = Ok pts ->
     GeometryProcessor.detect_geometry_format (Some s)
     = Ok (if dict_has d "type" then "geojson" else "json", coordinates_dict pts) /\
     GeometryProcessor.process_row geometry_field_name r
     = match GeometryProcessor.calculate_bounds (VList pts) with
       | Ok b => GeometryProcessor.Updated b
       | Raise _ => GeometryProcessor.Failed
       end /\
     (pts = [] ->
      GeometryProcessor.process_row geometry_field_name r = GeometryProcessor.Failed)) /\
  (forall d e, v = VDict d -> Walk.collect v = Raise e ->
     GeometryProcessor.detect_geometry_format (Some s) = Raise ValueError /\
     GeometryProcessor.process_row geometry_field_name r = GeometryProcessor.Failed) /\
  ((forall l, v <> VList l) -> (forall d, v <> VDict d) ->
     GeometryProcessor.detect_geometry_format (Some s) = Raise ValueError /\
     GeometryProcessor.process_row geometry_field_name r = GeometryProcessor.Failed).
Proof.
  intros Hcell Hne Hl.
  assert (Hfail : GeometryProcessor.detect_geometry_format (Some s) = Raise ValueError ->
                  GeometryProcessor.process_row geometry_field_name r
                  = GeometryProcessor.Failed).
  { intro Hd. unfold GeometryProcessor.process_row. rewrite Hcell. cbn [bind].
    now rewrite Hd. }
  split; [|split].
  - intros d pts -> Hc.
    pose proof (json_object_detected s d Hne Hl) as Hd. rewrite Hc in Hd.
    assert (Hr : GeometryProcessor.process_row geometry_field_name r
                 = match GeometryProcessor.calculate_bounds (VList pts) with
                   | Ok b => GeometryProcessor.Updated b
                   | Raise _ => GeometryProcessor.Failed
                   end).
    { apply (process_row_parsed _ r s _ _ Hcell Hd);
        destruct (dict_has d "type"); discriminate. }
    split; [exact Hd|]. split; [exact Hr|].
    intros ->. rewrite Hr. reflexivity.
  - intros d e -> Hc.
    pose proof (json_object_detected s d Hne Hl) as Hd. rewrite Hc in Hd.
    split; [exact Hd|]. apply Hfail, Hd.
  - intros H1 H2. pose proof (json_scalar_detected s v Hne Hl H1 H2) as Hd.
    split; [exact Hd|]. apply Hfail, Hd.
Qed.

Lemma X20_witness :
  GeometryProcessor.process_row "geom" polygon_row
  = GeometryProcessor.Updated (excel_bounds (10 # 1) (30 # 1) (10 # 1) (20 # 1)).
Proof.
  destruct (X20_json_object_row "geom" polygon_row scenario_A
              (VDict [("type", VStr "Polygon");
                      ("coordinates", VList [scenario_A_ring])]))
    as (H & _).
  - reflexivity.
  - discriminate.
  - vm_compute. reflexivity.
  - destruct (H _ _ eq_refl eq_refl) as (_ & Hr & _). rewrite Hr.
    vm_compute. reflexivity.
Defined.

(** X21.  Blanks around a geometry do not matter.  [strip] is idempotent,
    and detection gives the same answer on a text and on the text without
    the blanks around it, provided something is left: a text of blanks
    only is the one case where the blanks count. *)
Theorem X21_blanks_around_do_not_matter (s : string) :
  strip s <> "" ->
  strip (strip s) = strip s /\
  GeometryProcessor.detect_geometry_format (Some (strip s))
  = GeometryProcessor.detect_geometry_format (Some s).
Proof.
  intro Hne. split; [apply strip_strip|].
  assert (Hs : s <> "") by (intros ->; now apply Hne).
  rewrite (detect_cases s Hs), (detect_cases (strip s) Hne). cbv zeta.
  now rewrite strip_strip.
Qed.

Lemma X21_witness :
  GeometryProcessor.detect_geometry_format (Some "(12.5, 45.25)")
  = GeometryProcessor.detect_geometry_format (Some "  (12.5, 45.25) ").
Proof.
  destruct (X21_blanks_around_do_not_matter "  (12.5, 45.25) ") as [_ H].
  - discriminate.
  - exact H.
Defined.

Section LetterCase.

Import Re GeometryProcessor.

(** A change of letter case: blanks stay blanks, nothing else becomes a
    blank, and the upper-case form of a character is kept. *)
Variable g : ascii -> ascii.
Hypothesis g_space : forall c, is_space (g c) = is_space c.
Hypothesis g_upper : forall c, upper_char (g c) = upper_char c.

Lemma lstrip_case s : lstrip (map_string g s) = map_string g (lstrip s).
Proof.
  induction s as [|c s IH]; simpl; [reflexivity|].
  rewrite g_space. now destruct (is_space c).
Qed.

Lemma rstrip_case s : rstrip (map_string g s) = map_string g (rstrip s).
Proof.
  induction s as [|c s IH]; simpl; [reflexivity|].
  rewrite IH, g_space.
  destruct (rstrip s); simpl; [now destruct (is_space c)|reflexivity].
Qed.

Lemma strip_case s : strip (map_string g s) = map_string g (strip s).
Proof. unfold strip. now rewrite lstrip_case, rstrip_case. Qed.

Lemma upper_collapse_case s : forall inside,
  upper (collapse_blanks inside (map_string g s)) = upper (collapse_blanks inside s).
Proof.
  unfold upper.
  induction s as [|c s IH]; intro inside; simpl; [reflexivity|].
  rewrite g_space. destruct (is_space c).
  - destruct inside; simpl; now rewrite IH.
  - simpl. now rewrite IH, g_upper.
Qed.

Lemma is_wkt_case s : _is_wkt (map_string g s) = _is_wkt s.
Proof. unfold _is_wkt. now rewrite strip_case, upper_collapse_case. Qed.

Lemma map_string_nonempty s : s <> "" -> map_string g s <> "".
Proof. destruct s; [congruence|discriminate]. Qed.

Lemma detect_wkt_case s :
  (forall t, _parse_wkt (map_string g t) = _parse_wkt t) ->
  s <> "" -> _is_wkt (strip s) = true ->
  detect_geometry_format (Some (map_string g s)) = detect_geometry_format (Some s) /\
  detect_geometry_format (Some s) = (d <- _parse_wkt (strip s) ;; Ok ("wkt", d)).
Proof.
  intros Hparse Hne Hw.
  assert (Hw' : _is_wkt (strip (map_string g s)) = true)
    by now rewrite strip_case, is_wkt_case.
  rewrite (detect_cases s Hne), (detect_cases _ (map_string_nonempty s Hne)).
  cbv zeta.
  pose proof (is_wkt_not_json _ Hw) as J. pose proof (is_wkt_not_json _ Hw') as J'.
  unfold _is_geojson. rewrite J, J', Hw, Hw'.
  now rewrite strip_case, Hparse.
Qed.

End LetterCase.

Lemma parse_wkt_lower s :
  GeometryProcessor._parse_wkt (lower s) = GeometryProcessor._parse_wkt s.
Proof. apply parse_wkt_map; intro c; by_cases c. Qed.

Lemma parse_wkt_upper s :
  GeometryProcessor._parse_wkt (upper s) = GeometryProcessor._parse_wkt s.
Proof. apply parse_wkt_map; intro c; by_cases c. Qed.

(** X22.  The letter case of a WKT text does not matter.  A text is
    accepted as WKT in lower case and in upper case exactly when it is
    accepted as written, and then detection gives the same format and the
    same points for the three spellings: the keyword is compared in upper
    case, and the scan for the coordinates looks at numerals and blanks
    only. *)
Theorem X22_wkt_letter_case (s : string) :
  GeometryProcessor._is_wkt (lower s) = GeometryProcessor._is_wkt s /\
  GeometryProcessor._is_wkt (upper s) = GeometryProcessor._is_wkt s /\
  (s <> "" -> GeometryProcessor._is_wkt (strip s) = true ->
   GeometryProcessor.detect_geometry_format (Some (lower s))
   = GeometryProcessor.detect_geometry_format (Some s) /\
   GeometryProcessor.detect_geometry_format (Some (upper s))
   = GeometryProcessor.detect_geometry_format (Some s) /\
   GeometryProcessor.detect_geometry_format (Some s)
   = (d <- GeometryProcessor._parse_wkt (strip s) ;; Ok ("wkt", d))).
Proof.
  assert (L1 : forall c, is_space (lower_char c) = is_space c) by (intro c; by_cases c).
  assert (L2 : forall c, upper_char (lower_char c) = upper_char c)
    by (intro c; by_cases c).
  assert (U1 : forall c, is_space (upper_char c) = is_space c) by (intro c; by_cases c).
  assert (U2 : forall c, upper_char (upper_char c) = upper_char c)
    by (intro c; by_cases c).
  split; [apply (is_wkt_case lower_char L1 L2)|].
  split; [apply (is_wkt_case upper_char U1 U2)|].
  intros Hne Hw.
  destruct (detect_wkt_case lower_char L1 L2 s parse_wkt_lower Hne Hw) as [A B].
  destruct (detect_wkt_case upper_char U1 U2 s parse_wkt_upper Hne Hw) as [C _].
  split; [exact A|]. split; [exact C|exact B].
Qed.

Lemma X22_witness :
  GeometryProcessor.detect_geometry_format (Some (lower scenario_B))
  = GeometryProcessor.detect_geometry_format (Some scenario_B).
Proof.
  destruct (X22_wkt_letter_case scenario_B) as (_ & _ & H).
  destruct H as (H & _); [discriminate|vm_compute; reflexivity|exact H].
Defined.

(** ** The exit status *)

Section ExitStatus.

Lemma geojson_process_directory_returns fs :
  fst (GeoJsonBatchProcessor.process_directory fs GeoJsonBatchProcessor.init)
    = GeoJsonBatchProcessor.Returned \/
  fst (GeoJsonBatchProcessor.process_directory fs GeoJsonBatchProcessor.init)
    = GeoJsonBatchProcessor.Exited 1.
Proof.
  destruct (invalid_files fs (geojson_files fs)) as [|b bad] eqn:Ebad.
  - left. destruct (geojson_files fs) as [|g gs] eqn:Eg.
    + unfold GeoJsonBatchProcessor.process_directory. fold (geojson_files fs).
      now rewrite Eg.
    + apply process_directory_valid; [congruence|now rewrite Eg].
  - right. now rewrite (process_directory_invalid fs b bad Ebad).
Qed.

Lemma geojson_returns_iff fs :
  fst (GeoJsonBatchProcessor.process_directory fs GeoJsonBatchProcessor.init)
    = GeoJsonBatchProcessor.Returned <->
  (forall f, In f (geojson_files fs) ->
     fst (fst (GeoJsonBatchProcessor.validate_geojson_file fs f)) = true).
Proof.
  split.
  - intros H f Hin.
    destruct (fst (fst (GeoJsonBatchProcessor.validate_geojson_file fs f))) eqn:E;
      [reflexivity|].
    pose proof (invalid_files_In fs _ f Hin E) as Hbad.
    destruct (invalid_files fs (geojson_files fs)) as [|b bad] eqn:Ebad;
      [destruct Hbad|].
    rewrite (process_directory_invalid fs b bad Ebad) in H. discriminate.
  - intro Hall. pose proof (invalid_files_nil fs _ Hall) as Hgood.
    destruct (geojson_files fs) as [|g gs] eqn:Eg.
    + unfold GeoJsonBatchProcessor.process_directory. fold (geojson_files fs).
      now rewrite Eg.
    + apply process_directory_valid; [congruence|now rewrite Eg].
Qed.

Lemma excel_returns_iff fs field :
  (fst (GeometryProcessor.process_directory fs (GeometryProcessor.init field) field)
     = GeometryProcessor.Returned <->
   (forall f, In f (excel_files fs) ->
      fst (GeometryProcessor.validate_excel_file fs field f) = true)) /\
  (fst (GeometryProcessor.process_directory fs (GeometryProcessor.init field) field)
     = GeometryProcessor.Returned \/
   fst (GeometryProcessor.process_directory fs (GeometryProcessor.init field) field)
     = GeometryProcessor.Exited 1).
Proof.
  unfold GeometryProcessor.process_directory. fold (excel_files fs).
  destruct (excel_files fs) as [|g gs] eqn:Eg.
  { split; [|now left]. split; [intros _ f []|reflexivity]. }
  rewrite <- Eg. clear Eg g gs.
  match goal with
  | |- context [GeometryProcessor.validate_all fs ?l ?v ?s] =>
      pose proof (excel_validate_all_spec fs l v s) as Hs;
      destruct (GeometryProcessor.validate_all fs l v s) as [valid st]
  end.
  cbn zeta in Hs. cbn [fst snd] in Hs.
  cbn [GeometryProcessor.init GeometryProcessor.geometry_field_name
       GeometryProcessor.error_files app] in Hs.
  destruct Hs as (_ & _ & H2 & _).
  destruct (GeometryProcessor.error_files st) as [|b bad] eqn:Est; cbn [fst].
  - split; [|now left]. split; [|reflexivity]. intros _ f Hin.
    destruct (fst (GeometryProcessor.validate_excel_file fs field f)) eqn:E;
      [reflexivity|].
    pose proof (invalid_excel_files_In fs field _ f Hin E) as Hbad.
    rewrite <- H2 in Hbad. destruct Hbad.
  - split; [|now right]. split; [discriminate|]. intro Hall.
    destruct (invalid_excel_files_nil fs field _ Hall) as [Hnil _].
    rewrite Hnil in H2. discriminate.
Qed.

End ExitStatus.

(** X23.  The exit status of the GeoJSON script.  [main] ends with status
    0 or with status 1.  It ends with status 0 exactly when it was given
    two arguments, the first names an existing directory, the second names
    a path that exists or that [os.makedirs] can create, and every file
    found by the scan passes validation.  Hence a directory without any
    GeoJSON file ends with status 0, and so does a batch in which files
    failed during processing: only the arguments, the two directories and
    the validation can make the status 1.  The arguments are taken without
    the blanks and the double quotes around them. *)
Theorem X23_geojson_exit_status (argv : list string)
  (os : Cli.filesystem GeoJsonBatchProcessor.file) :
  (fst (CreateRectangleFromGeojson.main argv os) = 0%Z \/
   fst (CreateRectangleFromGeojson.main argv os) = 1%Z) /\
  (fst (CreateRectangleFromGeojson.main argv os) = 0%Z <->
   exists prog a1 a2,
     argv = [prog; a1; a2] /\
     Cli.path_exists os (Cli.argument a1) = true /\
     Cli.isdir os (Cli.argument a1) = true /\
     (Cli.path_exists os (Cli.argument a2) = true \/
      Cli.makedirs os (Cli.argument a2) = true) /\
     forall f, In f (geojson_files (Cli.files os (Cli.argument a1))) ->
       fst (fst (GeoJsonBatchProcessor.validate_geojson_file
                   (Cli.files os (Cli.argument a1)) f)) = true).
Proof.
  unfold CreateRectangleFromGeojson.main.
  destruct argv as [|prog [|a1 [|a2 [|a3 rest]]]];
    try (split; [now right|]; split;
         [discriminate|intros (p & b1 & b2 & E & _); discriminate]).
  destruct (Cli.path_exists os (Cli.argument a1)) eqn:E1; cbn [negb].
  2: { split; [now right|]. split; [discriminate|].
       intros (p & b1 & b2 & E & H1 & _). injection E as <- <- <-. congruence. }
  destruct (Cli.isdir os (Cli.argument a1)) eqn:E2; cbn [negb].
  2: { split; [now right|]. split; [discriminate|].
       intros (p & b1 & b2 & E & _ & H2 & _). injection E as <- <- <-. congruence. }
  destruct (negb (Cli.path_exists os (Cli.argument a2))
            && negb (Cli.makedirs os (Cli.argument a2)))%bool eqn:E3.
  { apply andb_true_iff in E3 as [E3 E4]. apply negb_true_iff in E3, E4.
    split; [now right|]. split; [discriminate|].
    intros (p & b1 & b2 & E & _ & _ & [H|H] & _); injection E as <- <- <-; congruence. }
  assert (Hout : Cli.path_exists os (Cli.argument a2) = true \/
                 Cli.makedirs os (Cli.argument a2) = true).
  { destruct (Cli.path_exists os (Cli.argument a2)); [now left|].
    destruct (Cli.makedirs os (Cli.argument a2)); [now right|discriminate]. }
  pose proof (geojson_returns_iff (Cli.files os (Cli.argument a1))) as Hiff.
  destruct (geojson_process_directory_returns (Cli.files os (Cli.argument a1)))
    as [Hr|Hr];
    destruct (GeoJsonBatchProcessor.process_directory
                (Cli.files os (Cli.argument a1)) GeoJsonBatchProcessor.init)
      as [[|code] st]; cbn [fst] in *; try discriminate.
  - split; [now left|]. split; [|reflexivity]. intros _.
    exists prog, a1, a2. repeat split; try assumption. now apply Hiff.
  - injection Hr as ->. split; [now right|]. split; [discriminate|].
    intros (p & b1 & b2 & E & _ & _ & _ & Hall). injection E as <- <- <-.
    apply Hiff in Hall. discriminate.
Qed.

Lemma X23_witness :
  fst (CreateRectangleFromGeojson.main ["prog"; " data "; "out"] sample_filesystem) = 0%Z.
Proof.
  destruct (X23_geojson_exit_status ["prog"; " data "; "out"] sample_filesystem)
    as [_ [_ H]].
  apply H. exists "prog", " data ", "out".
  split; [reflexivity|]. split; [reflexivity|]. split; [reflexivity|].
  split; [now right|].
  intros f Hf. vm_compute in Hf.
  destruct Hf as [<-|[<-|[]]]; vm_compute; reflexivity.
Defined.

(** X24.  The exit status of the tabular script.  [main] ends with status
    0 or with status 1.  It ends with status 0 exactly when it was given
    one to three arguments, the first names an existing directory, the
    output directory, when one is given and is not the empty text, exists
    or can be created, and every file found by the scan passes validation
    for the geometry column, which is the third argument or [geom].  A
    directory without any table, row errors and files that fail during
    processing all leave the status at 0. *)
Theorem X24_tabular_exit_status (argv : list string)
  (os : Cli.filesystem GeometryProcessor.file) :
  (fst (ExcelGeometryBoundsProcessor.main argv os) = 0%Z \/
   fst (ExcelGeometryBoundsProcessor.main argv os) = 1%Z) /\
  (fst (ExcelGeometryBoundsProcessor.main argv os) = 0%Z <->
   exists prog a1 others,
     argv = prog :: a1 :: others /\ List.length others <= 2 /\
     Cli.path_exists os (Cli.argument a1) = true /\
     Cli.isdir os (Cli.argument a1) = true /\
     (forall a2 rest, others = a2 :: rest -> Cli.argument a2 <> "" ->
        Cli.path_exists os (Cli.argument a2) = true \/
        Cli.makedirs os (Cli.argument a2) = true) /\
     let geometry_field_name :=
       match others with
       | [_; a3] => Cli.argument a3
       | _ => "geom"
       end in
     forall f, In f (excel_files (Cli.files os (Cli.argument a1))) ->
       fst (GeometryProcessor.validate_excel_file
              (Cli.files os (Cli.argument a1)) geometry_field_name f) = true).
Proof.
  assert (Hbad : forall p : Prop,
             (fst (1%Z, @None GeometryProcessor.state) = 0%Z \/
              fst (1%Z, @None GeometryProcessor.state) = 1%Z) /\
             (~ p -> (fst (1%Z, @None GeometryProcessor.state) = 0%Z <-> p))).
  { intro p. split; [now right|]. intro Hp. split; [discriminate|]. intro H.
    now destruct (Hp H). }
  unfold ExcelGeometryBoundsProcessor.main.
  destruct argv as [|prog [|a1 others]].
  { split; [now right|]. apply Hbad. intros (p & b1 & o & E & _). discriminate. }
  { split; [now right|]. apply Hbad. intros (p & b1 & o & E & _). discriminate. }
  cbn [List.length].
  destruct (Nat.ltb (S (S (List.length others))) 2
            || Nat.ltb 4 (S (S (List.length others))))%bool eqn:Eargc.
  { split; [now right|]. apply Hbad.
    intros (p & b1 & o & E & Hlen & _). injection E as <- <- <-.
    apply orb_true_iff in Eargc as [H|H]; apply Nat.ltb_lt in H; lia. }
  apply orb_false_iff in Eargc as [_ Eargc]. apply Nat.ltb_ge in Eargc.
  assert (Hlen : List.length others <= 2) by lia.
  cbn [nth].
  destruct (Cli.path_exists os (Cli.argument a1)) eqn:E1; cbn [negb].
  2: { split; [now right|]. apply Hbad.
       intros (p & b1 & o & E & _ & H1 & _). injection E as <- <- <-. congruence. }
  destruct (Cli.isdir os (Cli.argument a1)) eqn:E2; cbn [negb].
  2: { split; [now right|]. apply Hbad.
       intros (p & b1 & o & E & _ & _ & H2 & _). injection E as <- <- <-. congruence. }
  set (field := if Nat.eqb (S (S (List.length others))) 4
                then Cli.argument (nth 1 others "") else "geom").
  assert (Hfield : field = match others with
                           | [_; a3] => Cli.argument a3
                           | _ => "geom"
                           end).
  { unfold field. destruct others as [|a2 [|a3 [|a4 rest]]]; reflexivity. }
  set (created :=
         match (if Nat.leb 3 (S (S (List.length others)))
                then Some (Cli.argument (nth 0 others "")) else None) with
         | Some d => if String.eqb d "" then true
                     else (Cli.path_exists os d || Cli.makedirs os d)%bool
         | None => true
         end).
  assert (Hcreated : created = true <->
            (forall a2 rest, others = a2 :: rest -> Cli.argument a2 <> "" ->
               Cli.path_exists os (Cli.argument a2) = true \/
               Cli.makedirs os (Cli.argument a2) = true)).
  { unfold created. destruct others as [|a2 rest]; cbn [List.length Nat.leb nth].
    - split; [intros _ a2 rest E; discriminate|reflexivity].
    - destruct (String.eqb_spec (Cli.argument a2) "") as [He|He].
      + split; [|reflexivity]. intros _ b2 r E Hb. injection E as <- <-. congruence.
      + split.
        * intros H b2 r E _. injection E as <- <-. now apply orb_true_iff.
        * intro H. apply orb_true_iff. now apply (H a2 rest). }
  destruct created eqn:Ec; cbn [negb].
  2: { split; [now right|]. apply Hbad.
       intros (p & b1 & o & E & _ & _ & _ & Hc & _). injection E as <- <- <-.
       apply Hcreated in Hc. discriminate. }
  destruct (excel_returns_iff (Cli.files os (Cli.argument a1)) field) as [Hiff Hr].
  destruct (GeometryProcessor.process_directory
              (Cli.files os (Cli.argument a1)) (GeometryProcessor.init field) field)
    as [[|code] st]; cbn [fst] in *.
  - split; [now left|]. split; [|reflexivity]. intros _.
    exists prog, a1, others. split; [reflexivity|]. split; [assumption|].
    split; [assumption|]. split; [assumption|].
    split; [now apply Hcreated|]. cbv zeta. rewrite <- Hfield. now apply Hiff.
  - destruct Hr as [Hr|Hr]; [discriminate|]. injection Hr as ->.
    split; [now right|]. split; [discriminate|].
    intros (p & b1 & o & E & _ & _ & _ & _ & Hall). injection E as <- <- <-.
    cbv zeta in Hall. rewrite <- Hfield in Hall. apply Hiff in Hall. discriminate.
Qed.

Lemma X24_witness :
  fst (ExcelGeometryBoundsProcessor.main ["prog"; "tables"; ""; "id"] tables_filesystem)
  <> 0%Z.
Proof.
  destruct (X24_tabular_exit_status ["prog"; "tables"; ""; "id"] tables_filesystem)
    as [_ [H _]].
  intro E. destruct (H E) as (p & a1 & o & Eargv & _ & _ & _ & _ & Hall).
  injection Eargv as <- <- <-. cbv zeta in Hall.
  specialize (Hall "b.csv"). vm_compute in Hall.
  assert (Hf : false = true) by (apply Hall; tauto). discriminate.
Defined.
